(** * A shallow embedding of the clinical multi-agent chatbot

    The development follows the Python sources:
    - [langgraph_rag/tools/cohort_query.py]: the table store and the cohort
      engine ([_load_table], [load_tables_from_config], [_apply_filter],
      [execute_cohort_filter_step], [execute_feature_descriptives_step]);
    - [langgraph_rag/chunking.py]: the ingestion loader
      ([infer_text_columns], [_load_table_rows_as_text]);
    - [langgraph_rag/llm.py]: the stage agents ([_chat_completion],
      [_safe_json_parse], [generate_oncologist_view], [generate_planner_plan],
      [generate_analyst_code], [generate_writer_answer]);
    - [langgraph_rag/graph/multi_agent_rwe_graph.py]: the four nodes and the
      linear graph oncologist -> planner -> analyst -> writer.

    Python dictionaries whose order is observable (results, filter
    specifications, JSON values) are association lists; dictionaries that are
    only looked up and updated (the loaded tables, the cohort context, the
    pipeline record) are [gmap]s.  Exceptions are an explicit result type.
    A finite float64 is an exact rational here, beside the infinities and
    NaN; the rounding of a result and the textual form of a float are
    outside the model, the latter being supplied by the [Lib] record of
    library primitives.  An object that runs code of its own when the
    program asks for its [str()] is known by what that gives: this is so for
    the exceptions and for the object that generated code returns. *)

From Stdlib Require Import ZArith QArith Qcanon Qround Ascii String DecimalString.
From stdpp Require Import base option list strings numbers gmap fin_maps sorting.

Local Open Scope string_scope.

(** ** Python strings *)

Module PyStr.

(** The one-character string holding the double quote. *)
Definition dquote : ascii := ascii_of_nat 34.
Definition squote : ascii := ascii_of_nat 39.
Definition backslash : ascii := ascii_of_nat 92.

(** [str.isspace] on the ASCII range: tab, line feed, vertical tab, form
    feed, carriage return, the four separators 28-31 and the space. *)
Definition is_space (c : ascii) : bool :=
  let n := nat_of_ascii c in
  ((9 <=? n)%nat && (n <=? 13)%nat) || ((28 <=? n)%nat && (n <=? 32)%nat).

Fixpoint lstrip (s : string) : string :=
  match s with
  | String c t => if is_space c then lstrip t else s
  | EmptyString => EmptyString
  end.

(** Drops trailing white space: a character is kept when something after it
    is kept or when it is not white space itself. *)
Fixpoint rstrip (s : string) : string :=
  match s with
  | String c t =>
      match rstrip t with
      | EmptyString => if is_space c then EmptyString else String c EmptyString
      | t' => String c t'
      end
  | EmptyString => EmptyString
  end.

(** [s.strip()] *)
Definition strip (s : string) : string := rstrip (lstrip s).

(** [s.lower()] on ASCII letters. *)
Definition lower_ascii (c : ascii) : ascii :=
  let n := nat_of_ascii c in
  if ((65 <=? n)%nat && (n <=? 90)%nat) then ascii_of_nat (n + 32) else c.

Fixpoint lower (s : string) : string :=
  match s with
  | String c t => String (lower_ascii c) (lower t)
  | EmptyString => EmptyString
  end.

(** [needle in hay] *)
Fixpoint contains (needle hay : string) : bool :=
  String.prefix needle hay ||
  match hay with
  | String _ t => contains needle t
  | EmptyString => false
  end.

(** [s[:n]] *)
Definition take (n : nat) (s : string) : string := String.substring 0 n s.

(** [sep.join(parts)] *)
Fixpoint join (sep : string) (parts : list string) : string :=
  match parts with
  | [] => EmptyString
  | [p] => p
  | p :: ps => p ++ sep ++ join sep ps
  end.

(** [str(z)] for an int. *)
Definition of_Z (z : Z) : string := NilZero.string_of_int (Z.to_int z).

Definition hex_digit (n : nat) : ascii :=
  if (n <? 10)%nat then ascii_of_nat (48 + n) else ascii_of_nat (87 + n).

End PyStr.

(** ** Exceptions and results *)

(** [except Exception] catches the classes derived from [Exception]; the
    classes derived from [BaseException] only ([KeyboardInterrupt],
    [SystemExit], [GeneratorExit]) pass through it. *)
Inductive ExcKind := StdException | BaseOnly.

(** An exception is known by what the code asks of it: whether
    [except Exception] catches it, the name of its class, and what [str(e)]
    gives.  [str(e)] runs the [__str__] of the class of [e], which for an
    exception of generated code is code of its own: [exc_str e k] is what
    the evaluation number [k] of [str(e)] in a handler gives, counted from
    0, either the text or the exception that [__str__] raises.  A [__str__]
    that does not return is outside the model. *)
#[warnings="-register-all"]
Inductive PyExc := mkExc {
  exc_kind : ExcKind;
  exc_class : string;
  exc_str : nat -> string + PyExc
}.

Inductive Result (A : Type) : Type :=
| Ok (a : A)
| Raise (e : PyExc).
Arguments Ok {A} a.
Arguments Raise {A} e.

#[global] Instance result_ret : MRet Result := @Ok.
#[global] Instance result_bind : MBind Result :=
  fun A B f m => match m with Ok a => f a | Raise e => Raise e end.

(** An exception of the language or of a library, whose [str()] is its
    message. *)
Definition err (cls msg : string) : PyExc := mkExc StdException cls (fun _ => inl msg).

(** The evaluation number [k] of [str(e)]. *)
Definition str_exc (e : PyExc) (k : nat) : Result string :=
  match exc_str e k with
  | inl msg => Ok msg
  | inr raised => Raise raised
  end.

(** [try: x = body / except Exception as e: return handler(e)], followed by
    the rest of the function, which uses [x]. *)
Definition try_else {A B} (body : Result A) (handler : PyExc -> Result B)
    (rest : A -> Result B) : Result B :=
  match body with
  | Ok a => rest a
  | Raise e =>
      match exc_kind e with
      | StdException => handler e
      | BaseOnly => Raise e
      end
  end.

(** ** Python values *)

(** The values that flow through the pipeline record and the step results:
    JSON-like data, plus [PObj] for an object of another class whose
    [str()] and [repr()] return, known by its class name and these two
    texts.  A float is finite ([PFloat], an exact rational here), an
    infinity or NaN. *)
#[warnings="-register-all"]
Inductive PyVal :=
| PNone
| PBool (b : bool)
| PInt (z : Z)
| PFloat (q : Qc)
| PInf (negative : bool)
| PNaN
| PStr (s : string)
| PList (l : list PyVal)
| PDict (d : list (string * PyVal))
| PObj (cls str_form repr_form : string).

Abbreviation Dict := (list (string * PyVal)).

Module PyDict.

(** [d.get(k)]: [None] when the key is absent. *)
Fixpoint get (k : string) (d : Dict) : option PyVal :=
  match d with
  | [] => None
  | (k', v) :: d' => if String.eqb k k' then Some v else get k d'
  end.

(** [d.get(k, dflt)] *)
Definition get_default (k : string) (dflt : PyVal) (d : Dict) : PyVal :=
  default dflt (get k d).

(** [d[k] = v]: an existing key keeps its position, a new key goes last. *)
Fixpoint set (k : string) (v : PyVal) (d : Dict) : Dict :=
  match d with
  | [] => [(k, v)]
  | (k', v') :: d' =>
      if String.eqb k k' then (k', v) :: d' else (k', v') :: set k v d'
  end.

(** [list(d.keys())] *)
Definition keys (d : Dict) : list string := d.*1.

End PyDict.

Section Printing.

(** [repr()] of a float64, supplied by the library record below. *)
Variable float_repr : Qc -> string.

Import PyStr.

Definition escape_char (quote c : ascii) : string :=
  let n := nat_of_ascii c in
  if Ascii.eqb c backslash then String backslash (String backslash EmptyString)
  else if Ascii.eqb c quote then String backslash (String quote EmptyString)
  else if (n =? 10)%nat then String backslash "n"
  else if (n =? 13)%nat then String backslash "r"
  else if (n =? 9)%nat then String backslash "t"
  else if ((n <? 32)%nat || (n =? 127)%nat)
    then String backslash (String "x" (String (hex_digit (n / 16)) (String (hex_digit (n mod 16)) EmptyString)))
  else String c EmptyString.

Fixpoint escape (quote : ascii) (s : string) : string :=
  match s with
  | String c t => escape_char quote c ++ escape quote t
  | EmptyString => EmptyString
  end.

(** [repr(s)] for a str: single quotes, unless the text holds a single
    quote and no double quote. *)
Definition repr_str (s : string) : string :=
  let quote :=
    if contains (String squote EmptyString) s && negb (contains (String dquote EmptyString) s)
    then dquote else squote in
  String quote (escape quote s ++ String quote EmptyString).

Fixpoint py_repr (v : PyVal) : string :=
  match v with
  | PNone => "None"
  | PBool true => "True"
  | PBool false => "False"
  | PInt z => of_Z z
  | PFloat q => float_repr q
  | PInf false => "inf"
  | PInf true => "-inf"
  | PNaN => "nan"
  | PStr s => repr_str s
  | PList l => "[" ++ join ", " (map py_repr l) ++ "]"
  | PDict d =>
      "{" ++ join ", " (map (fun '(k, x) => repr_str k ++ ": " ++ py_repr x) d) ++ "}"
  | PObj _ _ r => r
  end.

(** [str(v)] *)
Definition py_str (v : PyVal) : string :=
  match v with
  | PStr s => s
  | PObj _ s _ => s
  | _ => py_repr v
  end.

End Printing.

(** [json.dumps] accepts the JSON-like values, the floats that are not
    finite among them ([allow_nan] is left true), and raises [TypeError] on
    any other object. *)
Fixpoint json_serializable (v : PyVal) : bool :=
  match v with
  | PObj _ _ _ => false
  | PList l => forallb json_serializable l
  | PDict d => forallb (fun '(_, x) => json_serializable x) d
  | _ => true
  end.

(** ** Tables *)

(** A cell as [pd.read_csv] yields it: missing (the float NaN), an int64, a
    float64 that is finite (an exact rational here) or an infinity, a bool,
    or a str of an object column. *)
Inductive Cell :=
| CNaN
| CInt (z : Z)
| CFloat (q : Qc)
| CInf (negative : bool)
| CBool (b : bool)
| CStr (s : string).

#[global] Instance Cell_eq_dec : EqDecision Cell.
Proof. solve_decision. Defined.

(** A frame is its ordered column names and its rows, each row holding one
    cell per column.  The row index labels are not observed by the code
    modelled here and are left out. *)
Record DataFrame := mkFrame {
  columns : list string;
  rows : list (list Cell)
}.

(** A float64 as the statistics compute with it: finite, an infinity or
    NaN.  The finite values are exact rationals: the rounding of a result to
    the nearest float64, and its overflow, are outside the model, so that
    with two or more values a finite statistic can differ from the one of
    the library in its last bits. *)
Inductive F64 := Fin (q : Qc) | Inf (negative : bool) | NaN.

(** The library primitives whose results are not computed in this model. *)
Record Lib := mkLib {
  (** [repr(x)] of a finite float64 *)
  float_repr : Qc -> string;
  (** [float(z)] of an int64: the float64 nearest to it, the number itself
      up to 2^53 *)
  float_of_int : Z -> Qc;
  (** [pd.to_numeric(s, errors="coerce")] on a str cell: NaN when the text is
      not a number *)
  parse_number : string -> F64;
  (** [re.compile(pat)]: [None] when the pattern compiles, otherwise the
      message of the [re.error] it raises *)
  re_compile_error : string -> option string;
  (** [re.compile(pat, re.IGNORECASE).search(s) is not None] *)
  re_search_ignorecase : string -> string -> bool;
  (** the float64 square root of a finite value that is not negative *)
  fsqrt : Qc -> Qc
}.

Module Frame.
Section WithLib.

Variable lib : Lib.

(** [col in df.columns] *)
Definition has_column (col : string) (df : DataFrame) : bool :=
  bool_decide (col ∈ columns df).

(** [df.shape[0]] *)
Definition n_rows (df : DataFrame) : nat := length (rows df).

(** [df[col]] for a column of the frame: the cells of the first column of
    that name, a short row reading as missing. *)
Definition column (col : string) (df : DataFrame) : list Cell :=
  match list_find (eq col) (columns df) with
  | Some (i, _) => map (fun r => default CNaN (r !! i)) (rows df)
  | None => []
  end.

(** One element of [series.astype(str)]. *)
Definition cell_str (c : Cell) : string :=
  match c with
  | CNaN => "nan"
  | CInt z => PyStr.of_Z z
  | CFloat q => float_repr lib q
  | CInf false => "inf"
  | CInf true => "-inf"
  | CBool true => "True"
  | CBool false => "False"
  | CStr s => s
  end.

Definition notna (c : Cell) : bool :=
  match c with CNaN => false | _ => true end.

(** [series.dropna()] *)
Definition dropna (s : list Cell) : list Cell := List.filter notna s.

(** [series.nunique()]: the number of distinct values, missing ones not
    counted. *)
Definition nunique (s : list Cell) : nat := length (remove_dups (dropna s)).

(** [rows[mask]] *)
Fixpoint select_rows {A} (mask : list bool) (rs : list A) : list A :=
  match mask, rs with
  | b :: mask', r :: rs' => if b then r :: select_rows mask' rs' else select_rows mask' rs'
  | _, _ => []
  end.

(** [df[mask]] *)
Definition select (mask : list bool) (df : DataFrame) : DataFrame :=
  mkFrame (columns df) (select_rows mask (rows df)).

(** [series.isin(values)] *)
Definition isin (series values : list string) : list bool :=
  map (fun s => bool_decide (s ∈ values)) series.

(** [series.str.contains(pat, case=False, na=False)]: the pattern is a
    regular expression ([regex=True] is the default), compiled before any
    element is looked at. *)
Definition str_contains (pat : string) (series : list string) : Result (list bool) :=
  match re_compile_error lib pat with
  | Some msg => Raise (err "re.error" msg)
  | None => Ok (map (re_search_ignorecase lib pat) series)
  end.

(** *** [pd.to_numeric(series, errors="coerce")] *)

Definition is_bool (c : Cell) : bool :=
  match c with CBool _ => true | _ => false end.

(** A series of booleans: at least one cell, and every cell a bool.  Its
    dtype is numeric for [pd.to_numeric], which gives it back as it is. *)
Definition is_bool_series (s : list Cell) : bool :=
  match s with
  | [] => false
  | _ => forallb is_bool s
  end.

(** One element of the result for any other series.  An int64 is taken as
    the float64 it becomes in the statistics, and a bool among cells of
    other kinds as 1 or 0. *)
Definition to_numeric (c : Cell) : F64 :=
  match c with
  | CNaN => NaN
  | CInt z => Fin (float_of_int lib z)
  | CFloat q => Fin q
  | CInf negative => Inf negative
  | CBool true => Fin 1%Qc
  | CBool false => Fin 0%Qc
  | CStr s => parse_number lib s
  end.

Definition f_notna (x : F64) : bool :=
  match x with NaN => false | _ => true end.

(** [pd.to_numeric(series, errors="coerce").dropna()] for a series that is
    not one of booleans. *)
Definition numeric_values (s : list Cell) : list F64 :=
  List.filter f_notna (map to_numeric s).

(** *** The float64 operations of the statistics

    The rules of IEEE 754 for the infinities and NaN, exact arithmetic on
    the finite values. *)

Definition f_add (x y : F64) : F64 :=
  match x, y with
  | Fin a, Fin b => Fin (a + b)%Qc
  | Inf s, Inf t => if Bool.eqb s t then Inf s else NaN
  | Inf s, Fin _ => Inf s
  | Fin _, Inf t => Inf t
  | _, _ => NaN
  end.

Definition f_opp (x : F64) : F64 :=
  match x with
  | Fin a => Fin (- a)%Qc
  | Inf s => Inf (negb s)
  | NaN => NaN
  end.

Definition f_sub (x y : F64) : F64 := f_add x (f_opp y).

(** [x * t] for a finite [t]: an infinity times zero is NaN. *)
Definition f_scale (x : F64) (t : Qc) : F64 :=
  match x with
  | Fin a => Fin (a * t)%Qc
  | Inf s =>
      if decide (t = 0%Qc) then NaN
      else if decide (0 < t)%Qc then Inf s else Inf (negb s)
  | NaN => NaN
  end.

(** [x ** 2] *)
Definition f_sq (x : F64) : F64 :=
  match x with
  | Fin a => Fin (a * a)%Qc
  | Inf _ => Inf false
  | NaN => NaN
  end.

Definition qc_of_nat (n : nat) : Qc := Qc_of_Z (Z.of_nat n).

(** [x / n] for a count [n]; zero by zero is NaN. *)
Definition f_div_count (x : F64) (n : nat) : F64 :=
  match n, x with
  | O, _ => NaN
  | _, Fin a => Fin (a / qc_of_nat n)%Qc
  | _, _ => x
  end.

Definition f_sqrt (x : F64) : F64 :=
  match x with
  | Fin a => Fin (fsqrt lib a)
  | Inf false => Inf false
  | _ => NaN
  end.

(** [x <= y], false when one of them is NaN. *)
Definition f_leb (x y : F64) : bool :=
  match x, y with
  | NaN, _ => false
  | _, NaN => false
  | Inf true, _ => true
  | _, Inf false => true
  | Fin a, Fin b => bool_decide (a ≤ b)%Qc
  | _, _ => false
  end.

Definition f_le (x y : F64) : Prop := f_leb x y = true.

#[global] Instance f_le_dec (x y : F64) : Decision (f_le x y).
Proof. unfold f_le. apply _. Defined.

Definition f_min (x y : F64) : F64 := if f_leb x y then x else y.
Definition f_max (x y : F64) : F64 := if f_leb x y then y else x.

(** *** [series.describe()] of a numeric series without missing values *)

Record Describe := mkDescribe {
  d_count : nat;
  d_mean : F64;
  d_std : F64;
  d_min : F64;
  d_q25 : F64;
  d_q50 : F64;
  d_q75 : F64;
  d_max : F64
}.

Definition f_sum (xs : list F64) : F64 := foldl f_add (Fin 0%Qc) xs.

(** [series.mean()] *)
Definition mean (xs : list F64) : F64 := f_div_count (f_sum xs) (length xs).

(** The sample variance, with [ddof=1]: NaN with fewer than two values. *)
Definition variance (xs : list F64) : F64 :=
  if (length xs <? 2)%nat then NaN
  else
    let m := mean xs in
    f_div_count (f_sum (map (fun x => f_sq (f_sub m x)) xs)) (length xs - 1).

(** [series.std()] *)
Definition std (xs : list F64) : F64 := f_sqrt (variance xs).

(** [series.min()] and [series.max()] *)
Definition series_min (xs : list F64) : F64 := foldr f_min (default NaN (head xs)) xs.
Definition series_max (xs : list F64) : F64 := foldr f_max (default NaN (head xs)) xs.

(** The interpolation between two neighbours of the sorted values, as the
    array library writes it: from the left one below one half, from the
    right one otherwise. *)
Definition lerp (a b : F64) (t : Qc) : F64 :=
  let diff_b_a := f_sub b a in
  if decide (t < Q2Qc (1 # 2))%Qc then f_add a (f_scale diff_b_a t)
  else f_sub b (f_scale diff_b_a (1 - t)%Qc).

(** [series.quantile(p)], with linear interpolation: position [p * (n - 1)]
    in the sorted values, interpolated between its two neighbours. *)
Definition quantile (p : Qc) (xs : list F64) : F64 :=
  let sorted := merge_sort f_le xs in
  let pos := (p * qc_of_nat (length xs - 1))%Qc in
  let previous := Z.to_nat (Qfloor pos) in
  let gamma := (pos - Qc_of_Z (Qfloor pos))%Qc in
  match sorted !! previous with
  | Some a => lerp a (default a (sorted !! S previous)) gamma
  | None => NaN
  end.

Definition describe (xs : list F64) : Describe :=
  {| d_count := length xs;
     d_mean := mean xs;
     d_std := std xs;
     d_min := series_min xs;
     d_q25 := quantile (Q2Qc (1 # 4)) xs;
     d_q50 := quantile (Q2Qc (1 # 2)) xs;
     d_q75 := quantile (Q2Qc (3 # 4)) xs;
     d_max := series_max xs |}.

End WithLib.
End Frame.

(** ** Configuration ([config.py]) *)

Record TableConfig := mkTableConfig {
  tc_name : string;
  tc_path : string;
  tc_id_column : string;
  tc_text_columns : option (list string)
}.

Record IngestionConfig := mkIngestionConfig {
  tables : list TableConfig;
  metadata_text_path : string
}.

(** The files on disk, as [pd.read_csv(path, sep="\t")] sees them: a path
    without an entry does not exist; an entry is what parsing the existing
    file gives, a frame or the parser's exception. *)
Abbreviation FileSystem := (gmap string (Result DataFrame)).

Definition read_csv (fs : FileSystem) (path : string) : Result DataFrame :=
  match fs !! path with
  | Some r => r
  | None =>
      Raise (err "FileNotFoundError" ("[Errno 2] No such file or directory: " ++ repr_str path))
  end.

(** ** The plan step ([agents/schemas.py], [PlanStep]) *)

(** Every key is optional ([total=False]); [None] stands both for an absent
    key and for a key holding [None], which [step.get] does not tell apart. *)
Record PlanStep := mkPlanStep {
  step_id : option Z;
  step_name : option string;
  step_tool : option string;
  step_filter : option Dict;
  step_feature : option string;
  step_tables_used : option (list string)
}.

(** What the cohort context holds: a frame or a plain value. *)
Inductive CtxVal :=
| CtxFrame (df : DataFrame)
| CtxPy (v : PyVal).

Abbreviation Context := (gmap string CtxVal).

(** ** The table store and the cohort engine ([tools/cohort_query.py]) *)

Module CohortQuery.
Section WithLib.

Variable lib : Lib.

Import Frame.

(** *** [_load_table], under [lru_cache(maxsize=16)] *)

(** The cache holds the successful loads, the most recently used first. *)
Abbreviation Cache := (list (string * DataFrame)).

Fixpoint cache_find (path : string) (cache : Cache) : option DataFrame :=
  match cache with
  | [] => None
  | (p, df) :: rest => if String.eqb path p then Some df else cache_find path rest
  end.

Definition cache_drop (path : string) (cache : Cache) : Cache :=
  List.filter (fun '(p, _) => negb (String.eqb path p)) cache.

(** A hit is answered from the cache and becomes the most recent entry; a
    miss reads the file, and a successful read is stored, the least
    recently used entry leaving when there are more than 16.  An exception
    is not cached. *)
Definition _load_table (fs : FileSystem) (path : string) (cache : Cache)
  : Result DataFrame * Cache :=
  match cache_find path cache with
  | Some df => (Ok df, (path, df) :: cache_drop path cache)
  | None =>
      match read_csv fs path with
      | Ok df => (Ok df, List.firstn 16 ((path, df) :: cache))
      | Raise e => (Raise e, cache)
      end
  end.

(** [load_tables_from_config]: the loop over [config.tables]. *)
Fixpoint load_tables_loop (fs : FileSystem) (ts : list TableConfig)
    (acc : gmap string DataFrame) (cache : Cache)
  : Result (gmap string DataFrame) * Cache :=
  match ts with
  | [] => (Ok acc, cache)
  | t :: rest =>
      match _load_table fs (tc_path t) cache with
      | (Ok df, cache') => load_tables_loop fs rest (<[tc_name t := df]> acc) cache'
      | (Raise e, cache') => (Raise e, cache')
      end
  end.

Definition load_tables_from_config (fs : FileSystem) (config : IngestionConfig)
    (cache : Cache) : Result (gmap string DataFrame) * Cache :=
  load_tables_loop fs (tables config) ∅ cache.

(** *** [_apply_filter] *)

(** [mask &= other] *)
Definition mask_and (mask other : list bool) : list bool := zip_with andb mask other.

(** One turn of the loop over [filter_spec.items()]. *)
Definition filter_item (df : DataFrame) (mask : list bool) (item : string * PyVal)
  : Result (list bool) :=
  let '(col, val) := item in
  if negb (has_column col df) then
    (* Column missing: drop everything for this filter *)
    Ok (map (fun b => b && false) mask)
  else
    let series := map (cell_str lib) (column col df) in
    match val with
    | PList vs => Ok (mask_and mask (isin series (map (py_str (float_repr lib)) vs)))
    | _ =>
        m ← str_contains lib (py_str (float_repr lib) val) series;
        Ok (mask_and mask m)
    end.

Fixpoint filter_loop (df : DataFrame) (mask : list bool) (items : Dict)
  : Result (list bool) :=
  match items with
  | [] => Ok mask
  | item :: rest => m ← filter_item df mask item; filter_loop df m rest
  end.

(** [filter_spec] is [None] for a null specification. *)
Definition _apply_filter (df : DataFrame) (filter_spec : option Dict)
  : Result DataFrame :=
  match filter_spec with
  | None | Some [] => Ok df
  | Some items =>
      mask ← filter_loop df (replicate (n_rows df) true) items;
      Ok (select mask df)
  end.

(** *** The two step executors *)

Definition opt_int (o : option Z) : PyVal :=
  match o with Some z => PInt z | None => PNone end.

Definition opt_str (o : option string) : PyVal :=
  match o with Some s => PStr s | None => PNone end.

(** The text of [{x}] in an f-string, for a str or [None]. *)
Definition fmt_opt (o : option string) : string :=
  match o with Some s => s | None => "None" end.

(** [tables_used[0] if tables_used else None], then the "clinical" to
    "patients" mapping. *)
Definition pick_table_name (tables_used : list string)
    (tbls : gmap string DataFrame) : option string :=
  let table_name := head tables_used in
  if bool_decide (table_name = Some "clinical") && bool_decide (is_Some (tbls !! "patients"))
  then Some "patients" else table_name.

(** [not table_name or table_name not in tables] is false exactly when
    this gives the table. *)
Definition lookup_table (table_name : option string)
    (tbls : gmap string DataFrame) : option (string * DataFrame) :=
  match table_name with
  | None => None
  | Some EmptyString => None
  | Some n => (fun df => (n, df)) <$> tbls !! n
  end.

Definition is_patient_id_col (c : string) : bool :=
  PyStr.contains "Patient ID" c || String.eqb (PyStr.lower c) "patient_id".

Definition execute_cohort_filter_step (step : PlanStep)
    (tbls : gmap string DataFrame) (context : Context)
  : Result (Dict * Context) :=
  let tables_used := default [] (step_tables_used step) in
  let filter_spec := default [] (step_filter step) in
  let table_name := pick_table_name tables_used tbls in
  match lookup_table table_name tbls with
  | None =>
      Ok ([("step_id", opt_int (step_id step));
           ("name", opt_str (step_name step));
           ("tool", opt_str (step_tool step));
           ("status", PStr "failed");
           ("error", PStr ("Unknown table: " ++ fmt_opt table_name))],
          context)
  | Some (table_name, df) =>
      filtered ← _apply_filter df (Some filter_spec);
      let patient_id_cols := List.filter is_patient_id_col (columns df) in
      let '(pid_col, n_patients, sample_ids) :=
        match patient_id_cols with
        | pid :: _ =>
            (Some pid,
             Some (nunique (column pid filtered)),
             firstn 5 (map (cell_str lib) (dropna (column pid filtered))))
        | [] => (None, None, [])
        end in
      let context :=
        <["current_cohort_patient_id_col" := CtxPy (opt_str pid_col)]>
          (<["current_cohort_table" := CtxPy (PStr table_name)]>
             (<["current_cohort" := CtxFrame filtered]> context)) in
      Ok ([("step_id", opt_int (step_id step));
           ("name", opt_str (step_name step));
           ("tool", opt_str (step_tool step));
           ("status", PStr "success");
           ("table_used", PStr table_name);
           ("filter_applied", PDict filter_spec);
           ("row_count", PInt (Z.of_nat (n_rows filtered)));
           ("patient_count", opt_int (Z.of_nat <$> n_patients));
           ("patient_id_column", opt_str pid_col);
           ("sample_patient_ids", PList (map PStr sample_ids))],
          context)
  end.

(** Lines 131-150: the cohort of the context, or else the raw table named
    by the step.  [inl] is the early return with a failed result. *)
Definition pick_cohort (step : PlanStep) (tbls : gmap string DataFrame)
    (context : Context) : Dict + (CtxVal * string) :=
  let tables_used := default [] (step_tables_used step) in
  match context !! "current_cohort" with
  | None | Some (CtxPy PNone) =>
      let table_name := pick_table_name tables_used tbls in
      match lookup_table table_name tbls with
      | None =>
          inl [("step_id", opt_int (step_id step));
               ("name", opt_str (step_name step));
               ("tool", opt_str (step_tool step));
               ("status", PStr "failed");
               ("error", PStr ("No cohort and unknown table: " ++ fmt_opt table_name))]
      | Some (table_name, df) => inr (CtxFrame df, "table:" ++ table_name)
      end
  | Some cohort => inr (cohort, "current_cohort")
  end.

Definition failed_with_source (step : PlanStep) (source error : string) : Dict :=
  [("step_id", opt_int (step_id step));
   ("name", opt_str (step_name step));
   ("tool", opt_str (step_tool step));
   ("status", PStr "failed");
   ("source", PStr source);
   ("error", PStr error)].

(** [float(x)] of an entry of the description. *)
Definition py_float (x : F64) : PyVal :=
  match x with
  | Fin q => PFloat q
  | Inf negative => PInf negative
  | NaN => PNaN
  end.

Definition metrics_dict (desc : Describe) : Dict :=
  [("count", PInt (Z.of_nat (d_count desc)));
   ("mean", py_float (d_mean desc));
   ("std", match d_std desc with NaN => PNone | s => py_float s end);
   ("min", py_float (d_min desc));
   ("max", py_float (d_max desc));
   ("median", py_float (d_q50 desc));
   ("iqr", PList [py_float (d_q25 desc); py_float (d_q75 desc)])].

(** Lines 152-194: the statistics of [feature] over [cohort_df].  A series
    of booleans comes back from [pd.to_numeric] as it is, has nothing to
    drop and is not empty; [describe()] then gives [count], [unique], [top]
    and [freq], and [desc["25%"]] on line 174 raises [KeyError]. *)
Definition descriptives_on (step : PlanStep) (cohort_df : CtxVal) (source : string)
    (context : Context) : Result (Dict * Context) :=
  let feature := step_feature step in
  match feature with
  | None | Some EmptyString =>
      Ok (failed_with_source step source
            ("Feature column not found: " ++ fmt_opt feature), context)
  | Some f =>
      match cohort_df with
      | CtxPy v =>
          Raise (err "AttributeError" "object has no attribute 'columns'")
      | CtxFrame df =>
          if negb (has_column f df) then
            Ok (failed_with_source step source
                  ("Feature column not found: " ++ f), context)
          else if is_bool_series (column f df) then
            Raise (err "KeyError" (repr_str "25%"))
          else
            let series := numeric_values lib (column f df) in
            match series with
            | [] =>
                Ok (failed_with_source step source
                      ("No numeric values available for feature: " ++ f), context)
            | _ =>
                let desc := describe lib series in
                Ok ([("step_id", opt_int (step_id step));
                     ("name", opt_str (step_name step));
                     ("tool", opt_str (step_tool step));
                     ("status", PStr "success");
                     ("source", PStr source);
                     ("feature", PStr f);
                     ("metrics", PDict (metrics_dict desc))],
                    context)
            end
      end
  end.

Definition execute_feature_descriptives_step (step : PlanStep)
    (tbls : gmap string DataFrame) (context : Context)
  : Result (Dict * Context) :=
  match pick_cohort step tbls context with
  | inl failed => Ok (failed, context)
  | inr (cohort_df, source) => descriptives_on step cohort_df source context
  end.

End WithLib.
End CohortQuery.

(** ** The ingestion loader ([chunking.py]) *)

Module Chunking.
Section WithLib.

Variable lib : Lib.

Import Frame.

Definition infer_text_columns (df : DataFrame) (table_cfg : TableConfig) : list string :=
  match tc_text_columns table_cfg with
  | Some (c :: cs) => c :: cs
  | _ => List.filter (fun c => negb (String.eqb c (tc_id_column table_cfg))) (columns df)
  end.

(** [row[col]] *)
Definition row_get (df : DataFrame) (row : list Cell) (col : string) : Result Cell :=
  match list_find (eq col) (columns df) with
  | Some (i, _) => Ok (default CNaN (row !! i))
  | None => Raise (err "KeyError" (repr_str col))
  end.

(** The inner loop over [text_cols]: one ["col: val"] part per cell that
    is not missing. *)
Fixpoint row_parts (df : DataFrame) (row : list Cell) (cols : list string)
  : Result (list string) :=
  match cols with
  | [] => Ok []
  | col :: rest =>
      val ← row_get df row col;
      parts ← row_parts df row rest;
      Ok (if notna val then (col ++ ": " ++ cell_str lib val) :: parts else parts)
  end.

Definition row_doc (table_cfg : TableConfig) (df : DataFrame)
    (text_cols : list string) (idx : nat) (row : list Cell) : Result PyVal :=
  id_val ← row_get df row (tc_id_column table_cfg);
  let row_id := cell_str lib id_val in
  parts ← row_parts df row text_cols;
  Ok (PDict
        [("id", PStr row_id);
         ("text", PStr (PyStr.join (String (ascii_of_nat 10) EmptyString) parts));
         ("metadata",
          PDict [("source", PStr "msk_chord");
                 ("table_name", PStr (tc_name table_cfg));
                 ("id_column", PStr (tc_id_column table_cfg));
                 ("row_id", PStr row_id);
                 ("row_index", PInt (Z.of_nat idx))])]).

(** The loop over [df.iterrows()]. *)
Fixpoint rows_docs (table_cfg : TableConfig) (df : DataFrame)
    (text_cols : list string) (idx : nat) (rs : list (list Cell))
  : Result (list PyVal) :=
  match rs with
  | [] => Ok []
  | row :: rest =>
      doc ← row_doc table_cfg df text_cols idx row;
      docs ← rows_docs table_cfg df text_cols (S idx) rest;
      Ok (doc :: docs)
  end.

Definition _load_table_rows_as_text (fs : FileSystem) (table_cfg : TableConfig)
  : Result (list PyVal) :=
  let path := tc_path table_cfg in
  if negb (bool_decide (is_Some (fs !! path))) then
    Raise (err "FileNotFoundError" ("TSV file not found: " ++ path))
  else
    df ← read_csv fs path;
    if negb (has_column (tc_id_column table_cfg) df) then
      Raise (err "ValueError"
               ("id_column='" ++ tc_id_column table_cfg
                ++ "' not in columns for table '" ++ tc_name table_cfg ++ "': "
                ++ py_repr (float_repr lib) (PList (map PStr (columns df)))))
    else
      rows_docs table_cfg df (infer_text_columns df table_cfg) 0 (rows df).

End WithLib.
End Chunking.

(** ** The stage agents ([llm.py]) *)

(** What one call of the chat endpoint is asked: the stage and the values its
    prompt is rendered from. *)
Inductive Request :=
| ReqOncologist (user_query : PyVal)
| ReqPlanner (user_query oncologist_view : PyVal) (metadata_text : string)
| ReqAnalystCode (user_query oncologist_view plan : PyVal) (table_infos : list (string * string))
| ReqWriter (user_query oncologist_view plan execution_result : PyVal).

(** What the generated procedure returns is an object of any class.  The
    analyst asks three things of it, each of which can run code of that
    class and raise: [isinstance(result, dict)], which reads [__class__] of
    an object whose type is no dict type; [str(result)]; and
    [result.get(key, default)], asked once for each of two keys. *)
Record Returned := mkReturned {
  ret_is_dict : Result bool;
  ret_str : Result string;
  ret_get : string -> PyVal -> Result PyVal
}.

(** A value of the kinds of [PyVal] as such an object: only a dict is a
    dict, [str()] returns, and [get] is the method of a plain dict. *)
Definition returned_value (float_repr : Qc -> string) (v : PyVal) : Returned :=
  {| ret_is_dict := Ok (match v with PDict _ => true | _ => false end);
     ret_str := Ok (py_str float_repr v);
     ret_get := fun key dflt =>
       match v with
       | PDict d => Ok (PyDict.get_default key dflt d)
       | _ => Raise (err "AttributeError" "object has no attribute 'get'")
       end |}.

(** An entry of the namespace left by [exec]: a callable is known by what
    calling it without arguments gives. *)
Inductive NsEntry :=
| NotCallable (v : PyVal)
| Callable (call : Result Returned).

(** The surroundings of one run.  Each stage calls the endpoint once, with a
    request of its own shape, so one function of the request describes every
    reply of the run. *)
Record World := mkWorld {
  (** [_client.chat.completions.create(...)]: the content of the first choice
      ([None] when the reply carries none), or the exception of the client *)
  backend : Request -> Result (option string);
  (** [json.loads(text)]; [None] when it raises *)
  json_loads : string -> option PyVal;
  (** [METADATA_PATH.read_text()] *)
  read_metadata : Result string;
  (** [ONCOLOGIST_PROMPT_ID] and [PLANNER_PROMPT_ID], or their defaults *)
  oncologist_prompt_id : string;
  planner_prompt_id : string;
  (** [exec(code, {}, local_ns)]: the exception it raises, or [local_ns] *)
  py_exec : string -> Result (gmap string NsEntry)
}.

(** The same surroundings with another interpreter for the generated code. *)
Definition with_py_exec (w : World) (exec : string -> Result (gmap string NsEntry)) : World :=
  {| backend := backend w;
     json_loads := json_loads w;
     read_metadata := read_metadata w;
     oncologist_prompt_id := oncologist_prompt_id w;
     planner_prompt_id := planner_prompt_id w;
     py_exec := exec |}.

Module Llm.
Section WithWorld.

Variable w : World.

Definition _chat_completion (req : Request) : Result string :=
  content ← backend w req;
  match content with
  | Some s => Ok (PyStr.strip s)
  | None => Raise (err "AttributeError" "'NoneType' object has no attribute 'strip'")
  end.

Definition _safe_json_parse (text : string) : PyVal :=
  match json_loads w text with
  | Some v => v
  | None => PDict [("raw_text", PStr text); ("parse_error", PBool true)]
  end.

(** [obj[key] = value] *)
Definition set_item (obj : PyVal) (key : string) (value : PyVal) : Result PyVal :=
  match obj with
  | PDict d => Ok (PDict (PyDict.set key value d))
  | PList _ => Raise (err "TypeError" "list indices must be integers or slices, not str")
  | _ => Raise (err "TypeError" "object does not support item assignment")
  end.

(** [json.dumps(v, indent=2)], of which only the failure is observed. *)
Definition json_dumps (v : PyVal) : Result unit :=
  if json_serializable v then Ok ()
  else Raise (err "TypeError" "Object is not JSON serializable").

Definition generate_oncologist_view (user_query : PyVal) : Result PyVal :=
  raw ← _chat_completion (ReqOncologist user_query);
  let view := _safe_json_parse raw in
  set_item view "_prompt_id" (PStr (oncologist_prompt_id w)).

Definition generate_planner_plan (user_query oncologist_view : PyVal) : Result PyVal :=
  _ ← json_dumps oncologist_view;
  metadata_text ←
    match read_metadata w with
    | Ok text => Ok text
    | Raise e =>
        if String.eqb (exc_class e) "FileNotFoundError"
        then Ok "Dataset metadata file not found."
        else Raise e
    end;
  raw ← _chat_completion (ReqPlanner user_query oncologist_view metadata_text);
  let plan := _safe_json_parse raw in
  set_item plan "_prompt_id" (PStr (planner_prompt_id w)).

Definition generate_analyst_code (user_query oncologist_view plan : PyVal)
    (config : IngestionConfig) : Result string :=
  _ ← json_dumps oncologist_view;
  _ ← json_dumps plan;
  let table_infos := map (fun t => (tc_name t, tc_path t)) (tables config) in
  raw ← _chat_completion (ReqAnalystCode user_query oncologist_view plan table_infos);
  Ok (PyStr.strip raw).

Definition generate_writer_answer (user_query oncologist_view plan execution_result : PyVal)
  : Result string :=
  _ ← json_dumps oncologist_view;
  _ ← json_dumps plan;
  _ ← json_dumps execution_result;
  _chat_completion (ReqWriter user_query oncologist_view plan execution_result).

End WithWorld.
End Llm.

(** ** The graph ([graph/multi_agent_rwe_graph.py]) *)

(** The pipeline record, [ChatState]: every key optional. *)
Abbreviation ChatState := (gmap string PyVal).

Module Graph.
Section WithWorld.

Variable w : World.
Variable config : IngestionConfig.

Import Llm.

(** [state[key]] *)
Definition get_item (state : ChatState) (key : string) : Result PyVal :=
  match state !! key with
  | Some v => Ok v
  | None => Raise (err "KeyError" (repr_str key))
  end.

(** [state.get(key, {})] *)
Definition get_or_empty (state : ChatState) (key : string) : PyVal :=
  default (PDict []) (state !! key).

Definition oncologist_node (state : ChatState) : Result ChatState :=
  user_query ← get_item state "user_query";
  view ← generate_oncologist_view w user_query;
  Ok {["oncologist_view" := view]}.

Definition planner_node (state : ChatState) : Result ChatState :=
  user_query ← get_item state "user_query";
  oncologist_view ← get_item state "oncologist_view";
  plan ← generate_planner_plan w user_query oncologist_view;
  Ok {["plan" := plan]}.

(** Lines 96-100: [exec], the check of the entry point, the call. *)
Definition run_generated (code : string) : Result Returned :=
  local_ns ← py_exec w code;
  match local_ns !! "run_analysis" with
  | Some (Callable call) => call
  | _ => Raise (err "RuntimeError" "Generated code did not define run_analysis()")
  end.

(** The [execution_result] of the first handler (lines 82-87), [error]
    being the text that [str(e)] gave. *)
Definition synthesis_failed (error : string) : Dict :=
  [("steps", PList []);
   ("overall_status", PStr "failed");
   ("notes", PStr "Code generation for Analyst failed.");
   ("error", PStr error)].

(** The [execution_result] of the second handler (lines 102-108). *)
Definition execution_failed (error code : string) : Dict :=
  [("steps", PList []);
   ("overall_status", PStr "failed");
   ("notes", PStr "Execution of generated analysis code failed.");
   ("error", PStr error);
   ("generated_code", PStr (PyStr.take 4000 code))].

(** Step 3 of the analyst (lines 116-131): the object returned by the call
    made into the [execution_result].  This is after the [try] statement:
    what the object raises when asked leaves the stage. *)
Definition normalize (result : Returned) (code : string) : Result Dict :=
  is_dict ← ret_is_dict result;
  if negb is_dict then
    raw_return ← ret_str result;
    Ok [("steps", PList []);
        ("overall_status", PStr "failed");
        ("notes", PStr "Generated analysis code did not return a dict.");
        ("raw_return", PStr raw_return);
        ("generated_code", PStr (PyStr.take 4000 code))]
  else
    steps ← ret_get result "steps" (PList []);
    overall_status ← ret_get result "overall_status" (PStr "success");
    Ok [("steps", steps);
        ("overall_status", overall_status);
        ("notes", PStr "Analyst executed a dynamically generated analysis script.")].

(** Each handler evaluates [str(e)] twice, for [error] and for
    [analyst_error], and is itself under no [try]. *)
Definition analyst_node_smart (state : ChatState) : Result ChatState :=
  user_query ← get_item state "user_query";
  let oncologist_view := get_or_empty state "oncologist_view" in
  let plan := get_or_empty state "plan" in
  (* 1) Generate the analysis code *)
  try_else (generate_analyst_code w user_query oncologist_view plan config)
    (fun e =>
       error ← str_exc e 0;
       analyst_error ← str_exc e 1;
       Ok (<["execution_result" := PDict (synthesis_failed error)]>
             {["analyst_error" := PStr analyst_error]}))
    (fun code =>
       (* 2) Execute the generated code in an isolated namespace *)
       try_else (run_generated code)
         (fun e =>
            error ← str_exc e 0;
            analyst_error ← str_exc e 1;
            Ok (<["execution_result" := PDict (execution_failed error code)]>
                  (<["analyst_generated_code" := PStr (PyStr.take 4000 code)]>
                     {["analyst_error" := PStr analyst_error]})))
         (fun result =>
            (* 3) Normalize the result *)
            execution_result ← normalize result code;
            Ok (<["execution_result" := PDict execution_result]>
                  {["analyst_generated_code" := PStr (PyStr.take 4000 code)]}))).

Definition analyst_node_dumb (state : ChatState) : Result ChatState :=
  Ok {["execution_result" :=
         PDict [("steps", PList []);
                ("overall_status", PStr "failed");
                ("notes", PStr "Dumb analyst not implemented; enable use_smart_analyst=True.")]]}.

Definition writer_node (state : ChatState) : Result ChatState :=
  user_query ← get_item state "user_query";
  let oncologist_view := get_or_empty state "oncologist_view" in
  let plan := get_or_empty state "plan" in
  let execution_result := get_or_empty state "execution_result" in
  final_answer ← generate_writer_answer w user_query oncologist_view plan execution_result;
  Ok {["final_answer" := PStr final_answer]}.

(** One transition of the compiled graph: the node runs on the record and
    its patch is merged in, the keys of the patch winning. *)
Definition run_node (node : ChatState -> Result ChatState) (state : ChatState)
  : Result ChatState :=
  patch ← node state;
  Ok (patch ∪ state).

(** [build_rwe_multi_agent_graph(config, use_smart_analyst).invoke(input)]:
    the edges oncologist, planner, analyst, writer, END. *)
Definition invoke (use_smart_analyst : bool) (input : ChatState) : Result ChatState :=
  let analyst := if use_smart_analyst then analyst_node_smart else analyst_node_dumb in
  s1 ← run_node oncologist_node input;
  s2 ← run_node planner_node s1;
  s3 ← run_node analyst s2;
  run_node writer_node s3.

End WithWorld.
End Graph.

(** ** Token chunking ([chunking.py], [chunk_text]) *)

(** The tokenizer: [encode] raises on a text it refuses, [decode] gives the
    text of a run of tokens. *)
Record Encoder := mkEncoder {
  encode : string -> Result (list Z);
  decode : list Z -> string
}.

Module Tokens.

(** The position an index of a slice stands for in a list of [n] elements:
    a negative index counts from the end, and both ends are clipped. *)
Definition slice_index (n : nat) (i : Z) : nat :=
  if (i <? 0)%Z then Z.to_nat (Z.max (i + Z.of_nat n) 0)
  else Nat.min (Z.to_nat i) n.

(** [l[i:j]] *)
Definition py_slice {A} (l : list A) (i j : Z) : list A :=
  let a := slice_index (length l) i in
  let b := slice_index (length l) j in
  take (b - a) (drop a l).

(** The [while start < n] loop, from a given [start].  Each turn of the loop
    spends one unit of [fuel]; [None] is a loop still running when the fuel
    is spent. *)
Fixpoint chunk_loop (fuel : nat) (tokens : list Z) (chunk_token_size chunk_overlap start : Z)
  : option (list (list Z)) :=
  match fuel with
  | O => None
  | S fuel' =>
      let n := Z.of_nat (length tokens) in
      if (start <? n)%Z then
        let end_ := Z.min (start + chunk_token_size) n in
        let chunk_tokens := py_slice tokens start end_ in
        if (end_ =? n)%Z then Some [chunk_tokens]
        else
          (fun chunks => chunk_tokens :: chunks)
            <$> chunk_loop fuel' tokens chunk_token_size chunk_overlap (end_ - chunk_overlap)
      else Some []
  end.

Definition chunk_text (encoder : Encoder) (fuel : nat) (text : string)
    (chunk_token_size chunk_overlap : Z) : option (Result (list string)) :=
  match encode encoder text with
  | Raise e => Some (Raise e)
  | Ok tokens =>
      (fun chunks => Ok (map (decode encoder) chunks))
        <$> chunk_loop fuel tokens chunk_token_size chunk_overlap 0
  end.

(** The text covered by a sequence of chunks that overlap by [overlap]
    tokens: the first chunk, then each later chunk without its first
    [overlap] tokens. *)
Definition stitch (overlap : nat) (chunks : list (list Z)) : list Z :=
  match chunks with
  | [] => []
  | c :: rest => (c ++ concat (map (drop overlap) rest))%list
  end.

End Tokens.

(** ** The vector store ([vectorstore.py], [tools/vector_search.py]) *)

Record DocChunk := mkDocChunk {
  chunk_id : string;
  chunk_text_of : string;
  chunk_metadata : Dict
}.

(** [bool(v)]: an object of another class is true unless its class says
    otherwise, which no value met here does. *)
Definition py_truthy (v : PyVal) : bool :=
  match v with
  | PNone => false
  | PBool b => b
  | PInt z => negb (z =? 0)%Z
  | PFloat q => negb (bool_decide (q = 0%Qc))
  | PInf _ | PNaN => true
  | PStr s => negb (String.eqb s EmptyString)
  | PList l => match l with [] => false | _ => true end
  | PDict d => match d with [] => false | _ => true end
  | PObj _ _ _ => true
  end.

(** [a or b] *)
Definition py_or (a b : PyVal) : PyVal := if py_truthy a then a else b.

(** The collection and its surroundings: whether the directory of the store
    can be made, the key of the environment, whether the client opens the
    collection, what [collection.add] answers to a batch after the batches
    already added, and what [collection.query] gives for one query text,
    already at index 0 of each of its three lists. *)
Record Store := mkStore {
  mkdir_result : Result unit;
  openai_api_key : option string;
  client_result : Result unit;
  add_error : list (list DocChunk) -> list DocChunk -> option PyExc;
  query_result : string -> Z -> Result (list string * list Dict * list Qc)
}.

Module VectorStore.
Section WithStore.

Variable st : Store.

(** [get_embedding_function]: the check of the key, the embedding function
    itself not being observed. *)
Definition get_embedding_function : Result unit :=
  match openai_api_key st with
  | None | Some EmptyString =>
      Raise (err "RuntimeError"
               "OPENAI_API_KEY is not set. Set it in your environment or .env file.")
  | Some _ => Ok ()
  end.

Definition get_or_create_chroma_collection : Result unit :=
  _ ← mkdir_result st;
  _ ← get_embedding_function;
  client_result st.

(** [range(0, n, step)] for a positive [step]. *)
Definition range_from_0 (n step : nat) : list nat :=
  map (fun k => k * step) (seq 0 ((n + step - 1) / step)).

(** The loop of [index_chunks] over the starts: the batches added so far,
    and the exception of [collection.add] when one is raised. *)
Fixpoint add_batches (chunks : list DocChunk) (batch_size : nat) (starts : list nat)
    (added : list (list DocChunk)) : Result unit * list (list DocChunk) :=
  match starts with
  | [] => (Ok (), added)
  | start :: rest =>
      let end_ := Nat.min (start + batch_size) (length chunks) in
      let batch := take (end_ - start) (drop start chunks) in
      match add_error st added batch with
      | Some e => (Raise e, added)
      | None => add_batches chunks batch_size rest (added ++ [batch])
      end
  end.

(** [index_chunks(chunks, collection, batch_size)]: the outcome and the
    batches that were added to the collection, in order. *)
Definition index_chunks (chunks : list DocChunk) (batch_size : Z)
  : Result unit * list (list DocChunk) :=
  match chunks with
  | [] => (Ok (), [])
  | _ =>
      if (batch_size =? 0)%Z then
        (Raise (err "ValueError" "range() arg 3 must not be zero"), [])
      else if (batch_size <? 0)%Z then (Ok (), [])
      else
        add_batches chunks (Z.to_nat batch_size)
          (range_from_0 (length chunks) (Z.to_nat batch_size)) []
  end.

(** One turn of the loop of [vector_search_patients]. *)
Definition search_hit (doc : string) (meta : Dict) (dist : Qc) : PyVal :=
  PDict [("id",
          py_or (py_or (default PNone (PyDict.get "row_id" meta))
                       (default PNone (PyDict.get "patient_id" meta)))
                (PStr "UNKNOWN"));
         ("snippet", PStr doc);
         ("metadata", PDict meta);
         ("distance", PFloat dist)].

(** [zip(docs, metas, dists)], mapped by the body of the loop. *)
Fixpoint search_hits (docs : list string) (metas : list Dict) (dists : list Qc)
  : list PyVal :=
  match docs, metas, dists with
  | doc :: docs', meta :: metas', dist :: dists' =>
      search_hit doc meta dist :: search_hits docs' metas' dists'
  | _, _, _ => []
  end.

Definition vector_search_patients (query : string) (k : Z) : Result (list PyVal) :=
  _ ← get_or_create_chroma_collection;
  res ← query_result st query k;
  let '(docs, metas, dists) := res in
  Ok (search_hits docs metas dists).

End WithStore.
End VectorStore.

(** ** The cohort filter, row by row

    What [_apply_filter] computes with its mask, said of one row at a time;
    the two are proved equal below. *)

Module FilterRows.
Section WithLib.

Variable lib : Lib.

Import Frame.

(** What one item of the specification asks of one row. *)
Definition item_keeps (cols : list string) (item : string * PyVal) (row : list Cell) : bool :=
  let '(col, val) := item in
  match list_find (eq col) cols with
  | None => false
  | Some (i, _) =>
      let s := cell_str lib (default CNaN (row !! i)) in
      match val with
      | PList vs => bool_decide (s ∈ map (py_str (float_repr lib)) vs)
      | _ => re_search_ignorecase lib (py_str (float_repr lib) val) s
      end
  end.

Definition row_keeps (cols : list string) (items : Dict) (row : list Cell) : bool :=
  forallb (fun item => item_keeps cols item row) items.

(** The exception of one item, if it raises: a scalar for a column of the
    table whose text does not compile. *)
Definition item_error (cols : list string) (item : string * PyVal) : option PyExc :=
  let '(col, val) := item in
  if bool_decide (col ∈ cols) then
    match val with
    | PList _ => None
    | _ => err "re.error" <$> re_compile_error lib (py_str (float_repr lib) val)
    end
  else None.

Fixpoint first_error (cols : list string) (items : Dict) : option PyExc :=
  match items with
  | [] => None
  | item :: rest =>
      match item_error cols item with
      | Some e => Some e
      | None => first_error cols rest
      end
  end.

End WithLib.
End FilterRows.

(** ** An instance of the library primitives

    Enough of the primitives to run the model on concrete tables: a float
    prints as its fraction, an int is the float of the same number, a number
    parses from a decimal integer, a pattern is searched as a literal, and a
    pattern with an unclosed parenthesis is refused, as [re.compile] refuses
    it. *)

Module Sample.

Fixpoint open_parens (depth : nat) (s : string) : option nat :=
  match s with
  | EmptyString => Some depth
  | String c t =>
      if Ascii.eqb c "(" then open_parens (S depth) t
      else if Ascii.eqb c ")" then
        match depth with
        | O => None
        | S d => open_parens d t
        end
      else open_parens depth t
  end.

Definition parse_int (s : string) : F64 :=
  match s with
  | EmptyString => NaN
  | _ =>
      match NilEmpty.int_of_string s with
      | Some i => Fin (Qc_of_Z (Z.of_int i))
      | None => NaN
      end
  end.

Definition lib : Lib :=
  {| float_repr := fun q => PyStr.of_Z (Qnum q) ++ "/" ++ PyStr.of_Z (Zpos (Qden q));
     float_of_int := Qc_of_Z;
     parse_number := parse_int;
     re_compile_error := fun pat =>
       match open_parens 0 pat with
       | Some O => None
       | Some (S _) => Some "missing ), unterminated subpattern"
       | None => Some "unbalanced parenthesis"
       end;
     re_search_ignorecase := fun pat s => PyStr.contains (PyStr.lower pat) (PyStr.lower s);
     fsqrt := fun q => q |}.

(** A one-table store: stage and tumour mutational burden of four
    patients, without any patient identifier column. *)
Definition stages : DataFrame :=
  mkFrame ["Stage"; "TMB"]
    [[CStr "Stage 4"; CInt 10];
     [CStr "Stage 1"; CInt 2];
     [CStr "Stage 4"; CStr "n/a"];
     [CStr "Stage 4"; CInt 20]].

(** The same patients with an identifier column, one patient seen twice
    and one identifier missing. *)
Definition patients : DataFrame :=
  mkFrame ["Patient ID"; "Stage"; "TMB"]
    [[CStr "P-1"; CStr "Stage 4"; CInt 10];
     [CStr "P-2"; CStr "Stage 1"; CInt 2];
     [CStr "P-1"; CStr "Stage 4"; CInt 12];
     [CNaN; CStr "Stage 4"; CInt 20]].

Definition filter_step (table : string) (spec : Dict) : PlanStep :=
  mkPlanStep (Some 1%Z) (Some "cohort") (Some "cohort_sql") (Some spec) None (Some [table]).

Definition feature_step (feature : string) : PlanStep :=
  mkPlanStep (Some 2%Z) (Some "stats") (Some "feature_descriptives") None (Some feature) None.

(** The rows of [patients] at stage 4. *)
Definition stage4_patients : DataFrame :=
  mkFrame ["Patient ID"; "Stage"; "TMB"]
    [[CStr "P-1"; CStr "Stage 4"; CInt 10];
     [CStr "P-1"; CStr "Stage 4"; CInt 12];
     [CNaN; CStr "Stage 4"; CInt 20]].

(** The rows of [stages] at stage 4. *)
Definition stage4_stages : DataFrame :=
  mkFrame ["Stage"; "TMB"]
    [[CStr "Stage 4"; CInt 10];
     [CStr "Stage 4"; CStr "n/a"];
     [CStr "Stage 4"; CInt 20]].

(** A column without any number, and a column with exactly one. *)
Definition no_numbers : DataFrame :=
  mkFrame ["TMB"] [[CStr "n/a"]; [CNaN]].

Definition one_number : DataFrame :=
  mkFrame ["TMB"] [[CStr "n/a"]; [CInt 7]; [CNaN]].

(** A table with a column of booleans, as [pd.read_csv] reads a column of
    [True] and [False], and its one row of stage 4. *)
Definition smokers : DataFrame :=
  mkFrame ["Stage"; "Smoker"]
    [[CStr "Stage 4"; CBool true];
     [CStr "Stage 1"; CBool false]].

Definition stage4_smokers : DataFrame :=
  mkFrame ["Stage"; "Smoker"] [[CStr "Stage 4"; CBool true]].

(** A column whose one value is an infinity. *)
Definition one_infinity : DataFrame :=
  mkFrame ["TMB"] [[CInf false]; [CNaN]].

(** *** A run of the pipeline *)

Definition raising_code : string := "def run_analysis(): return 1 / 0".

Definition dict_code : string := "def run_analysis(): return {'steps': [{'step_id': 1}], 'notes': 'mine'}".

Definition list_code : string := "def run_analysis(): return ['a', 1]".

(** A procedure that raises an exception of a class of its own, whose
    [__str__] raises in turn:
    [class Quiet(Exception): __str__ = lambda self: {}["text"]]. *)
Definition quiet_code : string := "def run_analysis(): raise Quiet()".

(** A procedure that returns an object of a class of its own, whose
    [__str__] raises: [class Silent: __str__ = lambda self: {}["text"]]. *)
Definition silent_code : string := "def run_analysis(): return Silent()".

Definition division_error : PyExc := err "ZeroDivisionError" "division by zero".

Definition text_error : PyExc := err "KeyError" (repr_str "text").

Definition quiet_error : PyExc := mkExc StdException "Quiet" (fun _ => inr text_error).

Definition silent_object : Returned :=
  {| ret_is_dict := Ok false;
     ret_str := Raise text_error;
     ret_get := fun _ _ => Raise (err "AttributeError" "'Silent' object has no attribute 'get'") |}.

Definition returned_dict : PyVal :=
  PDict [("steps", PList [PDict [("step_id", PInt 1)]]); ("notes", PStr "mine")].

(** The interpreter on the programs used below; any other text defines
    nothing. *)
Definition exec (code : string) : Result (gmap string NsEntry) :=
  if String.eqb code raising_code then
    Ok {["run_analysis" := Callable (Raise division_error)]}
  else if String.eqb code dict_code then
    Ok {["run_analysis" := Callable (Ok (returned_value (float_repr lib) returned_dict))]}
  else if String.eqb code list_code then
    Ok {["run_analysis" :=
           Callable (Ok (returned_value (float_repr lib) (PList [PStr "a"; PInt 1])))]}
  else if String.eqb code quiet_code then
    Ok {["run_analysis" := Callable (Raise quiet_error)]}
  else if String.eqb code silent_code then
    Ok {["run_analysis" := Callable (Ok silent_object)]}
  else Ok ∅.

(** The interpreter and planner stages are answered with an empty JSON
    object; the replies to the analyst and to the writer are given. *)
Definition world (analyst_reply writer_reply : Result (option string)) : World :=
  {| backend := fun req =>
       match req with
       | ReqOncologist _ => Ok (Some "{}")
       | ReqPlanner _ _ _ => Ok (Some "{}")
       | ReqAnalystCode _ _ _ _ => analyst_reply
       | ReqWriter _ _ _ _ => writer_reply
       end;
     json_loads := fun text => if String.eqb text "{}" then Some (PDict []) else None;
     read_metadata := Ok "patients: Stage, TMB";
     oncologist_prompt_id := "oncologist_v1";
     planner_prompt_id := "planner_v1";
     py_exec := exec |}.

(** The configuration of [app.py]. *)
Definition config : IngestionConfig :=
  mkIngestionConfig
    [mkTableConfig "patients" "data/patients.tsv" "PATIENT_ID" None]
    "data/clinical_patient_meta.txt".

Definition query : ChatState := {["user_query" := PStr "How many stage 4 patients?"]}.

(** The record after the oncologist and planner stages of [world]. *)
Definition after_planner : ChatState :=
  {["plan" := PDict [("_prompt_id", PStr "planner_v1")]]}
  ∪ ({["oncologist_view" := PDict [("_prompt_id", PStr "oncologist_v1")]]} ∪ query).

Definition connection_error : PyExc := err "APIConnectionError" "Connection error.".

Definition notes_of (patch : ChatState) : option PyVal :=
  match patch !! "execution_result" with
  | Some (PDict er) => PyDict.get "notes" er
  | _ => None
  end.

Definition overall_status (state : ChatState) : option PyVal :=
  match state !! "execution_result" with
  | Some (PDict er) => PyDict.get "overall_status" er
  | _ => None
  end.

End Sample.

(** ** Concrete data for the further properties *)

Module Demo.

(** A tokenizer with one token per character, its code. *)
Definition encoder : Encoder :=
  {| encode := fun text =>
       Ok (map (fun c => Z.of_nat (nat_of_ascii c)) (list_ascii_of_string text));
     decode := fun tokens =>
       string_of_list_ascii (map (fun t => ascii_of_nat (Z.to_nat t)) tokens) |}.

Definition files : FileSystem := {["data/patients.tsv" := Ok Sample.patients]}.

Definition loaded : gmap string DataFrame := {["patients" := Sample.patients]}.

(** A table named "clinical" beside the table "patients". *)
Definition two_tables : gmap string DataFrame :=
  <["clinical" := Sample.stages]> {["patients" := Sample.patients]}.

Definition stage4 : Dict := [("Stage", PStr "stage 4")].

Definition stage4_result : Dict :=
  [("step_id", PInt 1); ("name", PStr "cohort"); ("tool", PStr "cohort_sql");
   ("status", PStr "success"); ("table_used", PStr "patients");
   ("filter_applied", PDict [("Stage", PStr "stage 4")]);
   ("row_count", PInt 3); ("patient_count", PInt 1);
   ("patient_id_column", PStr "Patient ID");
   ("sample_patient_ids", PList [PStr "P-1"; PStr "P-1"])].

Definition stage4_context : Context :=
  <["current_cohort_patient_id_col" := CtxPy (PStr "Patient ID")]>
    (<["current_cohort_table" := CtxPy (PStr "patients")]>
       (<["current_cohort" := CtxFrame Sample.stage4_patients]> ∅)).

(** The table [patients] configured once with inferred text columns and
    once with a text column it does not have. *)
Definition inferred_cfg : TableConfig :=
  mkTableConfig "patients" "data/patients.tsv" "Patient ID" None.

Definition explicit_cfg : TableConfig :=
  mkTableConfig "patients" "data/patients.tsv" "Patient ID" (Some ["Stage"; "Grade"; "TMB"]).

Definition chunks : list DocChunk :=
  map (fun i => mkDocChunk ("patients:P-1:0:chunk_" ++ PyStr.of_Z i) "text" []) [0; 1; 2; 3; 4]%Z.

(** A store whose collection accepts every batch and answers every query
    with two documents. *)
Definition store (key : option string) : Store :=
  {| mkdir_result := Ok ();
     openai_api_key := key;
     client_result := Ok ();
     add_error := fun _ _ => None;
     query_result := fun _ _ =>
       Ok (["Stage: Stage 4"; "patients: Stage, TMB"],
           [[("row_id", PStr "P-1"); ("table_name", PStr "patients")];
            [("filename", PStr "clinical_patient_meta.txt")]],
           [Qc_of_Z 0; Qc_of_Z 1]) |}.

(** A world whose interpreter stage is answered with the given reply, and
    the other stages as in [Sample.world]. *)
Definition world_replying (reply : Result (option string)) : World :=
  {| backend := fun req =>
       match req with
       | ReqOncologist _ => reply
       | _ => backend (Sample.world (Ok (Some Sample.dict_code)) (Ok (Some "Done."))) req
       end;
     json_loads := fun text =>
       if String.eqb text "[1, 2]" then Some (PList [PInt 1; PInt 2])
       else json_loads (Sample.world (Ok None) (Ok None)) text;
     read_metadata := Ok "patients: Stage, TMB";
     oncologist_prompt_id := "oncologist_v1";
     planner_prompt_id := "planner_v1";
     py_exec := Sample.exec |}.

End Demo.

(** * Properties *)

Import Frame CohortQuery.

(** ** The cohort filter *)

Section FilterProperties.

Variable lib : Lib.

Lemma select_rows_all_false {A} (mask : list bool) (rs : list A) :
  Forall (fun b => b = false) mask -> select_rows mask rs = [].
Proof.
  intros Hmask. revert rs.
  induction Hmask as [|b mask Hb _ IH]; intros [|r rs]; simpl; try done.
  rewrite Hb. apply IH.
Qed.

Lemma mask_and_all_false (mask other : list bool) :
  Forall (fun b => b = false) mask ->
  Forall (fun b => b = false) (mask_and mask other).
Proof.
  intros Hmask. revert other.
  induction Hmask as [|b mask Hb _ IH]; intros [|o other]; simpl; constructor.
  - by rewrite Hb.
  - apply IH.
Qed.

(** Once the mask is all false, no later turn of the loop brings a row
    back. *)
Lemma filter_item_keeps_false df mask item mask' :
  Forall (fun b => b = false) mask ->
  filter_item lib df mask item = Ok mask' ->
  Forall (fun b => b = false) mask'.
Proof.
  intros Hmask. destruct item as [col val]. unfold filter_item.
  destruct (negb (has_column col df)).
  - intros [= <-]. apply Forall_fmap. eapply Forall_impl; [exact Hmask|].
    intros b ->. done.
  - destruct val; simpl;
      try (destruct (str_contains lib _ _) as [m|e]; simpl; [|done]);
      intros [= <-]; by apply mask_and_all_false.
Qed.

Lemma filter_loop_keeps_false df items : forall mask mask',
  Forall (fun b => b = false) mask ->
  filter_loop lib df mask items = Ok mask' ->
  Forall (fun b => b = false) mask'.
Proof.
  induction items as [|item items IH]; intros mask mask' Hmask; simpl.
  - by intros [= <-].
  - destruct (filter_item lib df mask item) as [m|e] eqn:Hitem; simpl; [|done].
    apply IH. by eapply filter_item_keeps_false.
Qed.

Lemma filter_item_absent df mask col val :
  has_column col df = false ->
  exists mask', filter_item lib df mask (col, val) = Ok mask'
                /\ Forall (fun b => b = false) mask'.
Proof.
  intros Habs. unfold filter_item. rewrite Habs. simpl.
  eexists; split; [done|]. apply Forall_fmap, Forall_true.
  intros b. simpl. apply andb_false_r.
Qed.

(** A filter naming an absent column keeps no row, whenever it returns. *)
Lemma filter_loop_absent df items : forall mask mask' col val,
  (col, val) ∈ items ->
  has_column col df = false ->
  filter_loop lib df mask items = Ok mask' ->
  Forall (fun b => b = false) mask'.
Proof.
  induction items as [|item items IH]; intros mask mask' col val Hin Habs; simpl.
  - by apply elem_of_nil in Hin.
  - apply elem_of_cons in Hin as [<-|Hin].
    + destruct (filter_item_absent df mask col val Habs) as (m & -> & Hm). simpl.
      by apply filter_loop_keeps_false.
    + destruct (filter_item lib df mask item) as [m|e]; simpl; [|done].
      by eapply IH.
Qed.

Lemma apply_filter_absent_column df spec col val filtered :
  (col, val) ∈ spec ->
  has_column col df = false ->
  _apply_filter lib df (Some spec) = Ok filtered ->
  rows filtered = [] /\ columns filtered = columns df.
Proof.
  intros Hin Habs. unfold _apply_filter.
  destruct spec as [|item items]; [by apply elem_of_nil in Hin|].
  destruct (filter_loop lib df _ (item :: items)) as [mask|e] eqn:Hloop; simpl; [|done].
  intros [= <-]. split; [|done]. simpl.
  apply select_rows_all_false. by eapply filter_loop_absent.
Qed.

(** C10.  For every table, a null filter specification and an empty one both
  give the table back, with its columns and all of its rows unchanged. *)
Theorem apply_filter_empty_is_identity (df : DataFrame) :
  _apply_filter lib df None = Ok df /\ _apply_filter lib df (Some []) = Ok df.
Proof. split; reflexivity. Qed.

(** C4.  The filter raises instead of returning zero rows: with a column
    "Stage" in the table, the specification
    [{"Nope": "x", "Stage": "("}] names the absent column "Nope", and the
    scalar "(" is compiled as a regular expression by [str.contains], whose
    [re.error] leaves [_apply_filter], in whichever order the two keys come. *)
Theorem apply_filter_absent_column_raises (rws : list (list Cell)) (msg : string) :
  re_compile_error lib "(" = Some msg ->
  has_column "Nope" (mkFrame ["Stage"] rws) = false
  /\ _apply_filter lib (mkFrame ["Stage"] rws)
       (Some [("Nope", PStr "x"); ("Stage", PStr "(")])
     = Raise (err "re.error" msg)
  /\ _apply_filter lib (mkFrame ["Stage"] rws)
       (Some [("Stage", PStr "("); ("Nope", PStr "x")])
     = Raise (err "re.error" msg).
Proof.
  intros Hre. split; [done|].
  unfold _apply_filter, filter_loop, filter_item. simpl.
  unfold str_contains. simpl. by rewrite Hre.
Qed.

End FilterProperties.

Lemma apply_filter_absent_column_raises_witness :
  re_compile_error Sample.lib "(" = Some "missing ), unterminated subpattern"
  /\ has_column "Nope" (mkFrame ["Stage"] [[CStr "IV"]]) = false
  /\ _apply_filter Sample.lib (mkFrame ["Stage"] [[CStr "IV"]])
       (Some [("Nope", PStr "x"); ("Stage", PStr "(")])
     = Raise (err "re.error" "missing ), unterminated subpattern")
  /\ _apply_filter Sample.lib (mkFrame ["Stage"] [[CStr "IV"]])
       (Some [("Stage", PStr "("); ("Nope", PStr "x")])
     = Raise (err "re.error" "missing ), unterminated subpattern").
Proof.
  split; [reflexivity|].
  apply (apply_filter_absent_column_raises Sample.lib [[CStr "IV"]]). reflexivity.
Defined.

(** With patterns that compile, the same table and an absent column give
    zero rows. *)
Example apply_filter_absent_column_example :
  _apply_filter Sample.lib Sample.stages (Some [("Nope", PStr "x"); ("Stage", PStr "4")])
  = Ok (mkFrame ["Stage"; "TMB"] []).
Proof. reflexivity. Qed.

(** ** The cohort filter, row by row

    The mask loop of [_apply_filter] against the row-wise reading of a
    specification in [FilterRows]. *)

Import FilterRows.

Section FilterRowsProperties.

Variable lib : Lib.

Lemma has_column_find col df :
  has_column col df = true ->
  exists i, list_find (eq col) (columns df) = Some (i, col).
Proof.
  unfold has_column. intros H. apply bool_decide_eq_true in H.
  destruct (list_find (eq col) (columns df)) as [[i c]|] eqn:Hfind.
  - apply list_find_Some in Hfind as (_ & <- & _). by exists i.
  - exfalso. eapply list_find_None in Hfind.
    eapply Forall_forall in Hfind; [|exact H]. by apply Hfind.
Qed.

Lemma has_column_not_find col df :
  has_column col df = false -> list_find (eq col) (columns df) = None.
Proof.
  unfold has_column. intros H. apply bool_decide_eq_false in H.
  apply list_find_None, Forall_forall. intros c Hc ->. done.
Qed.

Lemma zip_with_andb_false (mask : list bool) {A} (rs : list A) :
  length mask = length rs ->
  map (fun b => b && false) mask = zip_with andb mask (map (fun _ => false) rs).
Proof.
  revert rs. induction mask as [|b mask IH]; intros [|r rs]; simpl; try done.
  intros [= Hlen]. by rewrite (IH rs Hlen).
Qed.

Lemma filter_item_rowwise df mask item :
  length mask = length (rows df) ->
  filter_item lib df mask item
  = match item_error lib (columns df) item with
    | Some e => Raise e
    | None => Ok (zip_with andb mask (map (item_keeps lib (columns df) item) (rows df)))
    end.
Proof.
  intros Hlen. destruct item as [col val]. unfold filter_item, item_error, item_keeps.
  destruct (has_column col df) eqn:Hcol.
  - destruct (has_column_find col df Hcol) as [i Hfind].
    unfold has_column in Hcol. rewrite Hcol. simpl negb. cbv iota.
    unfold column, isin, str_contains, mask_and. rewrite Hfind.
    rewrite !map_map.
    destruct val; simpl; rewrite ?map_map; try done;
      destruct (re_compile_error lib _); simpl; rewrite ?map_map; done.
  - rewrite (has_column_not_find col df Hcol).
    unfold has_column in Hcol. rewrite Hcol. simpl.
    by rewrite (zip_with_andb_false mask (rows df)).
Qed.

Lemma zip_with_andb_assoc (mask : list bool) {A} (f g : A -> bool) (rs : list A) :
  zip_with andb (zip_with andb mask (map f rs)) (map g rs)
  = zip_with andb mask (map (fun r => f r && g r) rs).
Proof.
  revert mask. induction rs as [|r rs IH]; intros [|b mask]; simpl; try done.
  by rewrite IH, andb_assoc.
Qed.

Lemma filter_loop_rowwise df items : forall mask,
  length mask = length (rows df) ->
  filter_loop lib df mask items
  = match first_error lib (columns df) items with
    | Some e => Raise e
    | None => Ok (zip_with andb mask (map (row_keeps lib (columns df) items) (rows df)))
    end.
Proof.
  induction items as [|item items IH]; intros mask Hlen; simpl.
  - f_equal. unfold row_keeps. simpl. clear -Hlen. revert Hlen.
    generalize (rows df). induction mask as [|b mask IH]; intros [|r rs]; simpl; try done.
    intros [= Hlen]. by rewrite andb_true_r, <- IH.
  - rewrite (filter_item_rowwise df mask item Hlen).
    destruct (item_error lib (columns df) item) as [e|]; simpl; [done|].
    rewrite IH by (rewrite length_zip_with, length_map; lia).
    destruct (first_error lib (columns df) items); [done|].
    f_equal. apply zip_with_andb_assoc.
Qed.

Lemma select_rows_map {A} (f : A -> bool) (rs : list A) :
  select_rows (map f rs) rs = List.filter f rs.
Proof.
  induction rs as [|r rs IH]; simpl; [done|]. rewrite IH. by destruct (f r).
Qed.

Lemma zip_with_andb_true {A} (f : A -> bool) (rs : list A) :
  zip_with andb (replicate (length rs) true) (map f rs) = map f rs.
Proof. induction rs as [|r rs IH]; simpl; [done|]. by rewrite IH. Qed.

Lemma filter_all_true {A} (f : A -> bool) (rs : list A) :
  (forall r, f r = true) -> List.filter f rs = rs.
Proof.
  intros Hf. induction rs as [|r rs IH]; simpl; [done|]. by rewrite Hf, IH.
Qed.

(** The loop over the mask is the row-by-row filter: the filter raises the
    exception of its first item that raises, and otherwise keeps, in order,
    the rows that every item keeps. *)
Lemma apply_filter_rowwise df items :
  _apply_filter lib df (Some items)
  = match first_error lib (columns df) items with
    | Some e => Raise e
    | None =>
        Ok (mkFrame (columns df)
              (List.filter (row_keeps lib (columns df) items) (rows df)))
    end.
Proof.
  unfold _apply_filter. destruct items as [|item items].
  - simpl. destruct df as [cols rws]. simpl. by rewrite filter_all_true.
  - rewrite filter_loop_rowwise by (unfold n_rows; apply length_replicate).
    destruct (first_error lib (columns df) (item :: items)); [done|]. simpl.
    unfold n_rows. rewrite zip_with_andb_true. unfold select.
    by rewrite select_rows_map.
Qed.

End FilterRowsProperties.

(** ** The two step executors *)

Section StepProperties.

Variable lib : Lib.

Lemma filter_nil_Forall {A} (P : A -> bool) (l : list A) :
  List.filter P l = [] -> Forall (fun x => P x = false) l.
Proof.
  induction l as [|x l IH]; simpl; [constructor|].
  destruct (P x) eqn:HP; [done|]. intros H. constructor; auto.
Qed.

Lemma filter_head_first {A} (P : A -> bool) (l : list A) (x : A) (rest : list A) :
  List.filter P l = x :: rest ->
  exists before after,
    l = (before ++ x :: after)%list
    /\ Forall (fun y => P y = false) before
    /\ P x = true.
Proof.
  induction l as [|y l IH]; simpl; [done|].
  destruct (P y) eqn:HP.
  - intros [= -> _]. exists [], l. auto.
  - intros H. destruct (IH H) as (before & after & -> & Hb & Hx).
    exists (y :: before), after. auto.
Qed.

Lemma cohort_filter_unknown_table step tbls context :
  lookup_table (pick_table_name (default [] (step_tables_used step)) tbls) tbls = None ->
  exists r,
    execute_cohort_filter_step lib step tbls context = Ok (r, context)
    /\ PyDict.get "status" r = Some (PStr "failed").
Proof.
  intros Hnone. unfold execute_cohort_filter_step. rewrite Hnone.
  eexists; split; reflexivity.
Qed.

Lemma cohort_filter_known_table step tbls context name df filtered :
  lookup_table (pick_table_name (default [] (step_tables_used step)) tbls) tbls
    = Some (name, df) ->
  _apply_filter lib df (Some (default [] (step_filter step))) = Ok filtered ->
  exists r,
    execute_cohort_filter_step lib step tbls context
      = Ok (r,
            <["current_cohort_patient_id_col" :=
                CtxPy (opt_str (head (List.filter is_patient_id_col (columns df))))]>
              (<["current_cohort_table" := CtxPy (PStr name)]>
                 (<["current_cohort" := CtxFrame filtered]> context)))
    /\ PyDict.get "status" r = Some (PStr "success")
    /\ PyDict.get "patient_id_column" r
       = Some (opt_str (head (List.filter is_patient_id_col (columns df))))
    /\ PyDict.get "patient_count" r
       = Some (opt_int ((fun pid => Z.of_nat (nunique (column pid filtered)))
                          <$> head (List.filter is_patient_id_col (columns df))))
    /\ PyDict.get "sample_patient_ids" r
       = Some (PList (map PStr
                 (from_option (fun pid => firstn 5 (map (cell_str lib) (dropna (column pid filtered))))
                    [] (head (List.filter is_patient_id_col (columns df))))))
    /\ "patient_count" ∈ PyDict.keys r.
Proof.
  intros Hsome Hfilter. unfold execute_cohort_filter_step. rewrite Hsome.
  rewrite Hfilter. simpl.
  destruct (List.filter is_patient_id_col (columns df)) as [|pid others]; simpl;
    (eexists; split; [reflexivity|]);
    repeat split; unfold PyDict.keys; simpl; set_solver.
Qed.

(** C9.  A cohort filter step that returns a failed result found no loaded
    table for its step, and returns the context it received: the whole
    mapping, and so [current_cohort], [current_cohort_table] and
    [current_cohort_patient_id_col], are unchanged. *)
Theorem cohort_filter_failure_keeps_context step tbls context r context' :
  execute_cohort_filter_step lib step tbls context = Ok (r, context') ->
  PyDict.get "status" r = Some (PStr "failed") ->
  lookup_table (pick_table_name (default [] (step_tables_used step)) tbls) tbls = None
  /\ context' = context
  /\ context' !! "current_cohort" = context !! "current_cohort"
  /\ context' !! "current_cohort_table" = context !! "current_cohort_table"
  /\ context' !! "current_cohort_patient_id_col"
     = context !! "current_cohort_patient_id_col".
Proof.
  intros Hexec Hfailed.
  destruct (lookup_table (pick_table_name (default [] (step_tables_used step)) tbls) tbls)
    as [[name df]|] eqn:Hlookup.
  - exfalso.
    destruct (_apply_filter lib df (Some (default [] (step_filter step))))
      as [filtered|e] eqn:Hfilter.
    + destruct (cohort_filter_known_table step tbls context name df filtered Hlookup Hfilter)
        as (r0 & Hr0 & Hstatus & _).
      rewrite Hr0 in Hexec. injection Hexec as <- _.
      rewrite Hstatus in Hfailed. discriminate.
    + unfold execute_cohort_filter_step in Hexec. rewrite Hlookup, Hfilter in Hexec.
      discriminate.
  - destruct (cohort_filter_unknown_table step tbls context Hlookup) as (r0 & Hr0 & _).
    rewrite Hr0 in Hexec. injection Hexec as _ <-. done.
Qed.

(** C7.  With the table of the step resolved and the filter applied, the
    first column whose name contains "Patient ID" or is "patient_id" in any
    letter case is the identifier, and [patient_count] is the number of
    distinct values, missing ones apart, of that column in the filtered
    cohort; without such a column the key [patient_count] is still in the
    result and holds [None], as does [patient_id_column], and
    [sample_patient_ids] is empty. *)
Theorem cohort_summary_patient_count step tbls context name df filtered :
  lookup_table (pick_table_name (default [] (step_tables_used step)) tbls) tbls
    = Some (name, df) ->
  _apply_filter lib df (Some (default [] (step_filter step))) = Ok filtered ->
  exists r context',
    execute_cohort_filter_step lib step tbls context = Ok (r, context')
    /\ match List.filter is_patient_id_col (columns df) with
       | pid :: _ =>
           (exists before after,
              columns df = (before ++ pid :: after)%list
              /\ Forall (fun c => is_patient_id_col c = false) before
              /\ (PyStr.contains "Patient ID" pid = true
                  \/ PyStr.lower pid = "patient_id"))
           /\ PyDict.get "patient_id_column" r = Some (PStr pid)
           /\ PyDict.get "patient_count" r
              = Some (PInt (Z.of_nat (length (remove_dups (dropna (column pid filtered))))))
       | [] =>
           Forall (fun c => is_patient_id_col c = false) (columns df)
           /\ "patient_count" ∈ PyDict.keys r
           /\ PyDict.get "patient_count" r = Some PNone
           /\ PyDict.get "patient_id_column" r = Some PNone
           /\ PyDict.get "sample_patient_ids" r = Some (PList [])
       end.
Proof.
  intros Hlookup Hfilter.
  destruct (cohort_filter_known_table step tbls context name df filtered Hlookup Hfilter)
    as (r & Hr & _ & Hcol & Hcount & Hsample & Hkey).
  exists r. eexists. split; [exact Hr|].
  destruct (List.filter is_patient_id_col (columns df)) as [|pid others] eqn:Hcols.
  - split; [by apply filter_nil_Forall|]. auto.
  - destruct (filter_head_first _ _ _ _ Hcols) as (before & after & Hsplit & Hbefore & Hpid).
    split; [|auto]. exists before, after. repeat split; [done..|].
    unfold is_patient_id_col in Hpid. apply orb_true_iff in Hpid as [H|H]; [by left|].
    right. by apply String.eqb_eq.
Qed.

(** The cohort a filter step leaves in the context, row by row: the rows
    of the table for which every item of the filter holds. *)
Lemma cohort_filter_leaves_cohort step tbls context name T r ctx :
  lookup_table (pick_table_name (default [] (step_tables_used step)) tbls) tbls
    = Some (name, T) ->
  execute_cohort_filter_step lib step tbls context = Ok (r, ctx) ->
  ctx !! "current_cohort"
  = Some (CtxFrame
            (mkFrame (columns T)
               (List.filter (row_keeps lib (columns T) (default [] (step_filter step)))
                  (rows T)))).
Proof.
  intros Hlookup Hexec.
  destruct (_apply_filter lib T (Some (default [] (step_filter step))))
    as [filtered|e] eqn:Hfilter.
  - destruct (cohort_filter_known_table step tbls context name T filtered Hlookup Hfilter)
      as (r0 & Hr0 & _).
    rewrite Hr0 in Hexec. injection Hexec as _ <-.
    rewrite !lookup_insert_ne by done. rewrite lookup_insert_eq.
    rewrite apply_filter_rowwise in Hfilter.
    destruct (first_error lib (columns T) (default [] (step_filter step))); [done|].
    by injection Hfilter as <-.
  - unfold execute_cohort_filter_step in Hexec. rewrite Hlookup, Hfilter in Hexec.
    discriminate.
Qed.

(** C6.  After a cohort filter step on a loaded table T with filter F, the
    context holds as [current_cohort] the rows of T that F keeps, and a
    feature descriptives step run on that context, whatever tables it names
    or is given, reports the source "current_cohort" and describes the
    numeric values that the feature column has in those rows: their number
    as [count], and their mean, deviation, extremes and quartiles.  None of
    it is computed from the other rows of T.  (When every kept cell of the
    feature is a bool, the step raises [KeyError] instead; without a feature
    that is a column of T, it fails with the source "current_cohort".) *)
Theorem descriptives_use_filtered_cohort step1 step2 tbls tbls2 context name T r1 ctx1 :
  lookup_table (pick_table_name (default [] (step_tables_used step1)) tbls) tbls
    = Some (name, T) ->
  execute_cohort_filter_step lib step1 tbls context = Ok (r1, ctx1) ->
  let kept := List.filter (row_keeps lib (columns T) (default [] (step_filter step1))) (rows T) in
  ctx1 !! "current_cohort" = Some (CtxFrame (mkFrame (columns T) kept))
  /\ (forall f,
        step_feature step2 = Some f ->
        f <> EmptyString ->
        has_column f T = true ->
        let cells := column f (mkFrame (columns T) kept) in
        let xs := numeric_values lib cells in
        execute_feature_descriptives_step lib step2 tbls2 ctx1
        = if is_bool_series cells then Raise (err "KeyError" (repr_str "25%"))
          else
            match xs with
            | [] =>
                Ok ([("step_id", opt_int (step_id step2));
                     ("name", opt_str (step_name step2));
                     ("tool", opt_str (step_tool step2));
                     ("status", PStr "failed");
                     ("source", PStr "current_cohort");
                     ("error", PStr ("No numeric values available for feature: " ++ f))],
                    ctx1)
            | _ =>
                Ok ([("step_id", opt_int (step_id step2));
                     ("name", opt_str (step_name step2));
                     ("tool", opt_str (step_tool step2));
                     ("status", PStr "success");
                     ("source", PStr "current_cohort");
                     ("feature", PStr f);
                     ("metrics",
                      PDict [("count", PInt (Z.of_nat (length xs)));
                             ("mean", py_float (mean xs));
                             ("std", match std lib xs with NaN => PNone | s => py_float s end);
                             ("min", py_float (series_min xs));
                             ("max", py_float (series_max xs));
                             ("median", py_float (quantile (Q2Qc (1 # 2)) xs));
                             ("iqr", PList [py_float (quantile (Q2Qc (1 # 4)) xs);
                                            py_float (quantile (Q2Qc (3 # 4)) xs)])])],
                    ctx1)
            end)
  /\ (forall text,
        (step_feature step2 = None /\ text = "None")
        \/ (step_feature step2 = Some text
            /\ (text = EmptyString \/ has_column text T = false)) ->
        execute_feature_descriptives_step lib step2 tbls2 ctx1
        = Ok ([("step_id", opt_int (step_id step2));
               ("name", opt_str (step_name step2));
               ("tool", opt_str (step_tool step2));
               ("status", PStr "failed");
               ("source", PStr "current_cohort");
               ("error", PStr ("Feature column not found: " ++ text))],
              ctx1)).
Proof.
  intros Hlookup Hexec kept.
  pose proof (cohort_filter_leaves_cohort step1 tbls context name T r1 ctx1 Hlookup Hexec)
    as Hcohort.
  fold kept in Hcohort. split; [exact Hcohort|].
  split.
  - intros f Hfeature Hne Hcol cells xs.
    unfold execute_feature_descriptives_step, pick_cohort. rewrite Hcohort. simpl.
    unfold descriptives_on. rewrite Hfeature.
    destruct f as [|c f']; [done|].
    change (has_column (String c f') (mkFrame (columns T) kept))
      with (has_column (String c f') T).
    rewrite Hcol. simpl negb. cbv iota. fold cells.
    destruct (is_bool_series cells); [done|]. fold xs.
    by destruct xs.
  - unfold execute_feature_descriptives_step, pick_cohort. rewrite Hcohort. simpl.
    unfold descriptives_on.
    intros text [[-> ->]|[-> [->|Hcol]]]; [done|done|].
    destruct text as [|c f']; [done|].
    change (has_column (String c f') (mkFrame (columns T) kept))
      with (has_column (String c f') T).
    by rewrite Hcol.
Qed.

End StepProperties.

(** ** Descriptive statistics *)

Section DescribeProperties.

Variable lib : Lib.

Lemma qc_of_nat_0 : qc_of_nat 0 = 0%Qc.
Proof. by apply Qc_is_canon. Qed.

Lemma qc_of_nat_1 : qc_of_nat 1 = 1%Qc.
Proof. by apply Qc_is_canon. Qed.

Lemma mean_singleton (x : Qc) : mean [Fin x] = Fin x.
Proof.
  unfold mean, f_sum. simpl. rewrite qc_of_nat_1, Qcplus_0_l.
  unfold Qcdiv. change (/ 1)%Qc with 1%Qc. by rewrite Qcmult_1_r.
Qed.

Lemma lerp_same (x t : Qc) : lerp (Fin x) (Fin x) t = Fin x.
Proof.
  unfold lerp. destruct (decide (t < Q2Qc (1 # 2))%Qc); simpl; f_equal; ring.
Qed.

Lemma quantile_singleton (p x : Qc) : quantile p [Fin x] = Fin x.
Proof.
  unfold quantile. change (length [Fin x] - 1)%nat with 0%nat.
  rewrite qc_of_nat_0, Qcmult_0_r.
  change (Qfloor 0%Qc) with 0%Z. simpl. apply lerp_same.
Qed.

Lemma describe_singleton (x : Qc) :
  describe lib [Fin x] = mkDescribe 1 (Fin x) NaN (Fin x) (Fin x) (Fin x) (Fin x) (Fin x).
Proof.
  unfold describe, std, variance, series_min, series_max.
  simpl length. simpl head. simpl default.
  rewrite mean_singleton, !quantile_singleton. simpl.
  unfold f_min, f_max. simpl. by rewrite bool_decide_eq_true_2.
Qed.

(** C5.  With the cohort of the step resolved to a frame that has the
    feature column: when the column is a series of booleans, which
    [pd.to_numeric] leaves as it is, the step raises [KeyError] for the key
    "25%" of the description, where the claim has it compute or fail with a
    result.  For any other column: when no cell is numeric after coercion,
    the step returns a failed result without metrics; when exactly one is,
    and it is finite, the metrics report count 1, std [None], and mean,
    median, min and max all equal to that value. *)
Theorem feature_descriptives_small_columns step tbls context df source f :
  pick_cohort step tbls context = inr (CtxFrame df, source) ->
  step_feature step = Some f ->
  f <> EmptyString ->
  has_column f df = true ->
  (is_bool_series (column f df) = true ->
   execute_feature_descriptives_step lib step tbls context
   = Raise (err "KeyError" (repr_str "25%")))
  /\ (is_bool_series (column f df) = false ->
      (numeric_values lib (column f df) = [] ->
       exists r,
         execute_feature_descriptives_step lib step tbls context = Ok (r, context)
         /\ PyDict.get "status" r = Some (PStr "failed")
         /\ PyDict.get "error" r
            = Some (PStr ("No numeric values available for feature: " ++ f))
         /\ PyDict.get "metrics" r = None)
      /\ (forall x : Qc,
          numeric_values lib (column f df) = [Fin x] ->
          exists r m,
            execute_feature_descriptives_step lib step tbls context = Ok (r, context)
            /\ PyDict.get "status" r = Some (PStr "success")
            /\ PyDict.get "metrics" r = Some (PDict m)
            /\ PyDict.get "count" m = Some (PInt 1)
            /\ PyDict.get "std" m = Some PNone
            /\ PyDict.get "mean" m = Some (PFloat x)
            /\ PyDict.get "median" m = Some (PFloat x)
            /\ PyDict.get "min" m = Some (PFloat x)
            /\ PyDict.get "max" m = Some (PFloat x))).
Proof.
  intros Hcohort Hfeature Hne Hcol.
  unfold execute_feature_descriptives_step, descriptives_on.
  rewrite Hcohort, Hfeature, Hcol.
  destruct f as [|c f']; [done|]. simpl negb. cbv iota.
  split; [by intros ->|]. intros ->. split.
  - intros ->. eexists. repeat split.
  - intros x ->. rewrite describe_singleton.
    eexists. eexists. repeat split.
Qed.

End DescribeProperties.

(** ** The properties at concrete tables *)

Lemma cohort_filter_failure_keeps_context_witness :
  let step := Sample.filter_step "labs" [] in
  let tbls : gmap string DataFrame := {["patients" := Sample.patients]} in
  let context : Context := {["current_cohort" := CtxFrame Sample.stages]} in
  let r := [("step_id", PInt 1); ("name", PStr "cohort"); ("tool", PStr "cohort_sql");
            ("status", PStr "failed"); ("error", PStr "Unknown table: labs")] in
  execute_cohort_filter_step Sample.lib step tbls context = Ok (r, context)
  /\ lookup_table (pick_table_name (default [] (step_tables_used step)) tbls) tbls = None
  /\ context = context
  /\ context !! "current_cohort" = context !! "current_cohort"
  /\ context !! "current_cohort_table" = context !! "current_cohort_table"
  /\ context !! "current_cohort_patient_id_col"
     = context !! "current_cohort_patient_id_col".
Proof.
  intros step tbls context r.
  split; [reflexivity|].
  apply (cohort_filter_failure_keeps_context Sample.lib step tbls context r context);
    reflexivity.
Defined.

Lemma cohort_summary_patient_count_witness :
  let step := Sample.filter_step "clinical" [("Stage", PStr "stage 4")] in
  let tbls : gmap string DataFrame := {["patients" := Sample.patients]} in
  exists r context',
    execute_cohort_filter_step Sample.lib step tbls ∅ = Ok (r, context')
    /\ (exists before after,
          columns Sample.patients = (before ++ "Patient ID" :: after)%list
          /\ Forall (fun c => is_patient_id_col c = false) before
          /\ (PyStr.contains "Patient ID" "Patient ID" = true
              \/ PyStr.lower "Patient ID" = "patient_id"))
    /\ PyDict.get "patient_id_column" r = Some (PStr "Patient ID")
    /\ PyDict.get "patient_count" r
       = Some (PInt (Z.of_nat (length (remove_dups
            (dropna (column "Patient ID" Sample.stage4_patients)))))).
Proof.
  intros step tbls.
  apply (cohort_summary_patient_count Sample.lib step tbls ∅ "patients"
           Sample.patients Sample.stage4_patients); reflexivity.
Defined.

(** At stage 4 the table [patients] has three rows and one patient. *)
Example cohort_summary_patient_count_example :
  (res ← execute_cohort_filter_step Sample.lib
           (Sample.filter_step "clinical" [("Stage", PStr "stage 4")])
           {["patients" := Sample.patients]} ∅;
   Ok (PyDict.get "row_count" res.1, PyDict.get "patient_count" res.1,
       PyDict.get "sample_patient_ids" res.1))
  = Ok (Some (PInt 3), Some (PInt 1), Some (PList [PStr "P-1"; PStr "P-1"])).
Proof. reflexivity. Qed.

(** C7, as stated, fails: the table [stages] has no identifier column, and
    the result of the step still has the key [patient_count], holding
    [None]. *)
Lemma cohort_summary_patient_count_not_omitted :
  List.filter is_patient_id_col (columns Sample.stages) = []
  /\ (res ← execute_cohort_filter_step Sample.lib (Sample.filter_step "t" [])
              {["t" := Sample.stages]} ∅;
      Ok (bool_decide ("patient_count" ∈ PyDict.keys res.1),
          PyDict.get "patient_count" res.1))
     = Ok (true, Some PNone).
Proof. split; reflexivity. Qed.

Lemma descriptives_use_filtered_cohort_witness :
  let step1 := Sample.filter_step "t" [("Stage", PStr "stage 4")] in
  let step2 := Sample.feature_step "TMB" in
  let tbls : gmap string DataFrame := {["t" := Sample.stages]} in
  let ctx1 : Context :=
    <["current_cohort_patient_id_col" := CtxPy PNone]>
      (<["current_cohort_table" := CtxPy (PStr "t")]>
         (<["current_cohort" := CtxFrame Sample.stage4_stages]> ∅)) in
  let xs := [Fin (Qc_of_Z 10); Fin (Qc_of_Z 20)] in
  ctx1 !! "current_cohort" = Some (CtxFrame Sample.stage4_stages)
  /\ execute_feature_descriptives_step Sample.lib step2 tbls ctx1
     = Ok ([("step_id", PInt 2);
            ("name", PStr "stats");
            ("tool", PStr "feature_descriptives");
            ("status", PStr "success");
            ("source", PStr "current_cohort");
            ("feature", PStr "TMB");
            ("metrics",
             PDict [("count", PInt 2);
                    ("mean", py_float (mean xs));
                    ("std", match std Sample.lib xs with NaN => PNone | s => py_float s end);
                    ("min", py_float (series_min xs));
                    ("max", py_float (series_max xs));
                    ("median", py_float (quantile (Q2Qc (1 # 2)) xs));
                    ("iqr", PList [py_float (quantile (Q2Qc (1 # 4)) xs);
                                   py_float (quantile (Q2Qc (3 # 4)) xs)])])],
           ctx1).
Proof.
  intros step1 step2 tbls ctx1 xs.
  pose proof (descriptives_use_filtered_cohort Sample.lib step1 step2 tbls tbls ∅ "t"
                Sample.stages
                [("step_id", PInt 1); ("name", PStr "cohort"); ("tool", PStr "cohort_sql");
                 ("status", PStr "success"); ("table_used", PStr "t");
                 ("filter_applied", PDict [("Stage", PStr "stage 4")]);
                 ("row_count", PInt 3); ("patient_count", PNone);
                 ("patient_id_column", PNone); ("sample_patient_ids", PList [])]
                ctx1 eq_refl eq_refl) as (Hcohort & Hstats & _).
  split; [exact Hcohort|].
  apply (Hstats "TMB"); [reflexivity|discriminate|reflexivity].
Defined.

(** The statistics after the filter are those of 10 and 20, the two numeric
    values of the stage 4 rows; the raw table has the value 2 as well, which
    a step run on the table itself counts and takes as the minimum. *)
Example descriptives_after_filter_example :
  let tbls : gmap string DataFrame := {["t" := Sample.stages]} in
  let stats_of (res : Result (Dict * Context)) :=
    res ← res;
    Ok (PyDict.get "source" res.1,
        match PyDict.get "metrics" res.1 with
        | Some (PDict m) => (PyDict.get "count" m, PyDict.get "min" m, PyDict.get "max" m)
        | _ => (None, None, None)
        end) in
  stats_of (res1 ← execute_cohort_filter_step Sample.lib
              (Sample.filter_step "t" [("Stage", PStr "stage 4")]) tbls ∅;
            execute_feature_descriptives_step Sample.lib (Sample.feature_step "TMB")
              tbls res1.2)
  = Ok (Some (PStr "current_cohort"),
        (Some (PInt 2), Some (PFloat (Qc_of_Z 10)), Some (PFloat (Qc_of_Z 20))))
  /\ stats_of (execute_feature_descriptives_step Sample.lib
                (mkPlanStep (Some 2%Z) None None None (Some "TMB") (Some ["t"])) tbls ∅)
     = Ok (Some (PStr "table:t"),
           (Some (PInt 3), Some (PFloat (Qc_of_Z 2)), Some (PFloat (Qc_of_Z 20)))).
Proof. split; reflexivity. Qed.

Lemma feature_descriptives_small_columns_witness :
  let step := Sample.feature_step "TMB" in
  let on (df : DataFrame) : Context := {["current_cohort" := CtxFrame df]} in
  execute_feature_descriptives_step Sample.lib (Sample.feature_step "Smoker") ∅
    (on Sample.stage4_smokers)
  = Raise (err "KeyError" (repr_str "25%"))
  /\ (exists r,
        execute_feature_descriptives_step Sample.lib step ∅ (on Sample.no_numbers)
          = Ok (r, on Sample.no_numbers)
        /\ PyDict.get "status" r = Some (PStr "failed")
        /\ PyDict.get "error" r = Some (PStr "No numeric values available for feature: TMB")
        /\ PyDict.get "metrics" r = None)
  /\ (exists r m,
        execute_feature_descriptives_step Sample.lib step ∅ (on Sample.one_number)
          = Ok (r, on Sample.one_number)
        /\ PyDict.get "status" r = Some (PStr "success")
        /\ PyDict.get "metrics" r = Some (PDict m)
        /\ PyDict.get "count" m = Some (PInt 1)
        /\ PyDict.get "std" m = Some PNone
        /\ PyDict.get "mean" m = Some (PFloat (Qc_of_Z 7))
        /\ PyDict.get "median" m = Some (PFloat (Qc_of_Z 7))
        /\ PyDict.get "min" m = Some (PFloat (Qc_of_Z 7))
        /\ PyDict.get "max" m = Some (PFloat (Qc_of_Z 7))).
Proof.
  intros step on. split; [|split].
  - apply (feature_descriptives_small_columns Sample.lib (Sample.feature_step "Smoker") ∅
             (on Sample.stage4_smokers) Sample.stage4_smokers "current_cohort" "Smoker");
      done.
  - apply (feature_descriptives_small_columns Sample.lib step ∅ (on Sample.no_numbers)
             Sample.no_numbers "current_cohort" "TMB"); done.
  - apply (feature_descriptives_small_columns Sample.lib step ∅ (on Sample.one_number)
             Sample.one_number "current_cohort" "TMB"); done.
Defined.

(** The cohort of a filter step on a table with a column of booleans: the
    descriptives step on that column raises, from the context the filter
    left. *)
Example descriptives_bool_after_filter_example :
  (res1 ← execute_cohort_filter_step Sample.lib
            (Sample.filter_step "t" [("Stage", PStr "stage 4")])
            {["t" := Sample.smokers]} ∅;
   execute_feature_descriptives_step Sample.lib (Sample.feature_step "Smoker") ∅ res1.2)
  = Raise (err "KeyError" (repr_str "25%")).
Proof. reflexivity. Qed.

(** A column whose one numeric value is an infinity: the mean and the
    extremes are that infinity, and the quartiles, interpolated between the
    value and itself, are NaN. *)
Example descriptives_one_infinity_example :
  (res ← execute_feature_descriptives_step Sample.lib (Sample.feature_step "TMB") ∅
           {["current_cohort" := CtxFrame Sample.one_infinity]};
   Ok (match PyDict.get "metrics" res.1 with
       | Some (PDict m) =>
           (PyDict.get "mean" m, PyDict.get "median" m, PyDict.get "max" m)
       | _ => (None, None, None)
       end))
  = Ok (Some (PInf false), Some PNaN, Some (PInf false)).
Proof. reflexivity. Qed.

(** ** The table store *)

Section LoadProperties.

Variable lib : Lib.

(** A path still in the cache is answered from it, whatever is on disk. *)
Lemma load_table_cached fs path cache df :
  cache_find path cache = Some df ->
  (_load_table fs path cache).1 = Ok df.
Proof. intros H. unfold _load_table. by rewrite H. Qed.

(** C8.  For a path that is not in the cache: when the path does not exist,
    [_load_table] raises [FileNotFoundError] and so does the ingestion
    loader; when the file parses to a table, [_load_table] returns that
    table without looking at its columns, and it is the ingestion loader
    [_load_table_rows_as_text] that raises [ValueError] when the identifier
    column is absent; an exception of the parser leaves both. *)
Theorem table_store_load_outcomes (fs : FileSystem) (t : TableConfig)
    (cache : list (string * DataFrame)) :
  cache_find (tc_path t) cache = None ->
  match fs !! tc_path t with
  | None =>
      _load_table fs (tc_path t) cache
        = (Raise (err "FileNotFoundError"
                    ("[Errno 2] No such file or directory: " ++ repr_str (tc_path t))), cache)
      /\ Chunking._load_table_rows_as_text lib fs t
         = Raise (err "FileNotFoundError" ("TSV file not found: " ++ tc_path t))
  | Some (Ok df) =>
      (_load_table fs (tc_path t) cache).1 = Ok df
      /\ (has_column (tc_id_column t) df = false ->
          exists msg,
            Chunking._load_table_rows_as_text lib fs t = Raise (err "ValueError" msg))
  | Some (Raise e) =>
      _load_table fs (tc_path t) cache = (Raise e, cache)
      /\ Chunking._load_table_rows_as_text lib fs t = Raise e
  end.
Proof.
  intros Hmiss.
  unfold _load_table, Chunking._load_table_rows_as_text, read_csv. rewrite Hmiss.
  destruct (fs !! tc_path t) as [[df|e]|] eqn:Hfs; simpl.
  - split; [done|]. intros ->. simpl. by eexists.
  - done.
  - done.
Qed.

End LoadProperties.

Lemma table_store_load_outcomes_witness :
  let t := mkTableConfig "patients" "data/patients.tsv" "PATIENT_ID" None in
  let fs : FileSystem := {["data/patients.tsv" := Ok Sample.stages]} in
  (_load_table fs (tc_path t) []).1 = Ok Sample.stages
  /\ (has_column (tc_id_column t) Sample.stages = false ->
      exists msg,
        Chunking._load_table_rows_as_text Sample.lib fs t = Raise (err "ValueError" msg)).
Proof.
  intros t fs.
  apply (table_store_load_outcomes Sample.lib fs t []). reflexivity.
Defined.

(** C8, as stated, fails: the table of [app.py] is configured with the
    identifier column "PATIENT_ID"; a file without that column is loaded by
    the table store all the same. *)
Lemma table_store_load_no_schema_check :
  let fs : FileSystem := {["data/patients.tsv" := Ok Sample.stages]} in
  has_column "PATIENT_ID" Sample.stages = false
  /\ (load_tables_from_config fs Sample.config []).1
     = Ok {["patients" := Sample.stages]}
  /\ (_load_table fs "data/patients.tsv" []).1 = Ok Sample.stages.
Proof. repeat split; reflexivity. Qed.

(** ** The analyst stage and the graph *)

Import Llm Graph.

Section PipelineProperties.

Variable w : World.
Variable config : IngestionConfig.

Lemma bind_Ok {A B} (a : A) (f : A -> Result B) : (Ok a ≫= f) = f a.
Proof. reflexivity. Qed.

Lemma bind_Raise {A B} (e : PyExc) (f : A -> Result B) : (Raise e ≫= f) = Raise e.
Proof. reflexivity. Qed.

Lemma run_node_ok (node : ChatState -> Result ChatState) (state patch : ChatState) :
  node state = Ok patch -> run_node node state = Ok (patch ∪ state).
Proof. intros H. unfold run_node. by rewrite H. Qed.

Lemma run_node_raise (node : ChatState -> Result ChatState) (state : ChatState) e :
  node state = Raise e -> run_node node state = Raise e.
Proof. intros H. unfold run_node. by rewrite H. Qed.

Lemma with_py_exec_same : with_py_exec w (py_exec w) = w.
Proof. by destruct w. Qed.

(** The run from the record the planner stage left. *)
Lemma invoke_from_planner input s2 :
  (s1 ← run_node (oncologist_node w) input; run_node (planner_node w) s1) = Ok s2 ->
  invoke w config true input
  = (s3 ← run_node (analyst_node_smart w config) s2; run_node (writer_node w) s3).
Proof.
  intros Hbefore. unfold invoke.
  destruct (run_node (oncologist_node w) input) as [s1|e1]; [|done].
  rewrite bind_Ok in Hbefore |- *. by rewrite Hbefore.
Qed.

(** Code that was generated had both of its inputs serialised. *)
Lemma analyst_code_inputs_serialisable uq view plan code :
  generate_analyst_code w uq view plan config = Ok code ->
  json_dumps view = Ok () /\ json_dumps plan = Ok ().
Proof.
  unfold generate_analyst_code.
  destruct (json_dumps view) as [[]|]; simpl; [|done].
  destruct (json_dumps plan) as [[]|]; simpl; [|done].
  done.
Qed.

(** The second handler: the two evaluations of [str(e)], then the patch. *)
Lemma analyst_execution_failed state uq code e :
  state !! "user_query" = Some uq ->
  generate_analyst_code w uq (get_or_empty state "oncologist_view")
    (get_or_empty state "plan") config = Ok code ->
  run_generated w code = Raise e ->
  exc_kind e = StdException ->
  analyst_node_smart w config state
  = (error ← str_exc e 0;
     analyst_error ← str_exc e 1;
     Ok (<["execution_result" := PDict (execution_failed error code)]>
           (<["analyst_generated_code" := PStr (PyStr.take 4000 code)]>
              {["analyst_error" := PStr analyst_error]}))).
Proof.
  intros Huq Hcode Hrun Hkind.
  unfold analyst_node_smart, get_item. rewrite Huq. simpl.
  rewrite Hcode. simpl. rewrite Hrun. simpl. by rewrite Hkind.
Qed.

Lemma analyst_returned state uq code result :
  state !! "user_query" = Some uq ->
  generate_analyst_code w uq (get_or_empty state "oncologist_view")
    (get_or_empty state "plan") config = Ok code ->
  run_generated w code = Ok result ->
  analyst_node_smart w config state
  = (execution_result ← normalize result code;
     Ok (<["execution_result" := PDict execution_result]>
           {["analyst_generated_code" := PStr (PyStr.take 4000 code)]})).
Proof.
  intros Huq Hcode Hrun.
  unfold analyst_node_smart, get_item. rewrite Huq. simpl.
  rewrite Hcode. simpl. by rewrite Hrun.
Qed.

(** An exception that is not derived from [Exception], such as the
    [SystemExit] of a call to [sys.exit], leaves the analyst stage. *)
Lemma analyst_base_exception_propagates state uq code e :
  state !! "user_query" = Some uq ->
  generate_analyst_code w uq (get_or_empty state "oncologist_view")
    (get_or_empty state "plan") config = Ok code ->
  run_generated w code = Raise e ->
  exc_kind e = BaseOnly ->
  analyst_node_smart w config state = Raise e.
Proof.
  intros Huq Hcode Hrun Hkind.
  unfold analyst_node_smart, get_item. rewrite Huq. simpl.
  rewrite Hcode. simpl. rewrite Hrun. simpl. by rewrite Hkind.
Qed.

(** The exception of the backend call is the exception of the synthesis. *)
Lemma analyst_code_backend_raises uq view plan e :
  json_dumps view = Ok () ->
  json_dumps plan = Ok () ->
  backend w (ReqAnalystCode uq view plan (map (fun t => (tc_name t, tc_path t)) (tables config)))
    = Raise e ->
  generate_analyst_code w uq view plan config = Raise e.
Proof.
  intros Hd1 Hd2 Hb. unfold generate_analyst_code, _chat_completion.
  rewrite Hd1, Hd2. simpl. by rewrite Hb.
Qed.

(** The writer on a record whose [execution_result] was just set by the
    analyst's patch. *)
Lemma writer_after_patch (patch s2 : ChatState) uq er :
  s2 !! "user_query" = Some uq ->
  patch !! "user_query" = None ->
  patch !! "oncologist_view" = None ->
  patch !! "plan" = None ->
  patch !! "execution_result" = Some er ->
  json_dumps (get_or_empty s2 "oncologist_view") = Ok () ->
  json_dumps (get_or_empty s2 "plan") = Ok () ->
  json_dumps er = Ok () ->
  run_node (writer_node w) (patch ∪ s2)
  = (answer ← _chat_completion w
                (ReqWriter uq (get_or_empty s2 "oncologist_view")
                   (get_or_empty s2 "plan") er);
     Ok (<["final_answer" := PStr answer]> (patch ∪ s2))).
Proof.
  intros Huq Hp1 Hp2 Hp3 Her Hd1 Hd2 Hd3.
  unfold run_node, writer_node, get_item, get_or_empty in *.
  rewrite (lookup_union_r patch s2 "user_query"), (lookup_union_r patch s2 "oncologist_view"),
    (lookup_union_r patch s2 "plan") by done.
  rewrite (lookup_union_Some_l patch s2 _ er) by done.
  rewrite Huq. simpl. unfold generate_writer_answer.
  rewrite Hd1. simpl. rewrite Hd2. simpl. rewrite Hd3. simpl.
  destruct (_chat_completion w _) as [answer|e]; simpl; [|done].
  by rewrite insert_union_singleton_l.
Qed.

(** C1.  When the stages before the analyst have run, code was generated and
    running it raises an exception [e] derived from [Exception], the handler
    of the analyst stage evaluates [str(e)] twice.  When both evaluations
    return, the stage returns a patch whose [execution_result] has no steps
    and [overall_status] "failed", and the run goes on to the writer, which
    is asked with that failed result: the run ends with [final_answer]
    holding the stripped reply of the writer's call, whatever that text is,
    and raises what that call raises.  When an evaluation of [str(e)]
    raises, that exception leaves the stage and the run, and the writer is
    not reached. *)
Theorem execution_fault_reaches_writer input s2 uq code e :
  (s1 ← run_node (oncologist_node w) input; run_node (planner_node w) s1) = Ok s2 ->
  s2 !! "user_query" = Some uq ->
  generate_analyst_code w uq (get_or_empty s2 "oncologist_view")
    (get_or_empty s2 "plan") config = Ok code ->
  run_generated w code = Raise e ->
  exc_kind e = StdException ->
  (forall error analyst_error,
     str_exc e 0 = Ok error ->
     str_exc e 1 = Ok analyst_error ->
     let er :=
       PDict [("steps", PList []);
              ("overall_status", PStr "failed");
              ("notes", PStr "Execution of generated analysis code failed.");
              ("error", PStr error);
              ("generated_code", PStr (PyStr.take 4000 code))] in
     (exists patch,
        analyst_node_smart w config s2 = Ok patch
        /\ patch !! "execution_result" = Some er
        /\ patch !! "analyst_error" = Some (PStr analyst_error))
     /\ match _chat_completion w
                (ReqWriter uq (get_or_empty s2 "oncologist_view")
                   (get_or_empty s2 "plan") er) with
        | Ok answer =>
            exists final,
              invoke w config true input = Ok final
              /\ final !! "final_answer" = Some (PStr answer)
              /\ final !! "execution_result" = Some er
        | Raise raised => invoke w config true input = Raise raised
        end)
  /\ (forall raised,
        str_exc e 0 = Raise raised
        \/ ((exists error, str_exc e 0 = Ok error) /\ str_exc e 1 = Raise raised) ->
        analyst_node_smart w config s2 = Raise raised
        /\ invoke w config true input = Raise raised).
Proof.
  intros Hbefore Huq Hcode Hrun Hkind.
  pose proof (analyst_execution_failed s2 uq code e Huq Hcode Hrun Hkind) as Hanalyst.
  destruct (analyst_code_inputs_serialisable _ _ _ _ Hcode) as [Hd1 Hd2].
  rewrite (invoke_from_planner input s2 Hbefore).
  split.
  - intros error analyst_error Herror Hagain er.
    rewrite Herror, Hagain, !bind_Ok in Hanalyst.
    split.
    + eexists. split; [exact Hanalyst|]. split; [apply lookup_insert_eq|].
      rewrite !lookup_insert_ne by done. apply lookup_singleton_eq.
    + rewrite (run_node_ok _ _ _ Hanalyst), bind_Ok.
      rewrite (writer_after_patch _ s2 uq er); try done; try apply lookup_insert_eq.
      destruct (_chat_completion w _) as [answer|raised]; simpl; [|done].
      eexists. split; [done|]. split; [apply lookup_insert_eq|].
      rewrite lookup_insert_ne by done.
      apply lookup_union_Some_l, lookup_insert_eq.
  - intros raised Hraised.
    assert (Hnode : analyst_node_smart w config s2 = Raise raised).
    { rewrite Hanalyst. destruct Hraised as [->|[[error ->] ->]]; done. }
    split; [exact Hnode|]. by rewrite (run_node_raise _ _ _ Hnode).
Qed.

(** C2.  When generating the analyst code raises an exception [e] derived
    from [Exception], the analyst stage returns at once: with the text of
    [str(e)] as [error] in an [execution_result] of no steps,
    [overall_status] "failed" and the notes "Code generation for Analyst
    failed.", and with the text of [str(e)], evaluated again, as
    [analyst_error]; an exception raised by [str(e)] leaves the stage.  The
    interpreter of generated code has no part in that outcome. *)
Theorem synthesis_failure_skips_execution state uq e :
  state !! "user_query" = Some uq ->
  generate_analyst_code w uq (get_or_empty state "oncologist_view")
    (get_or_empty state "plan") config = Raise e ->
  exc_kind e = StdException ->
  forall exec,
    analyst_node_smart (with_py_exec w exec) config state
    = (error ← str_exc e 0;
       analyst_error ← str_exc e 1;
       Ok (<["execution_result" :=
               PDict [("steps", PList []);
                      ("overall_status", PStr "failed");
                      ("notes", PStr "Code generation for Analyst failed.");
                      ("error", PStr error)]]>
             {["analyst_error" := PStr analyst_error]})).
Proof.
  intros Huq Hcode Hkind exec.
  unfold analyst_node_smart, get_item. rewrite Huq. simpl.
  change (generate_analyst_code (with_py_exec w exec)) with (generate_analyst_code w).
  rewrite Hcode. simpl. by rewrite Hkind.
Qed.

(** C3.  When the generated procedure returns an object, the analyst stage
    asks it whether it is a dict.  If it is not, the stage asks for its
    [str()]: when that returns, the stage returns a result with no steps,
    [overall_status] "failed" and the text as [raw_return]; when that
    raises, the exception leaves the stage.  If it is a dict, the stage asks
    it for [steps] and [overall_status] with the defaults [[]] and
    "success", and returns a result holding the two answers and the fixed
    notes of the stage, these three keys only; an exception of either
    request leaves the stage.  In particular, for a plain value the stage
    returns, and for a plain dict [steps] and [overall_status] are its own
    entries, or the defaults when it has none. *)
Theorem analyst_normalises_result state uq code result :
  state !! "user_query" = Some uq ->
  generate_analyst_code w uq (get_or_empty state "oncologist_view")
    (get_or_empty state "plan") config = Ok code ->
  run_generated w code = Ok result ->
  let patch_of (er : Dict) : ChatState :=
    <["execution_result" := PDict er]>
      {["analyst_generated_code" := PStr (PyStr.take 4000 code)]} in
  (ret_is_dict result = Ok false ->
   (forall text,
      ret_str result = Ok text ->
      analyst_node_smart w config state
      = Ok (patch_of [("steps", PList []);
                      ("overall_status", PStr "failed");
                      ("notes", PStr "Generated analysis code did not return a dict.");
                      ("raw_return", PStr text);
                      ("generated_code", PStr (PyStr.take 4000 code))]))
   /\ (forall raised,
         ret_str result = Raise raised ->
         analyst_node_smart w config state = Raise raised))
  /\ (ret_is_dict result = Ok true ->
      (forall steps overall_status,
         ret_get result "steps" (PList []) = Ok steps ->
         ret_get result "overall_status" (PStr "success") = Ok overall_status ->
         analyst_node_smart w config state
         = Ok (patch_of [("steps", steps);
                         ("overall_status", overall_status);
                         ("notes",
                          PStr "Analyst executed a dynamically generated analysis script.")]))
      /\ (forall raised,
            ret_get result "steps" (PList []) = Raise raised
            \/ ((exists steps, ret_get result "steps" (PList []) = Ok steps)
                /\ ret_get result "overall_status" (PStr "success") = Raise raised) ->
            analyst_node_smart w config state = Raise raised))
  /\ (forall raised,
        ret_is_dict result = Raise raised ->
        analyst_node_smart w config state = Raise raised)
  /\ (forall float_repr v,
        result = returned_value float_repr v ->
        exists er,
          analyst_node_smart w config state = Ok (patch_of er)
          /\ match v with
             | PDict d =>
                 PyDict.keys er = ["steps"; "overall_status"; "notes"]
                 /\ PyDict.get "steps" er = Some (default (PList []) (PyDict.get "steps" d))
                 /\ PyDict.get "overall_status" er
                    = Some (default (PStr "success") (PyDict.get "overall_status" d))
                 /\ PyDict.get "notes" er
                    = Some (PStr "Analyst executed a dynamically generated analysis script.")
             | _ =>
                 PyDict.get "overall_status" er = Some (PStr "failed")
                 /\ PyDict.get "steps" er = Some (PList [])
                 /\ PyDict.get "raw_return" er = Some (PStr (py_str float_repr v))
                 /\ PyDict.get "notes" er
                    = Some (PStr "Generated analysis code did not return a dict.")
             end).
Proof.
  intros Huq Hcode Hrun patch_of.
  rewrite (analyst_returned state uq code result Huq Hcode Hrun).
  unfold normalize. split; [|split; [|split]].
  - intros Hdict. rewrite Hdict. simpl. split.
    + intros text Htext. by rewrite Htext.
    + intros raised Hraised. by rewrite Hraised.
  - intros Hdict. rewrite Hdict. simpl. split.
    + intros steps overall_status Hsteps Hstatus. by rewrite Hsteps, Hstatus.
    + intros raised [Hraised|[[steps Hsteps] Hraised]].
      * by rewrite Hraised.
      * by rewrite Hsteps, Hraised.
  - intros raised Hraised. by rewrite Hraised.
  - intros float_repr v ->. destruct v; simpl; eexists; (split; [reflexivity|]);
      repeat split.
Qed.

End PipelineProperties.

(** ** The properties at a concrete run *)

Lemma execution_fault_reaches_writer_witness :
  let w := Sample.world (Ok (Some Sample.raising_code)) (Ok (Some "The analysis failed.")) in
  let s2 := Sample.after_planner in
  let uq := PStr "How many stage 4 patients?" in
  let er :=
    PDict [("steps", PList []);
           ("overall_status", PStr "failed");
           ("notes", PStr "Execution of generated analysis code failed.");
           ("error", PStr "division by zero");
           ("generated_code", PStr (PyStr.take 4000 Sample.raising_code))] in
  (exists patch,
     analyst_node_smart w Sample.config s2 = Ok patch
     /\ patch !! "execution_result" = Some er
     /\ patch !! "analyst_error" = Some (PStr "division by zero"))
  /\ exists final,
       invoke w Sample.config true Sample.query = Ok final
       /\ final !! "final_answer" = Some (PStr "The analysis failed.")
       /\ final !! "execution_result" = Some er.
Proof.
  intros w s2 uq er.
  apply (proj1 (execution_fault_reaches_writer w Sample.config Sample.query s2 uq
                  Sample.raising_code Sample.division_error
                  eq_refl eq_refl eq_refl eq_refl eq_refl)
           "division by zero" "division by zero"); reflexivity.
Defined.

(** C1, as stated, fails: the generated procedure raises, the result is
    "failed", the writer runs, and its reply being empty, [final_answer] is
    the empty text. *)
Lemma execution_fault_empty_final_answer :
  let w := Sample.world (Ok (Some Sample.raising_code)) (Ok (Some EmptyString)) in
  run_generated w Sample.raising_code = Raise Sample.division_error
  /\ (final ← invoke w Sample.config true Sample.query;
      Ok (Sample.overall_status final, final !! "final_answer"))
     = Ok (Some (PStr "failed"), Some (PStr EmptyString)).
Proof. split; reflexivity. Qed.

(** The exception of the generated procedure is of a class whose [__str__]
    raises: the handler of the analyst stage raises in turn, and the run
    ends there, before the writer. *)
Example execution_fault_without_text_example :
  let w := Sample.world (Ok (Some Sample.quiet_code)) (Ok (Some "The analysis failed.")) in
  run_generated w Sample.quiet_code = Raise Sample.quiet_error
  /\ exc_kind Sample.quiet_error = StdException
  /\ analyst_node_smart w Sample.config Sample.after_planner = Raise Sample.text_error
  /\ invoke w Sample.config true Sample.query = Raise Sample.text_error.
Proof. repeat split; reflexivity. Qed.

Lemma synthesis_failure_skips_execution_witness :
  let w := Sample.world (Raise Sample.connection_error) (Ok (Some "The analysis failed.")) in
  analyst_node_smart (with_py_exec w Sample.exec) Sample.config Sample.after_planner
  = Ok (<["execution_result" :=
            PDict [("steps", PList []);
                   ("overall_status", PStr "failed");
                   ("notes", PStr "Code generation for Analyst failed.");
                   ("error", PStr "Connection error.")]]>
          {["analyst_error" := PStr "Connection error."]}).
Proof.
  intros w.
  apply (synthesis_failure_skips_execution w Sample.config
           Sample.after_planner (PStr "How many stage 4 patients?")
           Sample.connection_error); reflexivity.
Defined.

(** C2, as stated, fails: when the call for the analyst code raises, the
    notes of the result are not "synthesis failed". *)
Lemma synthesis_failure_notes :
  let w := Sample.world (Raise Sample.connection_error) (Ok (Some "The analysis failed.")) in
  generate_analyst_code w (PStr "How many stage 4 patients?")
    (get_or_empty Sample.after_planner "oncologist_view")
    (get_or_empty Sample.after_planner "plan") Sample.config
  = Raise Sample.connection_error
  /\ (patch ← analyst_node_smart w Sample.config Sample.after_planner;
      Ok (Sample.notes_of patch))
     = Ok (Some (PStr "Code generation for Analyst failed."))
  /\ PStr "Code generation for Analyst failed." <> PStr "synthesis failed".
Proof. repeat split; [reflexivity..|discriminate]. Qed.

Lemma analyst_normalises_result_witness :
  let w := Sample.world (Ok (Some Sample.dict_code)) (Ok (Some "Done.")) in
  exists er,
    analyst_node_smart w Sample.config Sample.after_planner
    = Ok (<["execution_result" := PDict er]>
            {["analyst_generated_code" := PStr (PyStr.take 4000 Sample.dict_code)]})
    /\ PyDict.keys er = ["steps"; "overall_status"; "notes"]
    /\ PyDict.get "steps" er = Some (PList [PDict [("step_id", PInt 1)]])
    /\ PyDict.get "overall_status" er = Some (PStr "success")
    /\ PyDict.get "notes" er
       = Some (PStr "Analyst executed a dynamically generated analysis script.").
Proof.
  intros w.
  apply (proj2 (proj2 (proj2
           (analyst_normalises_result w Sample.config Sample.after_planner
              (PStr "How many stage 4 patients?") Sample.dict_code
              (returned_value (float_repr Sample.lib) Sample.returned_dict)
              eq_refl eq_refl eq_refl)))
           (float_repr Sample.lib) Sample.returned_dict).
  reflexivity.
Defined.

(** C3, as stated, fails: the generated procedure returns an object that is
    not a dict and whose [__str__] raises; the normalisation, which comes
    after the [try] statement, lets that exception leave the stage, and the
    run raises it. *)
Lemma returned_object_without_text :
  let w := Sample.world (Ok (Some Sample.silent_code)) (Ok (Some "Done.")) in
  run_generated w Sample.silent_code = Ok Sample.silent_object
  /\ ret_is_dict Sample.silent_object = Ok false
  /\ analyst_node_smart w Sample.config Sample.after_planner = Raise Sample.text_error
  /\ invoke w Sample.config true Sample.query = Raise Sample.text_error.
Proof. repeat split; reflexivity. Qed.

(** A procedure that returns a list: the result is "failed" and keeps the
    text of the list. *)
Example analyst_normalises_list_example :
  let w := Sample.world (Ok (Some Sample.list_code)) (Ok (Some "Done.")) in
  (patch ← analyst_node_smart w Sample.config Sample.after_planner;
   Ok (Sample.overall_status patch,
       match patch !! "execution_result" with
       | Some (PDict er) => PyDict.get "raw_return" er
       | _ => None
       end))
  = Ok (Some (PStr "failed"), Some (PStr "['a', 1]")).
Proof. reflexivity. Qed.

(** The record after the first two stages of the sample run. *)
Example after_planner_example :
  (s1 ← run_node (oncologist_node (Sample.world (Ok None) (Ok None))) Sample.query;
   run_node (planner_node (Sample.world (Ok None) (Ok None))) s1)
  = Ok Sample.after_planner.
Proof. reflexivity. Qed.

(** * Further properties *)

(** ** Laws of the cohort filter *)

Section FilterLaws.

Variable lib : Lib.

Lemma list_filter_sublist {A} (f : A -> bool) (l : list A) :
  List.filter f l `sublist_of` l.
Proof.
  induction l as [|x l IH]; simpl; [constructor|].
  destruct (f x); by constructor.
Qed.

Lemma list_filter_twice {A} (f g : A -> bool) (l : list A) :
  List.filter g (List.filter f l) = List.filter (fun x => f x && g x) l.
Proof.
  induction l as [|x l IH]; simpl; [done|].
  destruct (f x); simpl; [destruct (g x)|]; by rewrite IH.
Qed.

Lemma first_error_app cols s1 s2 :
  first_error lib cols (s1 ++ s2)
  = match first_error lib cols s1 with
    | Some e => Some e
    | None => first_error lib cols s2
    end.
Proof.
  induction s1 as [|item s1 IH]; simpl; [done|].
  by destruct (item_error lib cols item).
Qed.

Lemma column_of_rows col cols rws i :
  list_find (eq col) cols = Some (i, col) ->
  column col (mkFrame cols rws) = map (fun r => default CNaN (r !! i)) rws.
Proof. intros H. unfold column. simpl. by rewrite H. Qed.

(** X1.  Whenever the filter returns, the frame it returns has the columns
    of the table, and its rows are rows of the table in their order: the
    filter adds, changes and reorders nothing. *)
Theorem apply_filter_returns_sub_table df spec filtered :
  _apply_filter lib df spec = Ok filtered ->
  columns filtered = columns df /\ rows filtered `sublist_of` rows df.
Proof.
  destruct spec as [items|]; [|by intros [= <-]].
  rewrite apply_filter_rowwise.
  destruct (first_error lib (columns df) items); [done|].
  intros [= <-]. split; [done|]. apply list_filter_sublist.
Qed.

(** X2.  The filter is the conjunction of its items, row by row: it raises
    the [re.error] of the first scalar of a column of the table that does
    not compile, and otherwise returns the rows, in order, for which every
    item holds, an item on an absent column holding for no row. *)
Theorem apply_filter_is_conjunction df items :
  _apply_filter lib df (Some items)
  = match first_error lib (columns df) items with
    | Some e => Raise e
    | None =>
        Ok (mkFrame (columns df)
              (List.filter (row_keeps lib (columns df) items) (rows df)))
    end.
Proof. apply apply_filter_rowwise. Qed.

(** X3.  In the frame the filter returns, every cell of a column filtered
    by a list has its text among the texts of the list, and every cell of a
    column filtered by a scalar is matched by that scalar. *)
Theorem apply_filter_kept_cells df items col val filtered :
  (col, val) ∈ items ->
  has_column col df = true ->
  _apply_filter lib df (Some items) = Ok filtered ->
  Forall (fun c =>
            match val with
            | PList vs => cell_str lib c ∈ map (py_str (float_repr lib)) vs
            | _ => re_search_ignorecase lib (py_str (float_repr lib) val)
                     (cell_str lib c) = true
            end)
    (column col filtered).
Proof.
  intros Hin Hcol. rewrite apply_filter_rowwise.
  destruct (first_error lib (columns df) items); [done|].
  intros [= <-].
  destruct (has_column_find col df Hcol) as [i Hfind].
  rewrite (column_of_rows col _ _ i Hfind).
  apply Forall_fmap, Forall_forall. intros row Hrow. simpl.
  apply list_elem_of_In, filter_In in Hrow as [_ Hkeep].
  unfold row_keeps in Hkeep. rewrite forallb_forall in Hkeep.
  specialize (Hkeep (col, val)). rewrite <- list_elem_of_In in Hkeep.
  specialize (Hkeep Hin). unfold item_keeps in Hkeep. rewrite Hfind in Hkeep.
  destruct val; try exact Hkeep. by apply bool_decide_eq_true in Hkeep.
Qed.

(** X4.  Filtering by two specifications put together is filtering by the
    first and then filtering the result by the second, exceptions
    included. *)
Theorem apply_filter_app df s1 s2 :
  _apply_filter lib df (Some (s1 ++ s2)%list)
  = (filtered ← _apply_filter lib df (Some s1); _apply_filter lib filtered (Some s2)).
Proof.
  rewrite !apply_filter_rowwise, first_error_app.
  destruct (first_error lib (columns df) s1); [done|].
  rewrite bind_Ok, apply_filter_rowwise. simpl.
  destruct (first_error lib (columns df) s2); [done|].
  do 2 f_equal. rewrite list_filter_twice.
  apply List.filter_ext. intros row. apply forallb_app.
Qed.

End FilterLaws.

(** ** The cache of the table store *)

Section CacheProperties.

Lemma cache_find_elem path (cache : list (string * DataFrame)) df :
  cache_find path cache = Some df -> (path, df) ∈ cache.
Proof.
  induction cache as [|[p d] cache IH]; simpl; [done|].
  destruct (String.eqb path p) eqn:Heq.
  - apply String.eqb_eq in Heq as ->. intros [= ->]. by left.
  - intros H. right. by apply IH.
Qed.

Lemma cache_find_none path (cache : list (string * DataFrame)) :
  cache_find path cache = None <-> path ∉ cache.*1.
Proof.
  induction cache as [|[p d] cache IH]; simpl.
  - split; [intros _; apply not_elem_of_nil|done].
  - destruct (String.eqb path p) eqn:Heq.
    + apply String.eqb_eq in Heq as ->. split; [done|]. intros H. exfalso. apply H. by left.
    + apply String.eqb_neq in Heq. rewrite IH, not_elem_of_cons. tauto.
Qed.

Lemma cache_drop_absent path (cache : list (string * DataFrame)) :
  path ∉ cache.*1 -> cache_drop path cache = cache.
Proof.
  induction cache as [|[p d] cache IH]; simpl; [done|].
  rewrite not_elem_of_cons. intros [Hne Hnot].
  apply String.eqb_neq in Hne. rewrite Hne. simpl. by rewrite IH.
Qed.

Lemma cache_drop_gone path (cache : list (string * DataFrame)) :
  path ∉ (cache_drop path cache).*1.
Proof.
  induction cache as [|[p d] cache IH]; simpl; [apply not_elem_of_nil|].
  destruct (String.eqb path p) eqn:Heq; simpl; [done|].
  apply String.eqb_neq in Heq. rewrite not_elem_of_cons. done.
Qed.

Lemma cache_drop_sublist path (cache : list (string * DataFrame)) :
  cache_drop path cache `sublist_of` cache.
Proof.
  unfold cache_drop. induction cache as [|[p d] cache IH]; simpl; [constructor|].
  destruct (negb (String.eqb path p)); by constructor.
Qed.

Lemma cache_drop_shorter path (cache : list (string * DataFrame)) df :
  cache_find path cache = Some df ->
  S (length (cache_drop path cache)) <= length cache.
Proof.
  induction cache as [|[p d] cache IH]; simpl; [done|].
  destruct (String.eqb path p) eqn:Heq; simpl.
  - intros _. pose proof (sublist_length _ _ (cache_drop_sublist path cache)).
    unfold cache_drop in *. lia.
  - intros H. specialize (IH H). unfold cache_drop in *. lia.
Qed.

Lemma take_fst_absent path n (cache : list (string * DataFrame)) :
  path ∉ cache.*1 -> path ∉ (take n cache).*1.
Proof.
  intros Hnot Hin. apply Hnot.
  rewrite fmap_take in Hin. apply elem_of_take in Hin as (i & Hi & _).
  by eapply list_elem_of_lookup_2.
Qed.

Lemma cache_find_head path df (cache : list (string * DataFrame)) :
  cache_find path ((path, df) :: cache) = Some df.
Proof. simpl. by rewrite String.eqb_refl. Qed.

Lemma cache_drop_head path df (cache : list (string * DataFrame)) :
  cache_drop path ((path, df) :: cache) = cache_drop path cache.
Proof. unfold cache_drop. simpl. by rewrite String.eqb_refl. Qed.

(** X5.  A table that was loaded is loaded again from the cache: the same
    frame is returned and the cache stays as it is, whatever has become of
    the file. *)
Theorem load_table_again_from_cache (fs fs' : FileSystem) path
    (cache cache' : list (string * DataFrame)) df :
  _load_table fs path cache = (Ok df, cache') ->
  _load_table fs' path cache' = (Ok df, cache').
Proof.
  unfold _load_table at 1.
  destruct (cache_find path cache) as [d|] eqn:Hfind.
  - intros [= -> <-]. unfold _load_table.
    rewrite cache_find_head, cache_drop_head.
    by rewrite (cache_drop_absent path _ (cache_drop_gone path cache)).
  - destruct (read_csv fs path) as [d|e]; [|done].
    intros [= -> <-]. unfold _load_table.
    change (List.firstn 16 ((path, df) :: cache)) with ((path, df) :: take 15 cache).
    rewrite cache_find_head, cache_drop_head.
    apply cache_find_none in Hfind.
    by rewrite (cache_drop_absent path _ (take_fst_absent path 15 cache Hfind)).
Qed.

(** X6.  Loading keeps the cache within its bound and without repeated
    paths: a cache of at most 16 entries with distinct paths is such a cache
    again after any load, successful or not. *)
Theorem load_table_keeps_cache_bounded (fs : FileSystem) path
    (cache : list (string * DataFrame)) :
  length cache <= 16 ->
  NoDup cache.*1 ->
  length (_load_table fs path cache).2 <= 16
  /\ NoDup (_load_table fs path cache).2.*1.
Proof.
  intros Hlen Hnodup. unfold _load_table.
  destruct (cache_find path cache) as [d|] eqn:Hfind; simpl.
  - split.
    + pose proof (cache_drop_shorter path cache d Hfind). lia.
    + apply NoDup_cons. split; [apply cache_drop_gone|].
      eapply sublist_NoDup; [exact Hnodup|].
      apply fmap_sublist, cache_drop_sublist.
  - apply cache_find_none in Hfind.
    destruct (read_csv fs path) as [d|e]; simpl; [|done].
    split.
    + rewrite length_take. lia.
    + apply NoDup_cons. split; [by apply take_fst_absent|].
      eapply sublist_NoDup; [exact Hnodup|].
      apply fmap_sublist, sublist_take.
Qed.

Lemma Forall_of_sublist {A} (P : A -> Prop) (l1 l2 : list A) :
  l1 `sublist_of` l2 -> Forall P l2 -> Forall P l1.
Proof.
  induction 1 as [|x l1 l2 _ IH|x l1 l2 _ IH]; intros H; [done|..].
  - apply Forall_cons in H as [Hx H]. constructor; auto.
  - apply Forall_cons in H as [_ H]. auto.
Qed.

Lemma load_table_keeps_agreement (fs : FileSystem) path
    (cache : list (string * DataFrame)) :
  Forall (fun '(p, df) => fs !! p = Some (Ok df)) cache ->
  Forall (fun '(p, df) => fs !! p = Some (Ok df)) (_load_table fs path cache).2
  /\ forall df, (_load_table fs path cache).1 = Ok df -> fs !! path = Some (Ok df).
Proof.
  intros Hagree. unfold _load_table, read_csv.
  destruct (cache_find path cache) as [d|] eqn:Hfind; simpl.
  - apply cache_find_elem in Hfind.
    pose proof (proj1 (Forall_forall _ _) Hagree _ Hfind) as Hd. simpl in Hd.
    split; [|by intros ? [= <-]].
    constructor; [done|].
    eapply Forall_of_sublist; [apply cache_drop_sublist|done].
  - destruct (fs !! path) as [[d|e]|] eqn:Hfs; simpl; [|done..].
    split; [|by intros ? [= <-]].
    constructor; [done|]. by apply Forall_take.
Qed.

Lemma load_tables_loop_spec (fs : FileSystem) (ts : list TableConfig) :
  forall (acc : gmap string DataFrame) (cache : list (string * DataFrame)) tbls,
  Forall (fun '(p, df) => fs !! p = Some (Ok df)) cache ->
  (load_tables_loop fs ts acc cache).1 = Ok tbls ->
  (forall k, k ∉ tc_name <$> ts -> tbls !! k = acc !! k)
  /\ (forall t, t ∈ ts -> exists df, fs !! tc_path t = Some (Ok df))
  /\ (NoDup (tc_name <$> ts) ->
      forall t, t ∈ ts ->
      exists df, fs !! tc_path t = Some (Ok df) /\ tbls !! tc_name t = Some df).
Proof.
  induction ts as [|t ts IH]; intros acc cache tbls Hagree; simpl.
  - intros [= <-]. split; [done|]. split; intros; exfalso; by eapply elem_of_nil.
  - destruct (load_table_keeps_agreement fs (tc_path t) cache Hagree) as [Hagree' Hdf].
    destruct (_load_table fs (tc_path t) cache) as [[df|e] cache'] eqn:Hload;
      simpl in *; [|done].
    intros Hloop. specialize (Hdf df eq_refl).
    destruct (IH _ _ _ Hagree' Hloop) as (Hother & Hall & Hname).
    split; [|split].
    + intros k Hk. rewrite not_elem_of_cons in Hk. destruct Hk as [Hne Hk].
      rewrite (Hother k Hk). by rewrite lookup_insert_ne.
    + intros t' [->|Ht']%elem_of_cons; [by exists df|by apply Hall].
    + intros [Hnot Hnodup]%NoDup_cons t' [->|Ht']%elem_of_cons.
      * exists df. split; [done|]. rewrite (Hother _ Hnot). apply lookup_insert_eq.
      * by apply Hname.
Qed.

(** X7.  With a cache that agrees with the files, as the empty cache of a
    new process does, [load_tables_from_config] returns tables only when the
    file of every configured table exists and parses; it then maps nothing
    but the configured names, and, the names being distinct, each name to
    the frame of its file. *)
Theorem load_tables_all_or_nothing (fs : FileSystem) (config : IngestionConfig)
    (cache : list (string * DataFrame)) tbls :
  Forall (fun '(p, df) => fs !! p = Some (Ok df)) cache ->
  (load_tables_from_config fs config cache).1 = Ok tbls ->
  (forall t, t ∈ tables config -> exists df, fs !! tc_path t = Some (Ok df))
  /\ (forall k, k ∉ tc_name <$> tables config -> tbls !! k = None)
  /\ (NoDup (tc_name <$> tables config) ->
      forall t, t ∈ tables config ->
      exists df, fs !! tc_path t = Some (Ok df) /\ tbls !! tc_name t = Some df).
Proof.
  intros Hagree Hload. unfold load_tables_from_config in Hload.
  destruct (load_tables_loop_spec fs (tables config) ∅ cache tbls Hagree Hload)
    as (Hother & Hall & Hname).
  split; [done|]. split; [|done].
  intros k Hk. by rewrite (Hother k Hk).
Qed.

End CacheProperties.

(** ** More on the two step executors *)

Section StepLaws.

Variable lib : Lib.

Lemma remove_dups_length_le `{EqDecision A} (l : list A) :
  length (remove_dups l) <= length l.
Proof.
  induction l as [|x l IH]; simpl; [done|].
  destruct (decide_rel elem_of x l); simpl; lia.
Qed.

Lemma list_filter_length_le {A} (f : A -> bool) (l : list A) :
  length (List.filter f l) <= length l.
Proof. induction l as [|x l IH]; simpl; [done|]. destruct (f x); simpl; lia. Qed.

Lemma column_length_le col df : length (column col df) <= n_rows df.
Proof.
  unfold column, n_rows. destruct (list_find (eq col) (columns df)) as [[i c]|]; simpl.
  - by rewrite length_map.
  - lia.
Qed.

Lemma apply_filter_fewer_rows df items filtered :
  _apply_filter lib df (Some items) = Ok filtered -> n_rows filtered <= n_rows df.
Proof.
  rewrite apply_filter_rowwise.
  destruct (first_error lib (columns df) items); [done|].
  intros [= <-]. apply list_filter_length_le.
Qed.

(** The whole outcome of a cohort filter step whose table is loaded and
    whose filter returns. *)
Lemma cohort_filter_success step tbls context name df filtered :
  lookup_table (pick_table_name (default [] (step_tables_used step)) tbls) tbls
    = Some (name, df) ->
  _apply_filter lib df (Some (default [] (step_filter step))) = Ok filtered ->
  let pid_col := head (List.filter is_patient_id_col (columns df)) in
  execute_cohort_filter_step lib step tbls context
  = Ok ([("step_id", opt_int (step_id step));
         ("name", opt_str (step_name step));
         ("tool", opt_str (step_tool step));
         ("status", PStr "success");
         ("table_used", PStr name);
         ("filter_applied", PDict (default [] (step_filter step)));
         ("row_count", PInt (Z.of_nat (n_rows filtered)));
         ("patient_count",
          opt_int ((fun pid => Z.of_nat (nunique (column pid filtered))) <$> pid_col));
         ("patient_id_column", opt_str pid_col);
         ("sample_patient_ids",
          PList (map PStr
                   (from_option
                      (fun pid => firstn 5 (map (cell_str lib) (dropna (column pid filtered))))
                      [] pid_col)))],
        <["current_cohort_patient_id_col" := CtxPy (opt_str pid_col)]>
          (<["current_cohort_table" := CtxPy (PStr name)]>
             (<["current_cohort" := CtxFrame filtered]> context))).
Proof.
  intros Hlookup Hfilter. unfold execute_cohort_filter_step.
  rewrite Hlookup, Hfilter. simpl.
  by destruct (List.filter is_patient_id_col (columns df)).
Qed.

(** X8.  In the result of a successful cohort filter step, [row_count] is
    the number of rows of the cohort left in the context and is at most the
    number of rows of the table; [patient_count], when it is a number, is
    between 0 and [row_count]; and [sample_patient_ids] has at most 5
    entries and no more than there are rows. *)
Theorem cohort_summary_counts step tbls context name df r context' :
  lookup_table (pick_table_name (default [] (step_tables_used step)) tbls) tbls
    = Some (name, df) ->
  execute_cohort_filter_step lib step tbls context = Ok (r, context') ->
  exists filtered ids,
    context' !! "current_cohort" = Some (CtxFrame filtered)
    /\ PyDict.get "row_count" r = Some (PInt (Z.of_nat (n_rows filtered)))
    /\ n_rows filtered <= n_rows df
    /\ (forall pc, PyDict.get "patient_count" r = Some (PInt pc) ->
        (0 <= pc <= Z.of_nat (n_rows filtered))%Z)
    /\ PyDict.get "sample_patient_ids" r = Some (PList ids)
    /\ length ids <= 5
    /\ length ids <= n_rows filtered.
Proof.
  intros Hlookup Hexec.
  destruct (_apply_filter lib df (Some (default [] (step_filter step))))
    as [filtered|e] eqn:Hfilter.
  2: { unfold execute_cohort_filter_step in Hexec. by rewrite Hlookup, Hfilter in Hexec. }
  rewrite (cohort_filter_success step tbls context name df filtered Hlookup Hfilter) in Hexec.
  injection Hexec as <- <-.
  pose proof (apply_filter_fewer_rows df _ filtered Hfilter) as Hsub.
  exists filtered. eexists. split; [|split; [reflexivity|]].
  { rewrite !lookup_insert_ne by done. apply lookup_insert_eq. }
  split; [exact Hsub|]. split; [|split; [reflexivity|]].
  - simpl. destruct (head (List.filter is_patient_id_col (columns df))) as [pid|];
      simpl; [|done].
    intros pc [= <-]. split; [lia|]. apply Nat2Z.inj_le.
    unfold nunique, dropna.
    etrans; [apply remove_dups_length_le|].
    etrans; [apply list_filter_length_le|]. apply column_length_le.
  - rewrite length_map.
    destruct (head (List.filter is_patient_id_col (columns df))) as [pid|]; simpl;
      [|lia].
    rewrite length_take, length_map. unfold dropna.
    pose proof (list_filter_length_le notna (column pid filtered)).
    pose proof (column_length_le pid filtered). lia.
Qed.

End StepLaws.

Section ContextLaws.

Variable lib : Lib.

(** X9.  A step whose first table is "clinical" is run on the table
    "patients" whenever a table of that name is loaded, even when a table
    named "clinical" is loaded as well; the other names of the step are not
    looked at. *)
Theorem clinical_means_patients step others tbls context patients filtered :
  step_tables_used step = Some ("clinical" :: others) ->
  tbls !! "patients" = Some patients ->
  _apply_filter lib patients (Some (default [] (step_filter step))) = Ok filtered ->
  exists r context',
    execute_cohort_filter_step lib step tbls context = Ok (r, context')
    /\ PyDict.get "table_used" r = Some (PStr "patients")
    /\ context' !! "current_cohort" = Some (CtxFrame filtered)
    /\ context' !! "current_cohort_table" = Some (CtxPy (PStr "patients")).
Proof.
  intros Hused Hpatients Hfilter.
  assert (Hlookup :
    lookup_table (pick_table_name (default [] (step_tables_used step)) tbls) tbls
    = Some ("patients", patients)).
  { rewrite Hused. unfold pick_table_name. simpl. rewrite Hpatients. simpl.
    by rewrite Hpatients. }
  rewrite (cohort_filter_success lib step tbls context "patients" patients filtered
             Hlookup Hfilter).
  eexists. eexists. split; [reflexivity|]. split; [reflexivity|]. split.
  - rewrite !lookup_insert_ne by done. apply lookup_insert_eq.
  - rewrite lookup_insert_ne by done. apply lookup_insert_eq.
Qed.

(** X10.  A feature descriptives step never changes the context: whatever
    result it returns, failed or successful, it returns it with the context
    it was given. *)
Theorem descriptives_keep_context step tbls context r context' :
  execute_feature_descriptives_step lib step tbls context = Ok (r, context') ->
  context' = context.
Proof.
  unfold execute_feature_descriptives_step, descriptives_on.
  destruct (pick_cohort step tbls context) as [failed|[cohort source]];
    [by intros [= _ <-]|].
  destruct (step_feature step) as [[|c f]|]; try by intros [= _ <-].
  destruct cohort as [df|v]; [|done].
  destruct (negb (has_column (String c f) df)); [by intros [= _ <-]|].
  destruct (is_bool_series (column (String c f) df)); [done|].
  destruct (numeric_values lib (column (String c f) df)); by intros [= _ <-].
Qed.

(** X11.  A cohort filter step does not look at the context it is given: it
    filters the loaded table again, not the current cohort, so that its
    outcome and the three cohort entries it leaves are the same from any two
    contexts. *)
Theorem cohort_filter_ignores_context step tbls (c1 c2 : Context) :
  match execute_cohort_filter_step lib step tbls c1,
        execute_cohort_filter_step lib step tbls c2 with
  | Ok (r1, c1'), Ok (r2, c2') =>
      r1 = r2
      /\ (PyDict.get "status" r1 = Some (PStr "success") ->
          c1' !! "current_cohort" = c2' !! "current_cohort"
          /\ c1' !! "current_cohort_table" = c2' !! "current_cohort_table"
          /\ c1' !! "current_cohort_patient_id_col"
             = c2' !! "current_cohort_patient_id_col")
  | Raise e1, Raise e2 => e1 = e2
  | _, _ => False
  end.
Proof.
  destruct (lookup_table (pick_table_name (default [] (step_tables_used step)) tbls) tbls)
    as [[name df]|] eqn:Hlookup.
  - destruct (_apply_filter lib df (Some (default [] (step_filter step))))
      as [filtered|e] eqn:Hfilter.
    + rewrite !(cohort_filter_success lib step tbls _ name df filtered Hlookup Hfilter).
      split; [done|]. intros _.
      rewrite !lookup_insert_eq.
      rewrite !(lookup_insert_ne _ "current_cohort_patient_id_col" "current_cohort_table")
        by done.
      rewrite !lookup_insert_eq.
      rewrite !(lookup_insert_ne _ "current_cohort_patient_id_col" "current_cohort") by done.
      rewrite !(lookup_insert_ne _ "current_cohort_table" "current_cohort") by done.
      by rewrite !lookup_insert_eq.
    + unfold execute_cohort_filter_step. by rewrite Hlookup, Hfilter.
  - unfold execute_cohort_filter_step. rewrite Hlookup. split; [done|].
    simpl. discriminate.
Qed.

End ContextLaws.

(** ** Token chunking *)

Import Tokens.

Section ChunkProperties.

Lemma slice_index_nat (n a : nat) : a <= n -> slice_index n (Z.of_nat a) = a.
Proof.
  intros Ha. unfold slice_index.
  destruct (Z.ltb_spec (Z.of_nat a) 0); [lia|]. rewrite Nat2Z.id. lia.
Qed.

Lemma py_slice_nat {A} (l : list A) (a b : nat) :
  a <= b -> b <= length l ->
  py_slice l (Z.of_nat a) (Z.of_nat b) = take (b - a) (drop a l).
Proof.
  intros Hab Hb. unfold py_slice.
  by rewrite !slice_index_nat by lia.
Qed.

Lemma chunk_loop_more_fuel tokens size overlap : forall fuel start chunks,
  chunk_loop fuel tokens size overlap start = Some chunks ->
  chunk_loop (S fuel) tokens size overlap start = Some chunks.
Proof.
  induction fuel as [|fuel IH]; intros start chunks; [done|].
  intros H. simpl in H. change (chunk_loop (S (S fuel)) tokens size overlap start)
    with (let n := Z.of_nat (length tokens) in
          if (start <? n)%Z then
            let end_ := Z.min (start + size) n in
            if (end_ =? n)%Z then Some [py_slice tokens start end_]
            else (fun chunks => py_slice tokens start end_ :: chunks)
                   <$> chunk_loop (S fuel) tokens size overlap (end_ - overlap)
          else Some []).
  cbv zeta in *.
  destruct (start <? Z.of_nat (length tokens))%Z; [|done].
  destruct (Z.min (start + size) (Z.of_nat (length tokens)) =? Z.of_nat (length tokens))%Z;
    [done|].
  destruct (chunk_loop fuel tokens size overlap _) as [rest|] eqn:Hrest; [|done].
  by rewrite (IH _ _ Hrest).
Qed.

Lemma chunk_loop_fuel_le tokens size overlap fuel fuel' start chunks :
  fuel <= fuel' ->
  chunk_loop fuel tokens size overlap start = Some chunks ->
  chunk_loop fuel' tokens size overlap start = Some chunks.
Proof.
  induction 1 as [|fuel' _ IH]; [done|].
  intros H. by apply chunk_loop_more_fuel, IH.
Qed.

(** The loop from a position [s], when the overlap is smaller than the
    chunk size. *)
Lemma chunk_loop_from tokens (size ov : nat) :
  ov < size ->
  forall fuel s,
  s <= length tokens ->
  length tokens - s < fuel ->
  exists chunks,
    chunk_loop fuel tokens (Z.of_nat size) (Z.of_nat ov) (Z.of_nat s) = Some chunks
    /\ stitch ov chunks = drop s tokens
    /\ Forall (fun c => 0 < length c <= size) chunks
    /\ (forall i c, chunks !! i = Some c -> S i < length chunks -> length c = size)
    /\ match chunks with
       | c :: _ => s < length tokens /\ length c = Nat.min size (length tokens - s)
       | [] => s = length tokens
       end.
Proof.
  intros Hov. induction fuel as [|fuel IH]; intros s Hs Hfuel; [lia|].
  simpl chunk_loop.
  destruct (Z.ltb_spec (Z.of_nat s) (Z.of_nat (length tokens))) as [Hlt|Hge].
  2: { exists []. assert (s = length tokens) as -> by lia.
       rewrite drop_all. repeat split; done. }
  destruct (Z.eqb_spec (Z.min (Z.of_nat s + Z.of_nat size) (Z.of_nat (length tokens)))
              (Z.of_nat (length tokens))) as [Heq|Hne].
  - rewrite Heq. exists [drop s tokens].
    change (Z.of_nat (length tokens)) with (Z.of_nat (length tokens)).
    rewrite (py_slice_nat tokens s (length tokens)) by lia.
    rewrite take_ge by (rewrite length_drop; lia).
    simpl. rewrite app_nil_r, length_drop.
    repeat split; try done; try lia.
    constructor; [|done]. rewrite length_drop. lia.
  - assert (Hend : Z.min (Z.of_nat s + Z.of_nat size) (Z.of_nat (length tokens))
                   = Z.of_nat (s + size)) by lia.
    rewrite Hend.
    replace (Z.of_nat (s + size) - Z.of_nat ov)%Z with (Z.of_nat (s + size - ov)) by lia.
    destruct (IH (s + size - ov)) as (rest & Hrest & Hstitch & Hsizes & Hfull & Hhead);
      [lia..|].
    rewrite Hrest. simpl.
    rewrite (py_slice_nat tokens s (s + size)) by lia.
    replace (s + size - s) with size by lia.
    exists (take size (drop s tokens) :: rest).
    assert (Hlen : length (take size (drop s tokens)) = size)
      by (rewrite length_take, length_drop; lia).
    destruct rest as [|c2 rest]; [lia|]. destruct Hhead as [Hlt2 Hc2].
    split; [done|]. split; [|split; [|split]].
    + simpl in *. rewrite <- (take_drop size (drop s tokens)) at 2. f_equal.
      rewrite drop_drop.
      replace (s + size) with ((s + size - ov) + ov) by lia.
      rewrite <- drop_drop, <- Hstitch.
      rewrite drop_app_le by lia. done.
    + constructor; [lia|done].
    + intros [|i] c Hi Hlen'; simpl in *.
      * by injection Hi as <-.
      * apply (Hfull i c Hi). simpl. lia.
    + split; [lia|]. rewrite Hlen. lia.
Qed.

(** X12.  With an overlap that is not negative and is smaller than the chunk
    size, [chunk_text] returns for every text the tokenizer accepts: the loop
    ends within one turn per token and one more, its chunks are the decoded
    runs of tokens, each run has between 1 and [chunk_token_size] tokens and
    every run but the last has exactly [chunk_token_size], and the runs,
    each after the first without its first [chunk_overlap] tokens, put end to
    end are the tokens of the text. *)
Theorem chunk_text_covers_tokens (encoder : Encoder) text tokens
    (chunk_token_size chunk_overlap : Z) :
  encode encoder text = Ok tokens ->
  (0 <= chunk_overlap < chunk_token_size)%Z ->
  exists runs,
    (forall fuel, length tokens < fuel ->
       chunk_text encoder fuel text chunk_token_size chunk_overlap
       = Some (Ok (map (decode encoder) runs)))
    /\ stitch (Z.to_nat chunk_overlap) runs = tokens
    /\ Forall (fun c => (0 < Z.of_nat (length c) <= chunk_token_size)%Z) runs
    /\ (forall i c, runs !! i = Some c -> S i < length runs ->
        Z.of_nat (length c) = chunk_token_size).
Proof.
  intros Henc Hov.
  destruct (chunk_loop_from tokens (Z.to_nat chunk_token_size) (Z.to_nat chunk_overlap))
    with (fuel := S (length tokens)) (s := 0)
    as (runs & Hruns & Hstitch & Hsizes & Hfull & _); [lia..|].
  rewrite !Z2Nat.id in Hruns by lia.
  exists runs. split; [|split; [done|split]].
  - intros fuel Hfuel. unfold chunk_text. rewrite Henc.
    by rewrite (chunk_loop_fuel_le _ _ _ (S (length tokens)) fuel 0 runs) by (done || lia).
  - eapply Forall_impl; [exact Hsizes|]. intros c Hc. simpl in Hc. lia.
  - intros i c Hi Hlen. rewrite (Hfull i c Hi Hlen). lia.
Qed.

Lemma chunk_loop_never_ends tokens (size overlap : Z) :
  0 < length tokens ->
  (size < Z.of_nat (length tokens))%Z ->
  (size <= overlap)%Z ->
  forall fuel start, (start <= 0)%Z ->
  chunk_loop fuel tokens size overlap start = None.
Proof.
  intros Hn Hsize Hov. induction fuel as [|fuel IH]; intros start Hstart; [done|].
  simpl.
  destruct (Z.ltb_spec start (Z.of_nat (length tokens))); [|lia].
  destruct (Z.eqb_spec (Z.min (start + size) (Z.of_nat (length tokens)))
              (Z.of_nat (length tokens))); [lia|].
  rewrite IH by lia. done.
Qed.

(** X13.  With an overlap that is at least the chunk size, [chunk_text] does
    not return on any accepted text of more tokens than the chunk size: the
    start of the next chunk never moves forward, and the loop is still
    running after any number of turns. *)
Theorem chunk_text_never_returns (encoder : Encoder) text tokens
    (chunk_token_size chunk_overlap : Z) :
  encode encoder text = Ok tokens ->
  0 < length tokens ->
  (chunk_token_size < Z.of_nat (length tokens))%Z ->
  (chunk_token_size <= chunk_overlap)%Z ->
  forall fuel, chunk_text encoder fuel text chunk_token_size chunk_overlap = None.
Proof.
  intros Henc Hn Hsize Hov fuel. unfold chunk_text. rewrite Henc.
  by rewrite (chunk_loop_never_ends tokens _ _ Hn Hsize Hov fuel 0).
Qed.

(** X14.  A text of no token gives no chunk, and a text whose tokens fit in
    one chunk gives that one chunk, the decoding of all its tokens, after a
    single turn of the loop and whatever the overlap is. *)
Theorem chunk_text_short_text (encoder : Encoder) text tokens
    (chunk_token_size chunk_overlap : Z) fuel :
  encode encoder text = Ok tokens ->
  (Z.of_nat (length tokens) <= chunk_token_size)%Z ->
  chunk_text encoder (S fuel) text chunk_token_size chunk_overlap
  = Some (Ok (match tokens with
              | [] => []
              | _ => [decode encoder tokens]
              end)).
Proof.
  intros Henc Hfit. unfold chunk_text. rewrite Henc. simpl chunk_loop.
  destruct tokens as [|t tokens]; [done|].
  destruct (Z.ltb_spec 0 (Z.of_nat (length (t :: tokens)))); [|simpl in *; lia].
  destruct (Z.eqb_spec (Z.min (0 + chunk_token_size) (Z.of_nat (length (t :: tokens))))
              (Z.of_nat (length (t :: tokens)))) as [Heq|]; [|lia].
  rewrite Heq.
  pose proof (py_slice_nat (t :: tokens) 0 (length (t :: tokens))
                ltac:(lia) ltac:(lia)) as Hslice.
  change (Z.of_nat 0) with 0%Z in Hslice. rewrite Hslice.
  rewrite Nat.sub_0_r, drop_0, firstn_all. done.
Qed.

End ChunkProperties.

(** ** The ingestion loader *)

Section LoaderProperties.

Variable lib : Lib.

Import Chunking.

Lemma row_get_present df row col :
  has_column col df = true ->
  exists c, row_get df row col = Ok c.
Proof.
  intros Hcol. destruct (has_column_find col df Hcol) as [i Hfind].
  unfold row_get. rewrite Hfind. by eexists.
Qed.

Lemma row_get_absent df row col :
  has_column col df = false ->
  row_get df row col = Raise (err "KeyError" (repr_str col)).
Proof.
  intros Hcol. unfold row_get. by rewrite (has_column_not_find col df Hcol).
Qed.

Lemma row_parts_present df row cols :
  Forall (fun c => has_column c df = true) cols ->
  exists parts, row_parts lib df row cols = Ok parts.
Proof.
  induction 1 as [|col cols Hcol _ [parts IH]]; simpl; [by eexists|].
  destruct (row_get_present df row col Hcol) as [c ->]. simpl.
  rewrite IH. simpl. by eexists.
Qed.

Lemma row_parts_first_absent df row before col after :
  Forall (fun c => has_column c df = true) before ->
  has_column col df = false ->
  row_parts lib df row (before ++ col :: after)
  = Raise (err "KeyError" (repr_str col)).
Proof.
  intros Hbefore Hcol. induction Hbefore as [|c before Hc _ IH]; simpl.
  - by rewrite (row_get_absent df row col Hcol).
  - destruct (row_get_present df row c Hc) as [x ->]. simpl. by rewrite IH.
Qed.

Lemma inferred_columns_present df table_cfg :
  match tc_text_columns table_cfg with
  | Some (_ :: _) => False
  | _ => True
  end ->
  Forall (fun c => has_column c df = true) (infer_text_columns df table_cfg)
  /\ forall c, c ∈ infer_text_columns df table_cfg
               <-> c ∈ columns df /\ c <> tc_id_column table_cfg.
Proof.
  intros Hnone.
  assert (Hinfer : infer_text_columns df table_cfg
                   = List.filter (fun c => negb (String.eqb c (tc_id_column table_cfg)))
                       (columns df)).
  { unfold infer_text_columns. by destruct (tc_text_columns table_cfg) as [[|]|]. }
  rewrite Hinfer.
  assert (Hiff : forall c,
    c ∈ List.filter (fun c => negb (String.eqb c (tc_id_column table_cfg))) (columns df)
    <-> c ∈ columns df /\ c <> tc_id_column table_cfg).
  { intros c. rewrite list_elem_of_In, filter_In, <- list_elem_of_In.
    rewrite negb_true_iff, String.eqb_neq. done. }
  split; [|exact Hiff].
  apply Forall_forall. intros c Hc. apply Hiff in Hc as [Hc _].
  unfold has_column. by apply bool_decide_eq_true.
Qed.

Lemma rows_docs_present table_cfg df text_cols :
  has_column (tc_id_column table_cfg) df = true ->
  Forall (fun c => has_column c df = true) text_cols ->
  forall rs idx,
  exists docs,
    rows_docs lib table_cfg df text_cols idx rs = Ok docs
    /\ length docs = length rs
    /\ forall i doc, docs !! i = Some doc ->
       exists d m row_id,
         doc = PDict d
         /\ PyDict.get "id" d = Some (PStr row_id)
         /\ PyDict.get "metadata" d = Some (PDict m)
         /\ PyDict.get "row_id" m = Some (PStr row_id)
         /\ PyDict.get "table_name" m = Some (PStr (tc_name table_cfg))
         /\ PyDict.get "row_index" m = Some (PInt (Z.of_nat (idx + i))).
Proof.
  intros Hid Hcols. induction rs as [|row rs IH]; intros idx; simpl.
  - exists []. repeat split. intros i doc Hi. by rewrite lookup_nil in Hi.
  - unfold row_doc.
    destruct (row_get_present df row _ Hid) as [c ->]. simpl.
    destruct (row_parts_present df row text_cols Hcols) as [parts ->]. simpl.
    destruct (IH (S idx)) as (docs & -> & Hlen & Hdocs). simpl.
    eexists. split; [reflexivity|]. split; [simpl; lia|].
    intros [|i] doc Hi; simpl in Hi.
    + injection Hi as <-. do 3 eexists. rewrite Nat.add_0_r. repeat split.
    + destruct (Hdocs i doc Hi) as (d & m & row_id & H). exists d, m, row_id.
      by replace (idx + S i) with (S idx + i) by lia.
Qed.

(** X15.  When the text columns are left to be inferred, they are the
    columns of the table other than the identifier column, and loading the
    rows of an existing, parsed file that has the identifier column does not
    raise: it returns one document per row, in order, each carrying the
    table name, its row number as [row_index], and the same text as [id] and
    as [row_id]. *)
Theorem load_rows_one_document_per_row (fs : FileSystem) table_cfg df :
  fs !! tc_path table_cfg = Some (Ok df) ->
  has_column (tc_id_column table_cfg) df = true ->
  match tc_text_columns table_cfg with
  | Some (_ :: _) => False
  | _ => True
  end ->
  (forall c, c ∈ infer_text_columns df table_cfg
             <-> c ∈ columns df /\ c <> tc_id_column table_cfg)
  /\ exists docs,
       _load_table_rows_as_text lib fs table_cfg = Ok docs
       /\ length docs = n_rows df
       /\ forall i doc, docs !! i = Some doc ->
          exists d m row_id,
            doc = PDict d
            /\ PyDict.get "id" d = Some (PStr row_id)
            /\ PyDict.get "metadata" d = Some (PDict m)
            /\ PyDict.get "row_id" m = Some (PStr row_id)
            /\ PyDict.get "table_name" m = Some (PStr (tc_name table_cfg))
            /\ PyDict.get "row_index" m = Some (PInt (Z.of_nat i)).
Proof.
  intros Hfs Hid Hnone.
  destruct (inferred_columns_present df table_cfg Hnone) as [Hcols Hiff].
  split; [exact Hiff|].
  unfold _load_table_rows_as_text, read_csv. rewrite Hfs. simpl. rewrite Hid. simpl.
  destruct (rows_docs_present table_cfg df _ Hid Hcols (rows df) 0)
    as (docs & Hdocs & Hlen & Hshape).
  exists docs. split; [exact Hdocs|]. split; [exact Hlen|]. exact Hshape.
Qed.

(** X16.  When the text columns are given and one of them is not a column of
    the table, loading the rows of a table that has at least one row raises
    [KeyError] for the first such column, and loading a table without rows
    returns no document. *)
Theorem load_rows_unknown_text_column (fs : FileSystem) table_cfg df before col after :
  fs !! tc_path table_cfg = Some (Ok df) ->
  has_column (tc_id_column table_cfg) df = true ->
  tc_text_columns table_cfg = Some (before ++ col :: after)%list ->
  Forall (fun c => has_column c df = true) before ->
  has_column col df = false ->
  _load_table_rows_as_text lib fs table_cfg
  = match rows df with
    | [] => Ok []
    | _ :: _ => Raise (err "KeyError" (repr_str col))
    end.
Proof.
  intros Hfs Hid Htext Hbefore Hcol.
  unfold _load_table_rows_as_text, read_csv. rewrite Hfs. simpl. rewrite Hid. simpl.
  assert (Hinfer : infer_text_columns df table_cfg = (before ++ col :: after)%list).
  { unfold infer_text_columns. rewrite Htext. by destruct before. }
  rewrite Hinfer. destruct (rows df) as [|row rs]; [done|].
  simpl. unfold row_doc.
  destruct (row_get_present df row _ Hid) as [c ->]. simpl.
  by rewrite (row_parts_first_absent df row before col after Hbefore Hcol).
Qed.

End LoaderProperties.

(** ** The stage agents *)

Section AgentProperties.

Variable w : World.

Lemma dict_get_set k v (d : Dict) : PyDict.get k (PyDict.set k v d) = Some v.
Proof.
  induction d as [|[k' v'] d IH]; simpl.
  - by rewrite String.eqb_refl.
  - destruct (String.eqb k k') eqn:Heq; simpl; rewrite Heq; [done|exact IH].
Qed.

Lemma set_item_ok obj key value result :
  set_item obj key value = Ok result ->
  exists d, obj = PDict d /\ result = PDict (PyDict.set key value d).
Proof. destruct obj; try done. intros [= <-]. by eexists. Qed.

Lemma set_item_not_dict obj key value :
  (forall d, obj <> PDict d) ->
  exists msg, set_item obj key value = Raise (err "TypeError" msg).
Proof. intros Hobj. destruct obj; simpl; try by eexists. by destruct (Hobj d). Qed.

Lemma oncologist_view_is_tagged uq view :
  generate_oncologist_view w uq = Ok view ->
  exists d, view = PDict d
            /\ PyDict.get "_prompt_id" d = Some (PStr (oncologist_prompt_id w)).
Proof.
  unfold generate_oncologist_view.
  destruct (_chat_completion w _) as [raw|e]; simpl; [|done].
  intros (d & _ & ->)%set_item_ok. eexists. split; [done|]. apply dict_get_set.
Qed.

Lemma planner_plan_is_tagged uq view plan :
  generate_planner_plan w uq view = Ok plan ->
  exists d, plan = PDict d
            /\ PyDict.get "_prompt_id" d = Some (PStr (planner_prompt_id w)).
Proof.
  unfold generate_planner_plan.
  destruct (json_dumps view) as [[]|e]; simpl; [|done].
  destruct (read_metadata w) as [text|e]; simpl.
  - destruct (_chat_completion w _) as [raw|e]; simpl; [|done].
    intros (d & _ & ->)%set_item_ok. eexists. split; [done|]. apply dict_get_set.
  - destruct (String.eqb (exc_class e) "FileNotFoundError"); simpl; [|done].
    destruct (_chat_completion w _) as [raw|e']; simpl; [|done].
    intros (d & _ & ->)%set_item_ok. eexists. split; [done|]. apply dict_get_set.
Qed.

(** X17.  Whatever the interpreter and the planner agents return is a dict
    whose [_prompt_id] is the identifier of the prompt in use, also when the
    reply of the model carried a [_prompt_id] of its own. *)
Theorem agent_views_carry_prompt_id uq view :
  (forall v, generate_oncologist_view w uq = Ok v ->
     exists d, v = PDict d
               /\ PyDict.get "_prompt_id" d = Some (PStr (oncologist_prompt_id w)))
  /\ (forall p, generate_planner_plan w uq view = Ok p ->
        exists d, p = PDict d
                  /\ PyDict.get "_prompt_id" d = Some (PStr (planner_prompt_id w))).
Proof.
  split; [apply oncologist_view_is_tagged|apply planner_plan_is_tagged].
Qed.

(** X18.  A reply that is not JSON does not fail the interpreter agent: the
    stripped reply is returned as [raw_text] with [parse_error] true and the
    prompt identifier. *)
Theorem unparsable_reply_is_data uq reply :
  backend w (ReqOncologist uq) = Ok (Some reply) ->
  json_loads w (PyStr.strip reply) = None ->
  generate_oncologist_view w uq
  = Ok (PDict [("raw_text", PStr (PyStr.strip reply));
               ("parse_error", PBool true);
               ("_prompt_id", PStr (oncologist_prompt_id w))]).
Proof.
  intros Hreply Hjson.
  unfold generate_oncologist_view, _chat_completion, _safe_json_parse.
  rewrite Hreply. simpl. by rewrite Hjson.
Qed.

End AgentProperties.

(** ** The graph *)

Section GraphProperties.

Variable w : World.
Variable config : IngestionConfig.

Lemma take_length (n : nat) (s : string) : String.length (PyStr.take n s) <= n.
Proof.
  unfold PyStr.take. revert s.
  induction n as [|n IH]; intros [|c s]; simpl; try lia.
  specialize (IH s). lia.
Qed.

Lemma oncologist_node_ok state patch :
  oncologist_node w state = Ok patch ->
  exists uq d, state !! "user_query" = Some uq
               /\ patch = {["oncologist_view" := PDict d]}.
Proof.
  unfold oncologist_node, get_item.
  destruct (state !! "user_query") as [uq|]; simpl; [|done].
  destruct (generate_oncologist_view w uq) as [view|e] eqn:Hview; simpl; [|done].
  destruct (oncologist_view_is_tagged w uq view Hview) as (d & -> & _).
  intros [= <-]. by exists uq, d.
Qed.

Lemma planner_node_ok state patch :
  planner_node w state = Ok patch ->
  exists d, patch = {["plan" := PDict d]}.
Proof.
  unfold planner_node, get_item.
  destruct (state !! "user_query") as [uq|]; simpl; [|done].
  destruct (state !! "oncologist_view") as [view|]; simpl; [|done].
  destruct (generate_planner_plan w uq view) as [plan|e] eqn:Hplan; simpl; [|done].
  destruct (planner_plan_is_tagged w uq view plan Hplan) as (d & -> & _).
  intros [= <-]. by exists d.
Qed.

Lemma writer_node_ok state patch :
  writer_node w state = Ok patch ->
  exists answer, patch = {["final_answer" := PStr answer]}.
Proof.
  unfold writer_node, get_item.
  destruct (state !! "user_query") as [uq|]; simpl; [|done].
  destruct (generate_writer_answer w _ _ _ _) as [answer|e]; simpl; [|done].
  intros [= <-]. by exists answer.
Qed.

Lemma normalize_shape result code er :
  normalize result code = Ok er ->
  is_Some (PyDict.get "steps" er)
  /\ is_Some (PyDict.get "overall_status" er)
  /\ is_Some (PyDict.get "notes" er)
  /\ forall v, PyDict.get "generated_code" er = Some v ->
     exists s, v = PStr s /\ String.length s <= 4000.
Proof.
  unfold normalize.
  destruct (ret_is_dict result) as [[|]|e]; simpl; [| |done].
  - destruct (ret_get result "steps" _) as [steps|e]; simpl; [|done].
    destruct (ret_get result "overall_status" _) as [status|e]; simpl; [|done].
    intros [= <-]. simpl.
    split; [by eexists|]. split; [by eexists|]. split; [by eexists|].
    intros v. discriminate.
  - destruct (ret_str result) as [text|e]; simpl; [|done].
    intros [= <-]. simpl.
    split; [by eexists|]. split; [by eexists|]. split; [by eexists|].
    intros v [= <-]. eexists. split; [done|apply take_length].
Qed.

Lemma analyst_patch_shape state patch :
  analyst_node_smart w config state = Ok patch ->
  (exists er,
     patch !! "execution_result" = Some (PDict er)
     /\ is_Some (PyDict.get "steps" er)
     /\ is_Some (PyDict.get "overall_status" er)
     /\ is_Some (PyDict.get "notes" er)
     /\ forall v, PyDict.get "generated_code" er = Some v ->
        exists s, v = PStr s /\ String.length s <= 4000)
  /\ (forall v, patch !! "analyst_generated_code" = Some v ->
      exists s, v = PStr s /\ String.length s <= 4000)
  /\ patch !! "user_query" = None
  /\ patch !! "oncologist_view" = None
  /\ patch !! "plan" = None
  /\ patch !! "final_answer" = None.
Proof.
  unfold analyst_node_smart, get_item.
  destruct (state !! "user_query") as [uq|]; simpl; [|done].
  destruct (generate_analyst_code w uq _ _ config) as [code|e]; simpl.
  - destruct (run_generated w code) as [result|e]; simpl.
    + destruct (normalize result code) as [er|e] eqn:Hnorm; simpl; [|done].
      intros [= <-]. split; [|split].
      * exists er. split; [apply lookup_insert_eq|].
        by apply (normalize_shape result code).
      * intros v. rewrite lookup_insert_ne by done. rewrite lookup_singleton_eq.
        intros [= <-]. eexists; split; [done|apply take_length].
      * by rewrite !lookup_insert_ne, !lookup_singleton_ne by done.
    + destruct (exc_kind e); [|done].
      destruct (str_exc e 0) as [error|e0]; simpl; [|done].
      destruct (str_exc e 1) as [analyst_error|e1]; simpl; [|done].
      intros [= <-]. split; [|split].
      * exists (execution_failed error code). split; [apply lookup_insert_eq|].
        simpl. repeat split; try (by eexists).
        intros v [= <-]. eexists. split; [done|apply take_length].
      * intros v. rewrite lookup_insert_ne by done. rewrite lookup_insert_eq.
        intros [= <-]. eexists; split; [done|apply take_length].
      * by rewrite !lookup_insert_ne, !lookup_singleton_ne by done.
  - destruct (exc_kind e); [|done].
    destruct (str_exc e 0) as [error|e0]; simpl; [|done].
    destruct (str_exc e 1) as [analyst_error|e1]; simpl; [|done].
    intros [= <-]. split; [|split].
    + exists (synthesis_failed error). split; [apply lookup_insert_eq|].
      simpl. repeat split; try done; by eexists.
    + intros v. rewrite lookup_insert_ne by done. by rewrite lookup_singleton_ne.
    + by rewrite !lookup_insert_ne, !lookup_singleton_ne by done.
Qed.

(** X19.  Whenever the analyst stage returns, its patch holds an
    [execution_result] that is a dict with [steps], [overall_status] and
    [notes]; the generated code it stores, in the patch and in the result,
    is at most 4000 characters long; and the patch touches none of
    [user_query], [oncologist_view], [plan] and [final_answer]. *)
Theorem analyst_patch_well_formed state patch :
  analyst_node_smart w config state = Ok patch ->
  (exists er,
     patch !! "execution_result" = Some (PDict er)
     /\ is_Some (PyDict.get "steps" er)
     /\ is_Some (PyDict.get "overall_status" er)
     /\ is_Some (PyDict.get "notes" er)
     /\ forall v, PyDict.get "generated_code" er = Some v ->
        exists s, v = PStr s /\ String.length s <= 4000)
  /\ (forall v, patch !! "analyst_generated_code" = Some v ->
      exists s, v = PStr s /\ String.length s <= 4000)
  /\ patch !! "user_query" = None
  /\ patch !! "oncologist_view" = None
  /\ patch !! "plan" = None
  /\ patch !! "final_answer" = None.
Proof. apply analyst_patch_shape. Qed.

End GraphProperties.

Section RunProperties.

Variable w : World.
Variable config : IngestionConfig.

(** X20.  A run whose input has no [user_query] raises [KeyError] in the
    first stage, with either analyst. *)
Theorem invoke_without_query (use_smart_analyst : bool) (input : ChatState) :
  input !! "user_query" = None ->
  invoke w config use_smart_analyst input
  = Raise (err "KeyError" (repr_str "user_query")).
Proof.
  intros Hnone. unfold invoke, run_node, oncologist_node, get_item.
  by rewrite Hnone.
Qed.

(** X21.  An exception of the backend in the interpreter stage is not
    contained: the run raises it, with either analyst. *)
Theorem invoke_oncologist_backend_error (use_smart_analyst : bool) (input : ChatState)
    uq e :
  input !! "user_query" = Some uq ->
  backend w (ReqOncologist uq) = Raise e ->
  invoke w config use_smart_analyst input = Raise e.
Proof.
  intros Huq Hbackend.
  unfold invoke, run_node, oncologist_node, get_item. rewrite Huq. simpl.
  unfold generate_oncologist_view, _chat_completion. by rewrite Hbackend.
Qed.

(** X22.  A reply to the interpreter stage that is valid JSON but not an
    object, such as a list or a number, makes the run raise [TypeError]. *)
Theorem invoke_non_object_reply (use_smart_analyst : bool) (input : ChatState)
    uq reply v :
  input !! "user_query" = Some uq ->
  backend w (ReqOncologist uq) = Ok (Some reply) ->
  json_loads w (PyStr.strip reply) = Some v ->
  (forall d, v <> PDict d) ->
  exists msg,
    invoke w config use_smart_analyst input = Raise (err "TypeError" msg).
Proof.
  intros Huq Hbackend Hjson Hv.
  destruct (set_item_not_dict v "_prompt_id" (PStr (oncologist_prompt_id w)) Hv)
    as [msg Hset].
  exists msg.
  unfold invoke, run_node, oncologist_node, get_item. rewrite Huq. simpl.
  unfold generate_oncologist_view, _chat_completion, _safe_json_parse.
  rewrite Hbackend. simpl. rewrite Hjson, Hset. done.
Qed.

Lemma analyst_dumb_ok state :
  analyst_node_dumb state
  = Ok {["execution_result" :=
           PDict [("steps", PList []);
                  ("overall_status", PStr "failed");
                  ("notes", PStr "Dumb analyst not implemented; enable use_smart_analyst=True.")]]}.
Proof. reflexivity. Qed.

(** The record of a run that returns, stage by stage. *)
Lemma invoke_ok_stages (use_smart_analyst : bool) (input final : ChatState) :
  invoke w config use_smart_analyst input = Ok final ->
  exists uq view plan analysis answer,
    input !! "user_query" = Some uq
    /\ (if use_smart_analyst
        then analyst_node_smart w config
               ({["plan" := PDict plan]}
                ∪ ({["oncologist_view" := PDict view]} ∪ input))
        else analyst_node_dumb
               ({["plan" := PDict plan]}
                ∪ ({["oncologist_view" := PDict view]} ∪ input)))
       = Ok analysis
    /\ final = {["final_answer" := PStr answer]}
               ∪ (analysis
                  ∪ ({["plan" := PDict plan]}
                     ∪ ({["oncologist_view" := PDict view]} ∪ input))).
Proof.
  unfold invoke, run_node.
  destruct (oncologist_node w input) as [p1|e] eqn:H1; simpl; [|done].
  destruct (oncologist_node_ok w input p1 H1) as (uq & view & Huq & ->).
  destruct (planner_node w _) as [p2|e] eqn:H2; simpl; [|done].
  destruct (planner_node_ok w _ p2 H2) as (plan & ->).
  destruct ((if use_smart_analyst then analyst_node_smart w config
             else analyst_node_dumb) _) as [p3|e] eqn:H3; simpl; [|done].
  destruct (writer_node w _) as [p4|e] eqn:H4; simpl; [|done].
  destruct (writer_node_ok w _ p4 H4) as (answer & ->).
  intros [= <-]. exists uq, view, plan, p3, answer.
  split; [done|]. split; [|done]. by destruct use_smart_analyst.
Qed.

(** X23.  The record of a run that returns holds the query as it was given
    and the outputs of all four stages: [oncologist_view] and [plan] are
    dicts, [execution_result] is a dict with [steps], [overall_status] and
    [notes], and [final_answer] is a text; values of the input under these
    four keys are replaced. *)
Theorem invoke_record_complete (use_smart_analyst : bool) (input final : ChatState) :
  invoke w config use_smart_analyst input = Ok final ->
  is_Some (input !! "user_query")
  /\ final !! "user_query" = input !! "user_query"
  /\ exists view plan er answer,
       final !! "oncologist_view" = Some (PDict view)
       /\ final !! "plan" = Some (PDict plan)
       /\ final !! "execution_result" = Some (PDict er)
       /\ is_Some (PyDict.get "steps" er)
       /\ is_Some (PyDict.get "overall_status" er)
       /\ is_Some (PyDict.get "notes" er)
       /\ final !! "final_answer" = Some (PStr answer).
Proof.
  intros Hrun.
  destruct (invoke_ok_stages use_smart_analyst input final Hrun)
    as (uq & view & plan & analysis & answer & Huq & Hanalysis & ->).
  assert (Hshape :
    (exists er,
       analysis !! "execution_result" = Some (PDict er)
       /\ is_Some (PyDict.get "steps" er)
       /\ is_Some (PyDict.get "overall_status" er)
       /\ is_Some (PyDict.get "notes" er))
    /\ analysis !! "user_query" = None
    /\ analysis !! "oncologist_view" = None
    /\ analysis !! "plan" = None
    /\ analysis !! "final_answer" = None).
  { destruct use_smart_analyst.
    - destruct (analyst_patch_shape w config _ _ Hanalysis)
        as ((er & Her & H1 & H2 & H3 & _) & _ & Hq & Hv & Hp & Hf).
      split; [by exists er|done].
    - rewrite analyst_dumb_ok in Hanalysis. injection Hanalysis as <-.
      split; [|by rewrite !lookup_singleton_ne by done].
      eexists. split; [apply lookup_singleton_eq|]. simpl. repeat split; by eexists. }
  destruct Hshape as ((er & Her & H1 & H2 & H3) & Hq & Hv & Hp & Hf).
  split; [by rewrite Huq|]. split.
  - rewrite lookup_union_r by (by rewrite lookup_singleton_ne).
    rewrite lookup_union_r by done.
    rewrite lookup_union_r by (by rewrite lookup_singleton_ne).
    by rewrite lookup_union_r by (by rewrite lookup_singleton_ne).
  - exists view, plan, er, answer. repeat split; try done.
    + rewrite lookup_union_r by (by rewrite lookup_singleton_ne).
      rewrite lookup_union_r by done.
      rewrite lookup_union_r by (by rewrite lookup_singleton_ne).
      apply lookup_union_Some_l, lookup_singleton_eq.
    + rewrite lookup_union_r by (by rewrite lookup_singleton_ne).
      rewrite lookup_union_r by done.
      apply lookup_union_Some_l, lookup_singleton_eq.
    + rewrite lookup_union_r by (by rewrite lookup_singleton_ne).
      by apply lookup_union_Some_l.
    + apply lookup_union_Some_l, lookup_singleton_eq.
Qed.

(** X24.  With [use_smart_analyst] false no code is generated or run: the
    record of a run that returns has the fixed failed [execution_result] of
    the stub analyst, and the run is the same with any interpreter of
    generated code. *)
Theorem invoke_dumb_analyst (input final : ChatState) :
  invoke w config false input = Ok final ->
  final !! "execution_result"
  = Some (PDict [("steps", PList []);
                 ("overall_status", PStr "failed");
                 ("notes", PStr "Dumb analyst not implemented; enable use_smart_analyst=True.")])
  /\ final !! "analyst_generated_code" = input !! "analyst_generated_code"
  /\ forall exec, invoke (with_py_exec w exec) config false input = Ok final.
Proof.
  intros Hrun. split; [|split; [|by intros exec]].
  - destruct (invoke_ok_stages false input final Hrun)
      as (uq & view & plan & analysis & answer & Huq & Hanalysis & ->).
    rewrite analyst_dumb_ok in Hanalysis. injection Hanalysis as <-.
    rewrite lookup_union_r by (by rewrite lookup_singleton_ne).
    apply lookup_union_Some_l, lookup_singleton_eq.
  - destruct (invoke_ok_stages false input final Hrun)
      as (uq & view & plan & analysis & answer & Huq & Hanalysis & ->).
    rewrite analyst_dumb_ok in Hanalysis. injection Hanalysis as <-.
    by rewrite !lookup_union_r by (by rewrite lookup_singleton_ne).
Qed.

End RunProperties.

(** ** The vector store *)

Import VectorStore.

Section StoreProperties.

Variable st : Store.

Lemma batch_is_take (chunks : list DocChunk) (bs start : nat) :
  take (Nat.min (start + bs) (length chunks) - start) (drop start chunks)
  = take bs (drop start chunks).
Proof.
  destruct (Nat.le_gt_cases (start + bs) (length chunks)) as [Hle|Hgt].
  - rewrite Nat.min_l by done. f_equal. lia.
  - rewrite Nat.min_r by lia.
    rewrite !take_ge; [done|rewrite length_drop; lia..].
Qed.

(** The loop over consecutive starts [j * bs], ..., [(j + m - 1) * bs]. *)
Lemma add_batches_prefix (chunks : list DocChunk) (bs : nat) :
  0 < bs ->
  forall m j added,
  concat added = take (j * bs) chunks ->
  Forall (fun b : list DocChunk => 0 < length b <= bs) added ->
  (forall k, j <= k < j + m -> k * bs < length chunks) ->
  exists j',
    j <= j' <= j + m
    /\ concat (add_batches st chunks bs (map (fun k => k * bs) (seq j m)) added).2
       = take (j' * bs) chunks
    /\ Forall (fun b : list DocChunk => 0 < length b <= bs)
         (add_batches st chunks bs (map (fun k => k * bs) (seq j m)) added).2
    /\ ((add_batches st chunks bs (map (fun k => k * bs) (seq j m)) added).1 = Ok () ->
        j' = j + m).
Proof.
  intros Hbs. induction m as [|m IH]; intros j added Hadded Hsizes Hstarts; simpl.
  - exists j. repeat split; try done; lia.
  - rewrite batch_is_take.
    destruct (add_error st added (take bs (drop (j * bs) chunks))) as [e|]; simpl.
    + exists j. repeat split; try done; lia.
    + destruct (IH (S j) (added ++ [take bs (drop (j * bs) chunks)])%list)
        as (j' & Hj' & Hconcat & Hall & Hok).
      * rewrite concat_app, Hadded. simpl. rewrite app_nil_r.
        rewrite take_take_drop. f_equal. lia.
      * apply Forall_app. split; [done|]. constructor; [|done].
        rewrite length_take, length_drop.
        specialize (Hstarts j ltac:(lia)). lia.
      * intros k Hk. apply Hstarts. lia.
      * exists j'. split; [lia|]. split; [done|]. split; [done|].
        intros H. specialize (Hok H). lia.
Qed.

Lemma range_covers (n bs : nat) :
  0 < bs ->
  n <= ((n + bs - 1) / bs) * bs
  /\ forall k, k < (n + bs - 1) / bs -> k * bs < n.
Proof.
  intros Hbs.
  pose proof (Nat.div_mod_eq (n + bs - 1) bs) as Hdiv.
  pose proof (Nat.mod_upper_bound (n + bs - 1) bs ltac:(lia)) as Hmod.
  split; [nia|]. intros k Hk. nia.
Qed.

(** X25.  The batches [index_chunks] adds to the collection are always a
    beginning of the chunks, cut in order into batches of 1 to [batch_size]
    chunks: what was added before an exception of the collection stays
    added, and when [index_chunks] returns with a positive batch size, every
    chunk has been added exactly once.  With a negative batch size it
    returns without adding any chunk. *)
Theorem index_chunks_adds_in_order (chunks : list DocChunk) (batch_size : Z) :
  (exists k, concat (index_chunks st chunks batch_size).2 = take k chunks)
  /\ Forall (fun b : list DocChunk => (0 < Z.of_nat (length b) <= batch_size)%Z)
       (index_chunks st chunks batch_size).2
  /\ ((0 < batch_size)%Z ->
      (index_chunks st chunks batch_size).1 = Ok () ->
      concat (index_chunks st chunks batch_size).2 = chunks)
  /\ ((batch_size < 0)%Z ->
      index_chunks st chunks batch_size = (Ok (), [])).
Proof.
  unfold index_chunks. destruct chunks as [|c chunks]; [by repeat split; try exists 0|].
  destruct (Z.eqb_spec batch_size 0) as [->|Hne].
  { repeat split; try done; try lia. by exists 0. }
  destruct (Z.ltb_spec batch_size 0) as [Hneg|Hpos].
  { repeat split; try done; try lia. by exists 0. }
  set (bs := Z.to_nat batch_size). set (l := c :: chunks).
  assert (Hbs : 0 < bs) by (unfold bs; lia).
  destruct (range_covers (length l) bs Hbs) as [Hcover Hstart].
  destruct (add_batches_prefix l bs Hbs ((length l + bs - 1) / bs) 0 [])
    as (j' & Hj' & Hconcat & Hall & Hok); [done|done|intros k Hk; apply Hstart; lia|].
  unfold range_from_0. split; [by eexists|]. split; [|split; [|lia]].
  - eapply Forall_impl; [exact Hall|]. intros b Hb. simpl in Hb. unfold bs in Hb. lia.
  - intros _ H. rewrite Hconcat, (Hok H). apply take_ge. rewrite Nat.add_0_l. exact Hcover.
Qed.

Lemma search_hits_length docs : forall metas dists,
  length (search_hits docs metas dists)
  = Nat.min (length docs) (Nat.min (length metas) (length dists)).
Proof.
  induction docs as [|doc docs IH]; intros [|meta metas] [|dist dists]; simpl; try done.
  by rewrite IH.
Qed.

Lemma search_hits_lookup docs : forall metas dists i doc meta dist,
  docs !! i = Some doc ->
  metas !! i = Some meta ->
  dists !! i = Some dist ->
  search_hits docs metas dists !! i = Some (search_hit doc meta dist).
Proof.
  induction docs as [|d docs IH]; intros [|m metas] [|x dists] [|i] doc meta dist;
    simpl; try done.
  - by intros [= ->] [= ->] [= ->].
  - apply IH.
Qed.

(** The [id] of a hit: the first of [row_id] and [patient_id] that the
    metadata has with a true value, or else "UNKNOWN". *)
Lemma search_hit_id doc (meta : Dict) dist :
  let entry key :=
    match PyDict.get key meta with
    | Some v => if py_truthy v then Some v else None
    | None => None
    end in
  let id := default (default (PStr "UNKNOWN") (entry "patient_id")) (entry "row_id") in
  search_hit doc meta dist
  = PDict [("id", id); ("snippet", PStr doc); ("metadata", PDict meta);
           ("distance", PFloat dist)]
  /\ py_truthy id = true.
Proof.
  unfold search_hit, py_or. simpl.
  destruct (PyDict.get "row_id" meta) as [r|]; simpl;
    [destruct (py_truthy r) eqn:Hr; simpl; rewrite ?Hr; [done|]|];
    (destruct (PyDict.get "patient_id" meta) as [q|]; simpl;
       [destruct (py_truthy q) eqn:Hq; simpl; rewrite ?Hq; done|done]).
Qed.

(** X26.  A search that returns gives one hit per triple of document,
    metadata and distance of the query, as many as the shortest of the three
    lists, hit number [i] being made of the triple number [i]: its [snippet]
    is the document, its [metadata] the metadata, its [distance] the
    distance, and its [id] the [row_id] of the metadata when it has one with
    a true value, or else its [patient_id] when it has one with a true
    value, or else "UNKNOWN"; so that the [id] is never [None] or an empty
    text. *)
Theorem vector_search_hits (query : string) (k : Z) hits :
  vector_search_patients st query k = Ok hits ->
  exists docs metas dists,
    query_result st query k = Ok (docs, metas, dists)
    /\ length hits = Nat.min (length docs) (Nat.min (length metas) (length dists))
    /\ forall i doc meta dist,
         docs !! i = Some doc ->
         metas !! i = Some meta ->
         dists !! i = Some dist ->
         let entry key :=
           match PyDict.get key meta with
           | Some v => if py_truthy v then Some v else None
           | None => None
           end in
         let id := default (default (PStr "UNKNOWN") (entry "patient_id")) (entry "row_id") in
         hits !! i
         = Some (PDict [("id", id); ("snippet", PStr doc); ("metadata", PDict meta);
                        ("distance", PFloat dist)])
         /\ py_truthy id = true.
Proof.
  unfold vector_search_patients.
  destruct get_or_create_chroma_collection as [[]|e]; simpl; [|done].
  destruct (query_result st query k) as [[[docs metas] dists]|e]; simpl; [|done].
  intros [= <-]. exists docs, metas, dists. split; [done|].
  split; [apply search_hits_length|].
  intros i doc meta dist Hdoc Hmeta Hdist.
  rewrite (search_hits_lookup docs metas dists i doc meta dist Hdoc Hmeta Hdist).
  pose proof (search_hit_id doc meta dist) as Hhit. cbv zeta in Hhit |- *.
  destruct Hhit as [Hhit Hid]. split; [by rewrite Hhit|exact Hid].
Qed.

(** X27.  Without a key in [OPENAI_API_KEY], be it unset or empty, a search
    raises [RuntimeError] once the directory of the store is made, whatever
    the collection would have answered. *)
Theorem vector_search_without_key (query : string) (k : Z) :
  mkdir_result st = Ok () ->
  (openai_api_key st = None \/ openai_api_key st = Some EmptyString) ->
  vector_search_patients st query k
  = Raise (err "RuntimeError"
             "OPENAI_API_KEY is not set. Set it in your environment or .env file.").
Proof.
  intros Hmkdir Hkey.
  unfold vector_search_patients, get_or_create_chroma_collection, get_embedding_function.
  rewrite Hmkdir. simpl. by destruct Hkey as [-> | ->].
Qed.

End StoreProperties.

(** ** The further properties at concrete data *)

Lemma apply_filter_returns_sub_table_witness :
  columns Sample.stage4_patients = columns Sample.patients
  /\ rows Sample.stage4_patients `sublist_of` rows Sample.patients.
Proof.
  apply (apply_filter_returns_sub_table Sample.lib Sample.patients (Some Demo.stage4)).
  reflexivity.
Defined.

Lemma apply_filter_kept_cells_witness :
  Forall (fun c => re_search_ignorecase Sample.lib "stage 4" (cell_str Sample.lib c) = true)
    (column "Stage" Sample.stage4_patients).
Proof.
  apply (apply_filter_kept_cells Sample.lib Sample.patients Demo.stage4 "Stage"
           (PStr "stage 4") Sample.stage4_patients).
  - apply list_elem_of_here.
  - reflexivity.
  - reflexivity.
Defined.

Lemma load_table_again_from_cache_witness :
  _load_table ∅ "data/patients.tsv" [("data/patients.tsv", Sample.patients)]
  = (Ok Sample.patients, [("data/patients.tsv", Sample.patients)]).
Proof.
  apply (load_table_again_from_cache Demo.files ∅ "data/patients.tsv" []).
  reflexivity.
Defined.

Lemma load_table_keeps_cache_bounded_witness :
  length (_load_table Demo.files "data/patients.tsv" []).2 <= 16
  /\ NoDup (_load_table Demo.files "data/patients.tsv" []).2.*1.
Proof.
  apply (load_table_keeps_cache_bounded Demo.files "data/patients.tsv" []).
  - simpl. lia.
  - constructor.
Defined.

Lemma load_tables_all_or_nothing_witness :
  (forall t, t ∈ tables Sample.config ->
     exists df, Demo.files !! tc_path t = Some (Ok df))
  /\ (forall k, k ∉ tc_name <$> tables Sample.config -> Demo.loaded !! k = None)
  /\ (NoDup (tc_name <$> tables Sample.config) ->
      forall t, t ∈ tables Sample.config ->
      exists df, Demo.files !! tc_path t = Some (Ok df)
                 /\ Demo.loaded !! tc_name t = Some df).
Proof.
  apply (load_tables_all_or_nothing Demo.files Sample.config [] Demo.loaded).
  - constructor.
  - reflexivity.
Defined.

Lemma cohort_summary_counts_witness :
  exists filtered ids,
    Demo.stage4_context !! "current_cohort" = Some (CtxFrame filtered)
    /\ PyDict.get "row_count" Demo.stage4_result = Some (PInt (Z.of_nat (n_rows filtered)))
    /\ n_rows filtered <= n_rows Sample.patients
    /\ (forall pc, PyDict.get "patient_count" Demo.stage4_result = Some (PInt pc) ->
        (0 <= pc <= Z.of_nat (n_rows filtered))%Z)
    /\ PyDict.get "sample_patient_ids" Demo.stage4_result = Some (PList ids)
    /\ length ids <= 5
    /\ length ids <= n_rows filtered.
Proof.
  apply (cohort_summary_counts Sample.lib (Sample.filter_step "clinical" Demo.stage4)
           Demo.loaded ∅ "patients" Sample.patients Demo.stage4_result
           Demo.stage4_context); reflexivity.
Defined.

Lemma clinical_means_patients_witness :
  exists r context',
    execute_cohort_filter_step Sample.lib (Sample.filter_step "clinical" Demo.stage4)
      Demo.two_tables ∅ = Ok (r, context')
    /\ PyDict.get "table_used" r = Some (PStr "patients")
    /\ context' !! "current_cohort" = Some (CtxFrame Sample.stage4_patients)
    /\ context' !! "current_cohort_table" = Some (CtxPy (PStr "patients")).
Proof.
  apply (clinical_means_patients Sample.lib (Sample.filter_step "clinical" Demo.stage4) []
           Demo.two_tables ∅ Sample.patients Sample.stage4_patients); reflexivity.
Defined.

Lemma descriptives_keep_context_witness :
  Demo.stage4_context = Demo.stage4_context.
Proof.
  apply (descriptives_keep_context Sample.lib (Sample.feature_step "Grade") Demo.loaded
           Demo.stage4_context
           [("step_id", PInt 2); ("name", PStr "stats"); ("tool", PStr "feature_descriptives");
            ("status", PStr "failed"); ("source", PStr "current_cohort");
            ("error", PStr "Feature column not found: Grade")]).
  reflexivity.
Defined.

Lemma chunk_text_covers_tokens_witness :
  exists runs,
    (forall fuel, 8 < fuel ->
       chunk_text Demo.encoder fuel "abcdefgh" 3 1
       = Some (Ok (map (decode Demo.encoder) runs)))
    /\ stitch 1 runs = [97; 98; 99; 100; 101; 102; 103; 104]%Z
    /\ Forall (fun c => (0 < Z.of_nat (length c) <= 3)%Z) runs
    /\ (forall i c, runs !! i = Some c -> S i < length runs -> Z.of_nat (length c) = 3%Z).
Proof.
  apply (chunk_text_covers_tokens Demo.encoder "abcdefgh"
           [97; 98; 99; 100; 101; 102; 103; 104]%Z 3 1).
  - reflexivity.
  - lia.
Defined.

Lemma chunk_text_never_returns_witness :
  chunk_text Demo.encoder 1000 "abcdefgh" 3 3 = None.
Proof.
  apply (fun H1 H2 H3 H4 =>
           chunk_text_never_returns Demo.encoder "abcdefgh"
             [97; 98; 99; 100; 101; 102; 103; 104]%Z 3 3 H1 H2 H3 H4 1000).
  - reflexivity.
  - simpl. lia.
  - simpl. lia.
  - lia.
Defined.

Lemma chunk_text_short_text_witness :
  chunk_text Demo.encoder 1 "abc" 3 5 = Some (Ok [decode Demo.encoder [97; 98; 99]%Z]).
Proof.
  apply (chunk_text_short_text Demo.encoder "abc" [97; 98; 99]%Z 3 5 0).
  - reflexivity.
  - simpl. lia.
Defined.

Lemma load_rows_one_document_per_row_witness :
  (forall c, c ∈ Chunking.infer_text_columns Sample.patients Demo.inferred_cfg
             <-> c ∈ columns Sample.patients /\ c <> "Patient ID")
  /\ exists docs,
       Chunking._load_table_rows_as_text Sample.lib Demo.files Demo.inferred_cfg = Ok docs
       /\ length docs = n_rows Sample.patients
       /\ forall i doc, docs !! i = Some doc ->
          exists d m row_id,
            doc = PDict d
            /\ PyDict.get "id" d = Some (PStr row_id)
            /\ PyDict.get "metadata" d = Some (PDict m)
            /\ PyDict.get "row_id" m = Some (PStr row_id)
            /\ PyDict.get "table_name" m = Some (PStr "patients")
            /\ PyDict.get "row_index" m = Some (PInt (Z.of_nat i)).
Proof.
  apply (load_rows_one_document_per_row Sample.lib Demo.files Demo.inferred_cfg
           Sample.patients).
  - reflexivity.
  - reflexivity.
  - exact I.
Defined.

Lemma load_rows_unknown_text_column_witness :
  Chunking._load_table_rows_as_text Sample.lib Demo.files Demo.explicit_cfg
  = Raise (err "KeyError" (repr_str "Grade")).
Proof.
  apply (load_rows_unknown_text_column Sample.lib Demo.files Demo.explicit_cfg
           Sample.patients ["Stage"] "Grade" ["TMB"]).
  - reflexivity.
  - reflexivity.
  - reflexivity.
  - repeat constructor.
  - reflexivity.
Defined.

Lemma agent_views_carry_prompt_id_witness :
  exists d,
    PDict [("_prompt_id", PStr "oncologist_v1")] = PDict d
    /\ PyDict.get "_prompt_id" d = Some (PStr "oncologist_v1").
Proof.
  apply (proj1 (agent_views_carry_prompt_id (Sample.world (Ok None) (Ok None))
                  (PStr "How many stage 4 patients?") (PDict []))).
  reflexivity.
Defined.

Lemma unparsable_reply_is_data_witness :
  generate_oncologist_view (Demo.world_replying (Ok (Some " I cannot say. ")))
    (PStr "How many stage 4 patients?")
  = Ok (PDict [("raw_text", PStr "I cannot say.");
               ("parse_error", PBool true);
               ("_prompt_id", PStr "oncologist_v1")]).
Proof.
  apply (unparsable_reply_is_data (Demo.world_replying (Ok (Some " I cannot say. ")))
           (PStr "How many stage 4 patients?") " I cannot say. "); reflexivity.
Defined.

Lemma analyst_patch_well_formed_witness :
  let patch : ChatState :=
    <["execution_result" :=
        PDict (execution_failed "division by zero" Sample.raising_code)]>
      (<["analyst_generated_code" := PStr (PyStr.take 4000 Sample.raising_code)]>
         {["analyst_error" := PStr "division by zero"]}) in
  (exists er,
     patch !! "execution_result" = Some (PDict er)
     /\ is_Some (PyDict.get "steps" er)
     /\ is_Some (PyDict.get "overall_status" er)
     /\ is_Some (PyDict.get "notes" er)
     /\ forall v, PyDict.get "generated_code" er = Some v ->
        exists s, v = PStr s /\ String.length s <= 4000)
  /\ (forall v, patch !! "analyst_generated_code" = Some v ->
      exists s, v = PStr s /\ String.length s <= 4000)
  /\ patch !! "user_query" = None
  /\ patch !! "oncologist_view" = None
  /\ patch !! "plan" = None
  /\ patch !! "final_answer" = None.
Proof.
  intros patch.
  apply (analyst_patch_well_formed
           (Sample.world (Ok (Some Sample.raising_code)) (Ok (Some "Done.")))
           Sample.config Sample.after_planner patch).
  reflexivity.
Defined.

Lemma invoke_without_query_witness :
  invoke (Sample.world (Ok None) (Ok None)) Sample.config true
    {["question" := PStr "How many stage 4 patients?"]}
  = Raise (err "KeyError" (repr_str "user_query")).
Proof.
  apply (invoke_without_query (Sample.world (Ok None) (Ok None))
           Sample.config true).
  reflexivity.
Defined.

Lemma invoke_oncologist_backend_error_witness :
  invoke (Demo.world_replying (Raise Sample.connection_error)) Sample.config
    true Sample.query
  = Raise Sample.connection_error.
Proof.
  apply (invoke_oncologist_backend_error
           (Demo.world_replying (Raise Sample.connection_error)) Sample.config true
           Sample.query (PStr "How many stage 4 patients?")); reflexivity.
Defined.

Lemma invoke_non_object_reply_witness :
  exists msg,
    invoke (Demo.world_replying (Ok (Some "[1, 2]"))) Sample.config true
      Sample.query
    = Raise (err "TypeError" msg).
Proof.
  apply (invoke_non_object_reply (Demo.world_replying (Ok (Some "[1, 2]")))
           Sample.config true Sample.query (PStr "How many stage 4 patients?")
           "[1, 2]" (PList [PInt 1; PInt 2])); try reflexivity.
  intros d. discriminate.
Defined.

Lemma invoke_record_complete_witness :
  let final : ChatState :=
    {["final_answer" := PStr "Done."]}
    ∪ ({["execution_result" :=
           PDict [("steps", PList []);
                  ("overall_status", PStr "failed");
                  ("notes", PStr "Dumb analyst not implemented; enable use_smart_analyst=True.")]]}
       ∪ Sample.after_planner) in
  is_Some (Sample.query !! "user_query")
  /\ final !! "user_query" = Sample.query !! "user_query"
  /\ exists view plan er answer,
       final !! "oncologist_view" = Some (PDict view)
       /\ final !! "plan" = Some (PDict plan)
       /\ final !! "execution_result" = Some (PDict er)
       /\ is_Some (PyDict.get "steps" er)
       /\ is_Some (PyDict.get "overall_status" er)
       /\ is_Some (PyDict.get "notes" er)
       /\ final !! "final_answer" = Some (PStr answer).
Proof.
  intros final.
  apply (invoke_record_complete
           (Sample.world (Ok (Some Sample.dict_code)) (Ok (Some "Done.")))
           Sample.config false Sample.query final).
  reflexivity.
Defined.

Lemma invoke_dumb_analyst_witness :
  let w := Sample.world (Ok (Some Sample.dict_code)) (Ok (Some "Done.")) in
  let final : ChatState :=
    {["final_answer" := PStr "Done."]}
    ∪ ({["execution_result" :=
           PDict [("steps", PList []);
                  ("overall_status", PStr "failed");
                  ("notes", PStr "Dumb analyst not implemented; enable use_smart_analyst=True.")]]}
       ∪ Sample.after_planner) in
  final !! "execution_result"
  = Some (PDict [("steps", PList []);
                 ("overall_status", PStr "failed");
                 ("notes", PStr "Dumb analyst not implemented; enable use_smart_analyst=True.")])
  /\ final !! "analyst_generated_code" = Sample.query !! "analyst_generated_code"
  /\ forall exec, invoke (with_py_exec w exec) Sample.config false Sample.query
                  = Ok final.
Proof.
  intros w final.
  apply (invoke_dumb_analyst w Sample.config Sample.query final).
  reflexivity.
Defined.

Lemma index_chunks_adds_in_order_witness :
  concat (index_chunks (Demo.store None) Demo.chunks 2).2 = Demo.chunks.
Proof.
  apply (proj1 (proj2 (proj2
           (index_chunks_adds_in_order (Demo.store None) Demo.chunks 2)))).
  - lia.
  - reflexivity.
Defined.

Lemma vector_search_hits_witness :
  let hits :=
    [PDict [("id", PStr "P-1"); ("snippet", PStr "Stage: Stage 4");
            ("metadata", PDict [("row_id", PStr "P-1"); ("table_name", PStr "patients")]);
            ("distance", PFloat (Qc_of_Z 0))];
     PDict [("id", PStr "UNKNOWN"); ("snippet", PStr "patients: Stage, TMB");
            ("metadata", PDict [("filename", PStr "clinical_patient_meta.txt")]);
            ("distance", PFloat (Qc_of_Z 1))]] in
  exists docs metas dists,
    query_result (Demo.store (Some "sk-test")) "stage 4" 5 = Ok (docs, metas, dists)
    /\ length hits = Nat.min (length docs) (Nat.min (length metas) (length dists))
    /\ forall i doc meta dist,
         docs !! i = Some doc ->
         metas !! i = Some meta ->
         dists !! i = Some dist ->
         let entry key :=
           match PyDict.get key meta with
           | Some v => if py_truthy v then Some v else None
           | None => None
           end in
         let id := default (default (PStr "UNKNOWN") (entry "patient_id")) (entry "row_id") in
         hits !! i
         = Some (PDict [("id", id); ("snippet", PStr doc); ("metadata", PDict meta);
                        ("distance", PFloat dist)])
         /\ py_truthy id = true.
Proof.
  intros hits.
  apply (vector_search_hits (Demo.store (Some "sk-test")) "stage 4" 5 hits).
  reflexivity.
Defined.

(** The hit of a chunk of the metadata file, which has no [row_id], is filed
    under "UNKNOWN". *)
Example vector_search_ids_example :
  (hits ← vector_search_patients (Demo.store (Some "sk-test")) "stage 4" 5;
   Ok (map (fun hit => match hit with
                       | PDict d => PyDict.get "id" d
                       | _ => None
                       end) hits))
  = Ok [Some (PStr "P-1"); Some (PStr "UNKNOWN")].
Proof. reflexivity. Qed.

Lemma vector_search_without_key_witness :
  vector_search_patients (Demo.store None) "stage 4" 5
  = Raise (err "RuntimeError"
             "OPENAI_API_KEY is not set. Set it in your environment or .env file.").
Proof.
  apply (vector_search_without_key (Demo.store None) "stage 4" 5).
  - reflexivity.
  - by left.
Defined.

(** ** The limit of the containment *)

Section WriterProperties.

Variable w : World.
Variable config : IngestionConfig.

Lemma writer_unserialisable (patch s2 : ChatState) uq er :
  s2 !! "user_query" = Some uq ->
  patch !! "user_query" = None ->
  patch !! "oncologist_view" = None ->
  patch !! "plan" = None ->
  patch !! "execution_result" = Some er ->
  json_dumps (get_or_empty s2 "oncologist_view") = Ok () ->
  json_dumps (get_or_empty s2 "plan") = Ok () ->
  json_serializable er = false ->
  run_node (writer_node w) (patch ∪ s2)
  = Raise (err "TypeError" "Object is not JSON serializable").
Proof.
  intros Huq Hp1 Hp2 Hp3 Her Hd1 Hd2 Hd3.
  unfold run_node, writer_node, get_item, get_or_empty in *.
  rewrite (lookup_union_r patch s2 "user_query"), (lookup_union_r patch s2 "oncologist_view"),
    (lookup_union_r patch s2 "plan") by done.
  rewrite (lookup_union_Some_l patch s2 _ er) by done.
  rewrite Huq. simpl. unfold generate_writer_answer.
  rewrite Hd1. simpl. rewrite Hd2. simpl. unfold json_dumps. by rewrite Hd3.
Qed.

(** X28.  The analyst stage accepts a returned dict whose [steps] hold an
    object that [json.dumps] refuses, such as a frame or a number of the
    array library, and the run then raises [TypeError] in the writer stage,
    before the writer's backend call: this failure of generated code is not
    contained. *)
Theorem unserialisable_steps_fail_writer input s2 uq code float_repr d steps :
  (s1 ← run_node (oncologist_node w) input; run_node (planner_node w) s1) = Ok s2 ->
  s2 !! "user_query" = Some uq ->
  generate_analyst_code w uq (get_or_empty s2 "oncologist_view")
    (get_or_empty s2 "plan") config = Ok code ->
  run_generated w code = Ok (returned_value float_repr (PDict d)) ->
  PyDict.get "steps" d = Some steps ->
  json_serializable steps = false ->
  (exists patch, analyst_node_smart w config s2 = Ok patch)
  /\ exists msg, invoke w config true input = Raise (err "TypeError" msg).
Proof.
  intros Hbefore Huq Hcode Hrun Hsteps Hbad.
  pose proof (analyst_returned w config s2 uq code _ Huq Hcode Hrun) as Hanalyst.
  unfold normalize in Hanalyst. simpl in Hanalyst.
  destruct (analyst_code_inputs_serialisable w config _ _ _ _ Hcode) as [Hd1 Hd2].
  split; [by eexists|]. eexists.
  rewrite (invoke_from_planner w config input s2 Hbefore).
  rewrite (run_node_ok _ _ _ Hanalyst), bind_Ok.
  eapply writer_unserialisable; try done; try apply lookup_insert_eq.
  simpl. unfold PyDict.get_default. rewrite Hsteps. simpl. by rewrite Hbad.
Qed.

End WriterProperties.

Lemma unserialisable_steps_fail_writer_witness :
  let returned := [("steps", PList [PObj "DataFrame" "df" "df"])] in
  let w :=
    with_py_exec (Sample.world (Ok (Some Sample.dict_code)) (Ok (Some "Done.")))
      (fun _ => Ok {["run_analysis" :=
                       Callable (Ok (returned_value (float_repr Sample.lib)
                                       (PDict returned)))]}) in
  (exists patch, analyst_node_smart w Sample.config Sample.after_planner = Ok patch)
  /\ exists msg,
       invoke w Sample.config true Sample.query = Raise (err "TypeError" msg).
Proof.
  intros returned w.
  apply (unserialisable_steps_fail_writer w Sample.config Sample.query
           Sample.after_planner (PStr "How many stage 4 patients?") Sample.dict_code
           (float_repr Sample.lib) returned
           (PList [PObj "DataFrame" "df" "df"])); reflexivity.
Defined.
